(** * Player chatbot: the query responder of [streamlit_app.py]

    The development embeds the functions of [streamlit_app.py] that answer a
    query ([load_players], [get_best_match], [format_player_info],
    [get_players_by_category], [process_query]) together with the part of
    Python's [str] they rely on, and proves properties of the responder.

    Layout:
    - [Unicode]: the character tables behind [str.isspace], [str.isdigit],
      [int], [str.lower] and [str.title] (Unicode 14.0.0, the database of
      CPython 3.11);
    - [PyStr]: Python strings as sequences of code points and the string
      methods the program calls;
    - numbers, player records, the world the script runs in, and the monad
      of world-passing computations that may raise;
    - the program;
    - the properties. *)

From Stdlib Require Import String Ascii NArith ZArith Bool Lia List.
From Stdlib Require Import DecimalN DecimalPos DecimalFacts.
Import ListNotations.

(** ** Unicode character tables *)

Module Unicode.

Local Open Scope N_scope.

(** Code points c for which [chr(c).isspace()] holds; [str.strip()] removes exactly these. *)
Definition space_ranges : list (N * N) :=
  [
    (0x9, 0xD); (0x1C, 0x20); (0x85, 0x85); (0xA0, 0xA0); (0x1680, 0x1680); (0x2000, 0x200A);
    (0x2028, 0x2029); (0x202F, 0x202F); (0x205F, 0x205F); (0x3000, 0x3000)
  ].

(** Code points c for which [chr(c).isdigit()] holds. *)
Definition digit_ranges : list (N * N) :=
  [
    (0x30, 0x39); (0xB2, 0xB3); (0xB9, 0xB9); (0x660, 0x669); (0x6F0, 0x6F9); (0x7C0, 0x7C9);
    (0x966, 0x96F); (0x9E6, 0x9EF); (0xA66, 0xA6F); (0xAE6, 0xAEF); (0xB66, 0xB6F);
    (0xBE6, 0xBEF); (0xC66, 0xC6F); (0xCE6, 0xCEF); (0xD66, 0xD6F); (0xDE6, 0xDEF);
    (0xE50, 0xE59); (0xED0, 0xED9); (0xF20, 0xF29); (0x1040, 0x1049); (0x1090, 0x1099);
    (0x1369, 0x1371); (0x17E0, 0x17E9); (0x1810, 0x1819); (0x1946, 0x194F); (0x19D0, 0x19DA);
    (0x1A80, 0x1A89); (0x1A90, 0x1A99); (0x1B50, 0x1B59); (0x1BB0, 0x1BB9); (0x1C40, 0x1C49);
    (0x1C50, 0x1C59); (0x2070, 0x2070); (0x2074, 0x2079); (0x2080, 0x2089); (0x2460, 0x2468);
    (0x2474, 0x247C); (0x2488, 0x2490); (0x24EA, 0x24EA); (0x24F5, 0x24FD); (0x24FF, 0x24FF);
    (0x2776, 0x277E); (0x2780, 0x2788); (0x278A, 0x2792); (0xA620, 0xA629); (0xA8D0, 0xA8D9);
    (0xA900, 0xA909); (0xA9D0, 0xA9D9); (0xA9F0, 0xA9F9); (0xAA50, 0xAA59); (0xABF0, 0xABF9);
    (0xFF10, 0xFF19); (0x104A0, 0x104A9); (0x10A40, 0x10A43); (0x10D30, 0x10D39);
    (0x10E60, 0x10E68); (0x11052, 0x1105A); (0x11066, 0x1106F); (0x110F0, 0x110F9);
    (0x11136, 0x1113F); (0x111D0, 0x111D9); (0x112F0, 0x112F9); (0x11450, 0x11459);
    (0x114D0, 0x114D9); (0x11650, 0x11659); (0x116C0, 0x116C9); (0x11730, 0x11739);
    (0x118E0, 0x118E9); (0x11950, 0x11959); (0x11C50, 0x11C59); (0x11D50, 0x11D59);
    (0x11DA0, 0x11DA9); (0x16A60, 0x16A69); (0x16AC0, 0x16AC9); (0x16B50, 0x16B59);
    (0x1D7CE, 0x1D7FF); (0x1E140, 0x1E149); (0x1E2F0, 0x1E2F9); (0x1E950, 0x1E959);
    (0x1F100, 0x1F10A); (0x1FBF0, 0x1FBF9)
  ].

(** Code points c for which [chr(c).isdecimal()] holds, the ones [int()] reads as digits;
    inside a range the digit value of c is the offset from the start of the range, modulo ten. *)
Definition decimal_ranges : list (N * N) :=
  [
    (0x30, 0x39); (0x660, 0x669); (0x6F0, 0x6F9); (0x7C0, 0x7C9); (0x966, 0x96F);
    (0x9E6, 0x9EF); (0xA66, 0xA6F); (0xAE6, 0xAEF); (0xB66, 0xB6F); (0xBE6, 0xBEF);
    (0xC66, 0xC6F); (0xCE6, 0xCEF); (0xD66, 0xD6F); (0xDE6, 0xDEF); (0xE50, 0xE59);
    (0xED0, 0xED9); (0xF20, 0xF29); (0x1040, 0x1049); (0x1090, 0x1099); (0x17E0, 0x17E9);
    (0x1810, 0x1819); (0x1946, 0x194F); (0x19D0, 0x19D9); (0x1A80, 0x1A89); (0x1A90, 0x1A99);
    (0x1B50, 0x1B59); (0x1BB0, 0x1BB9); (0x1C40, 0x1C49); (0x1C50, 0x1C59); (0xA620, 0xA629);
    (0xA8D0, 0xA8D9); (0xA900, 0xA909); (0xA9D0, 0xA9D9); (0xA9F0, 0xA9F9); (0xAA50, 0xAA59);
    (0xABF0, 0xABF9); (0xFF10, 0xFF19); (0x104A0, 0x104A9); (0x10D30, 0x10D39);
    (0x11066, 0x1106F); (0x110F0, 0x110F9); (0x11136, 0x1113F); (0x111D0, 0x111D9);
    (0x112F0, 0x112F9); (0x11450, 0x11459); (0x114D0, 0x114D9); (0x11650, 0x11659);
    (0x116C0, 0x116C9); (0x11730, 0x11739); (0x118E0, 0x118E9); (0x11950, 0x11959);
    (0x11C50, 0x11C59); (0x11D50, 0x11D59); (0x11DA0, 0x11DA9); (0x16A60, 0x16A69);
    (0x16AC0, 0x16AC9); (0x16B50, 0x16B59); (0x1D7CE, 0x1D7FF); (0x1E140, 0x1E149);
    (0x1E2F0, 0x1E2F9); (0x1E950, 0x1E959); (0x1FBF0, 0x1FBF9)
  ].

(** Code points with the Cased property. *)
Definition cased_ranges : list (N * N) :=
  [
    (0x41, 0x5A); (0x61, 0x7A); (0xAA, 0xAA); (0xB5, 0xB5); (0xBA, 0xBA); (0xC0, 0xD6);
    (0xD8, 0xF6); (0xF8, 0x1BA); (0x1BC, 0x1BF); (0x1C4, 0x293); (0x295, 0x2B8);
    (0x2C0, 0x2C1); (0x2E0, 0x2E4); (0x345, 0x345); (0x370, 0x373); (0x376, 0x377);
    (0x37A, 0x37D); (0x37F, 0x37F); (0x386, 0x386); (0x388, 0x38A); (0x38C, 0x38C);
    (0x38E, 0x3A1); (0x3A3, 0x3F5); (0x3F7, 0x481); (0x48A, 0x52F); (0x531, 0x556);
    (0x560, 0x588); (0x10A0, 0x10C5); (0x10C7, 0x10C7); (0x10CD, 0x10CD); (0x10D0, 0x10FA);
    (0x10FD, 0x10FF); (0x13A0, 0x13F5); (0x13F8, 0x13FD); (0x1C80, 0x1C88); (0x1C90, 0x1CBA);
    (0x1CBD, 0x1CBF); (0x1D00, 0x1DBF); (0x1E00, 0x1F15); (0x1F18, 0x1F1D); (0x1F20, 0x1F45);
    (0x1F48, 0x1F4D); (0x1F50, 0x1F57); (0x1F59, 0x1F59); (0x1F5B, 0x1F5B); (0x1F5D, 0x1F5D);
    (0x1F5F, 0x1F7D); (0x1F80, 0x1FB4); (0x1FB6, 0x1FBC); (0x1FBE, 0x1FBE); (0x1FC2, 0x1FC4);
    (0x1FC6, 0x1FCC); (0x1FD0, 0x1FD3); (0x1FD6, 0x1FDB); (0x1FE0, 0x1FEC); (0x1FF2, 0x1FF4);
    (0x1FF6, 0x1FFC); (0x2071, 0x2071); (0x207F, 0x207F); (0x2090, 0x209C); (0x2102, 0x2102);
    (0x2107, 0x2107); (0x210A, 0x2113); (0x2115, 0x2115); (0x2119, 0x211D); (0x2124, 0x2124);
    (0x2126, 0x2126); (0x2128, 0x2128); (0x212A, 0x212D); (0x212F, 0x2134); (0x2139, 0x2139);
    (0x213C, 0x213F); (0x2145, 0x2149); (0x214E, 0x214E); (0x2160, 0x217F); (0x2183, 0x2184);
    (0x24B6, 0x24E9); (0x2C00, 0x2CE4); (0x2CEB, 0x2CEE); (0x2CF2, 0x2CF3); (0x2D00, 0x2D25);
    (0x2D27, 0x2D27); (0x2D2D, 0x2D2D); (0xA640, 0xA66D); (0xA680, 0xA69D); (0xA722, 0xA787);
    (0xA78B, 0xA78E); (0xA790, 0xA7CA); (0xA7D0, 0xA7D1); (0xA7D3, 0xA7D3); (0xA7D5, 0xA7D9);
    (0xA7F5, 0xA7F6); (0xA7F8, 0xA7FA); (0xAB30, 0xAB5A); (0xAB5C, 0xAB68); (0xAB70, 0xABBF);
    (0xFB00, 0xFB06); (0xFB13, 0xFB17); (0xFF21, 0xFF3A); (0xFF41, 0xFF5A); (0x10400, 0x1044F);
    (0x104B0, 0x104D3); (0x104D8, 0x104FB); (0x10570, 0x1057A); (0x1057C, 0x1058A);
    (0x1058C, 0x10592); (0x10594, 0x10595); (0x10597, 0x105A1); (0x105A3, 0x105B1);
    (0x105B3, 0x105B9); (0x105BB, 0x105BC); (0x10780, 0x10780); (0x10783, 0x10785);
    (0x10787, 0x107B0); (0x107B2, 0x107BA); (0x10C80, 0x10CB2); (0x10CC0, 0x10CF2);
    (0x118A0, 0x118DF); (0x16E40, 0x16E7F); (0x1D400, 0x1D454); (0x1D456, 0x1D49C);
    (0x1D49E, 0x1D49F); (0x1D4A2, 0x1D4A2); (0x1D4A5, 0x1D4A6); (0x1D4A9, 0x1D4AC);
    (0x1D4AE, 0x1D4B9); (0x1D4BB, 0x1D4BB); (0x1D4BD, 0x1D4C3); (0x1D4C5, 0x1D505);
    (0x1D507, 0x1D50A); (0x1D50D, 0x1D514); (0x1D516, 0x1D51C); (0x1D51E, 0x1D539);
    (0x1D53B, 0x1D53E); (0x1D540, 0x1D544); (0x1D546, 0x1D546); (0x1D54A, 0x1D550);
    (0x1D552, 0x1D6A5); (0x1D6A8, 0x1D6C0); (0x1D6C2, 0x1D6DA); (0x1D6DC, 0x1D6FA);
    (0x1D6FC, 0x1D714); (0x1D716, 0x1D734); (0x1D736, 0x1D74E); (0x1D750, 0x1D76E);
    (0x1D770, 0x1D788); (0x1D78A, 0x1D7A8); (0x1D7AA, 0x1D7C2); (0x1D7C4, 0x1D7CB);
    (0x1DF00, 0x1DF09); (0x1DF0B, 0x1DF1E); (0x1E900, 0x1E943); (0x1F130, 0x1F149);
    (0x1F150, 0x1F169); (0x1F170, 0x1F189)
  ].

(** Code points with the Case_Ignorable property. *)
Definition case_ignorable_ranges : list (N * N) :=
  [
    (0x27, 0x27); (0x2E, 0x2E); (0x3A, 0x3A); (0x5E, 0x5E); (0x60, 0x60); (0xA8, 0xA8);
    (0xAD, 0xAD); (0xAF, 0xAF); (0xB4, 0xB4); (0xB7, 0xB8); (0x2B0, 0x36F); (0x374, 0x375);
    (0x37A, 0x37A); (0x384, 0x385); (0x387, 0x387); (0x483, 0x489); (0x559, 0x559);
    (0x55F, 0x55F); (0x591, 0x5BD); (0x5BF, 0x5BF); (0x5C1, 0x5C2); (0x5C4, 0x5C5);
    (0x5C7, 0x5C7); (0x5F4, 0x5F4); (0x600, 0x605); (0x610, 0x61A); (0x61C, 0x61C);
    (0x640, 0x640); (0x64B, 0x65F); (0x670, 0x670); (0x6D6, 0x6DD); (0x6DF, 0x6E8);
    (0x6EA, 0x6ED); (0x70F, 0x70F); (0x711, 0x711); (0x730, 0x74A); (0x7A6, 0x7B0);
    (0x7EB, 0x7F5); (0x7FA, 0x7FA); (0x7FD, 0x7FD); (0x816, 0x82D); (0x859, 0x85B);
    (0x888, 0x888); (0x890, 0x891); (0x898, 0x89F); (0x8C9, 0x902); (0x93A, 0x93A);
    (0x93C, 0x93C); (0x941, 0x948); (0x94D, 0x94D); (0x951, 0x957); (0x962, 0x963);
    (0x971, 0x971); (0x981, 0x981); (0x9BC, 0x9BC); (0x9C1, 0x9C4); (0x9CD, 0x9CD);
    (0x9E2, 0x9E3); (0x9FE, 0x9FE); (0xA01, 0xA02); (0xA3C, 0xA3C); (0xA41, 0xA42);
    (0xA47, 0xA48); (0xA4B, 0xA4D); (0xA51, 0xA51); (0xA70, 0xA71); (0xA75, 0xA75);
    (0xA81, 0xA82); (0xABC, 0xABC); (0xAC1, 0xAC5); (0xAC7, 0xAC8); (0xACD, 0xACD);
    (0xAE2, 0xAE3); (0xAFA, 0xAFF); (0xB01, 0xB01); (0xB3C, 0xB3C); (0xB3F, 0xB3F);
    (0xB41, 0xB44); (0xB4D, 0xB4D); (0xB55, 0xB56); (0xB62, 0xB63); (0xB82, 0xB82);
    (0xBC0, 0xBC0); (0xBCD, 0xBCD); (0xC00, 0xC00); (0xC04, 0xC04); (0xC3C, 0xC3C);
    (0xC3E, 0xC40); (0xC46, 0xC48); (0xC4A, 0xC4D); (0xC55, 0xC56); (0xC62, 0xC63);
    (0xC81, 0xC81); (0xCBC, 0xCBC); (0xCBF, 0xCBF); (0xCC6, 0xCC6); (0xCCC, 0xCCD);
    (0xCE2, 0xCE3); (0xD00, 0xD01); (0xD3B, 0xD3C); (0xD41, 0xD44); (0xD4D, 0xD4D);
    (0xD62, 0xD63); (0xD81, 0xD81); (0xDCA, 0xDCA); (0xDD2, 0xDD4); (0xDD6, 0xDD6);
    (0xE31, 0xE31); (0xE34, 0xE3A); (0xE46, 0xE4E); (0xEB1, 0xEB1); (0xEB4, 0xEBC);
    (0xEC6, 0xEC6); (0xEC8, 0xECD); (0xF18, 0xF19); (0xF35, 0xF35); (0xF37, 0xF37);
    (0xF39, 0xF39); (0xF71, 0xF7E); (0xF80, 0xF84); (0xF86, 0xF87); (0xF8D, 0xF97);
    (0xF99, 0xFBC); (0xFC6, 0xFC6); (0x102D, 0x1030); (0x1032, 0x1037); (0x1039, 0x103A);
    (0x103D, 0x103E); (0x1058, 0x1059); (0x105E, 0x1060); (0x1071, 0x1074); (0x1082, 0x1082);
    (0x1085, 0x1086); (0x108D, 0x108D); (0x109D, 0x109D); (0x10FC, 0x10FC); (0x135D, 0x135F);
    (0x1712, 0x1714); (0x1732, 0x1733); (0x1752, 0x1753); (0x1772, 0x1773); (0x17B4, 0x17B5);
    (0x17B7, 0x17BD); (0x17C6, 0x17C6); (0x17C9, 0x17D3); (0x17D7, 0x17D7); (0x17DD, 0x17DD);
    (0x180B, 0x180F); (0x1843, 0x1843); (0x1885, 0x1886); (0x18A9, 0x18A9); (0x1920, 0x1922);
    (0x1927, 0x1928); (0x1932, 0x1932); (0x1939, 0x193B); (0x1A17, 0x1A18); (0x1A1B, 0x1A1B);
    (0x1A56, 0x1A56); (0x1A58, 0x1A5E); (0x1A60, 0x1A60); (0x1A62, 0x1A62); (0x1A65, 0x1A6C);
    (0x1A73, 0x1A7C); (0x1A7F, 0x1A7F); (0x1AA7, 0x1AA7); (0x1AB0, 0x1ACE); (0x1B00, 0x1B03);
    (0x1B34, 0x1B34); (0x1B36, 0x1B3A); (0x1B3C, 0x1B3C); (0x1B42, 0x1B42); (0x1B6B, 0x1B73);
    (0x1B80, 0x1B81); (0x1BA2, 0x1BA5); (0x1BA8, 0x1BA9); (0x1BAB, 0x1BAD); (0x1BE6, 0x1BE6);
    (0x1BE8, 0x1BE9); (0x1BED, 0x1BED); (0x1BEF, 0x1BF1); (0x1C2C, 0x1C33); (0x1C36, 0x1C37);
    (0x1C78, 0x1C7D); (0x1CD0, 0x1CD2); (0x1CD4, 0x1CE0); (0x1CE2, 0x1CE8); (0x1CED, 0x1CED);
    (0x1CF4, 0x1CF4); (0x1CF8, 0x1CF9); (0x1D2C, 0x1D6A); (0x1D78, 0x1D78); (0x1D9B, 0x1DFF);
    (0x1FBD, 0x1FBD); (0x1FBF, 0x1FC1); (0x1FCD, 0x1FCF); (0x1FDD, 0x1FDF); (0x1FED, 0x1FEF);
    (0x1FFD, 0x1FFE); (0x200B, 0x200F); (0x2018, 0x2019); (0x2024, 0x2024); (0x2027, 0x2027);
    (0x202A, 0x202E); (0x2060, 0x2064); (0x2066, 0x206F); (0x2071, 0x2071); (0x207F, 0x207F);
    (0x2090, 0x209C); (0x20D0, 0x20F0); (0x2C7C, 0x2C7D); (0x2CEF, 0x2CF1); (0x2D6F, 0x2D6F);
    (0x2D7F, 0x2D7F); (0x2DE0, 0x2DFF); (0x2E2F, 0x2E2F); (0x3005, 0x3005); (0x302A, 0x302D);
    (0x3031, 0x3035); (0x303B, 0x303B); (0x3099, 0x309E); (0x30FC, 0x30FE); (0xA015, 0xA015);
    (0xA4F8, 0xA4FD); (0xA60C, 0xA60C); (0xA66F, 0xA672); (0xA674, 0xA67D); (0xA67F, 0xA67F);
    (0xA69C, 0xA69F); (0xA6F0, 0xA6F1); (0xA700, 0xA721); (0xA770, 0xA770); (0xA788, 0xA78A);
    (0xA7F2, 0xA7F4); (0xA7F8, 0xA7F9); (0xA802, 0xA802); (0xA806, 0xA806); (0xA80B, 0xA80B);
    (0xA825, 0xA826); (0xA82C, 0xA82C); (0xA8C4, 0xA8C5); (0xA8E0, 0xA8F1); (0xA8FF, 0xA8FF);
    (0xA926, 0xA92D); (0xA947, 0xA951); (0xA980, 0xA982); (0xA9B3, 0xA9B3); (0xA9B6, 0xA9B9);
    (0xA9BC, 0xA9BD); (0xA9CF, 0xA9CF); (0xA9E5, 0xA9E6); (0xAA29, 0xAA2E); (0xAA31, 0xAA32);
    (0xAA35, 0xAA36); (0xAA43, 0xAA43); (0xAA4C, 0xAA4C); (0xAA70, 0xAA70); (0xAA7C, 0xAA7C);
    (0xAAB0, 0xAAB0); (0xAAB2, 0xAAB4); (0xAAB7, 0xAAB8); (0xAABE, 0xAABF); (0xAAC1, 0xAAC1);
    (0xAADD, 0xAADD); (0xAAEC, 0xAAED); (0xAAF3, 0xAAF4); (0xAAF6, 0xAAF6); (0xAB5B, 0xAB5F);
    (0xAB69, 0xAB6B); (0xABE5, 0xABE5); (0xABE8, 0xABE8); (0xABED, 0xABED); (0xFB1E, 0xFB1E);
    (0xFBB2, 0xFBC2); (0xFE00, 0xFE0F); (0xFE13, 0xFE13); (0xFE20, 0xFE2F); (0xFE52, 0xFE52);
    (0xFE55, 0xFE55); (0xFEFF, 0xFEFF); (0xFF07, 0xFF07); (0xFF0E, 0xFF0E); (0xFF1A, 0xFF1A);
    (0xFF3E, 0xFF3E); (0xFF40, 0xFF40); (0xFF70, 0xFF70); (0xFF9E, 0xFF9F); (0xFFE3, 0xFFE3);
    (0xFFF9, 0xFFFB); (0x101FD, 0x101FD); (0x102E0, 0x102E0); (0x10376, 0x1037A);
    (0x10780, 0x10785); (0x10787, 0x107B0); (0x107B2, 0x107BA); (0x10A01, 0x10A03);
    (0x10A05, 0x10A06); (0x10A0C, 0x10A0F); (0x10A38, 0x10A3A); (0x10A3F, 0x10A3F);
    (0x10AE5, 0x10AE6); (0x10D24, 0x10D27); (0x10EAB, 0x10EAC); (0x10F46, 0x10F50);
    (0x10F82, 0x10F85); (0x11001, 0x11001); (0x11038, 0x11046); (0x11070, 0x11070);
    (0x11073, 0x11074); (0x1107F, 0x11081); (0x110B3, 0x110B6); (0x110B9, 0x110BA);
    (0x110BD, 0x110BD); (0x110C2, 0x110C2); (0x110CD, 0x110CD); (0x11100, 0x11102);
    (0x11127, 0x1112B); (0x1112D, 0x11134); (0x11173, 0x11173); (0x11180, 0x11181);
    (0x111B6, 0x111BE); (0x111C9, 0x111CC); (0x111CF, 0x111CF); (0x1122F, 0x11231);
    (0x11234, 0x11234); (0x11236, 0x11237); (0x1123E, 0x1123E); (0x112DF, 0x112DF);
    (0x112E3, 0x112EA); (0x11300, 0x11301); (0x1133B, 0x1133C); (0x11340, 0x11340);
    (0x11366, 0x1136C); (0x11370, 0x11374); (0x11438, 0x1143F); (0x11442, 0x11444);
    (0x11446, 0x11446); (0x1145E, 0x1145E); (0x114B3, 0x114B8); (0x114BA, 0x114BA);
    (0x114BF, 0x114C0); (0x114C2, 0x114C3); (0x115B2, 0x115B5); (0x115BC, 0x115BD);
    (0x115BF, 0x115C0); (0x115DC, 0x115DD); (0x11633, 0x1163A); (0x1163D, 0x1163D);
    (0x1163F, 0x11640); (0x116AB, 0x116AB); (0x116AD, 0x116AD); (0x116B0, 0x116B5);
    (0x116B7, 0x116B7); (0x1171D, 0x1171F); (0x11722, 0x11725); (0x11727, 0x1172B);
    (0x1182F, 0x11837); (0x11839, 0x1183A); (0x1193B, 0x1193C); (0x1193E, 0x1193E);
    (0x11943, 0x11943); (0x119D4, 0x119D7); (0x119DA, 0x119DB); (0x119E0, 0x119E0);
    (0x11A01, 0x11A0A); (0x11A33, 0x11A38); (0x11A3B, 0x11A3E); (0x11A47, 0x11A47);
    (0x11A51, 0x11A56); (0x11A59, 0x11A5B); (0x11A8A, 0x11A96); (0x11A98, 0x11A99);
    (0x11C30, 0x11C36); (0x11C38, 0x11C3D); (0x11C3F, 0x11C3F); (0x11C92, 0x11CA7);
    (0x11CAA, 0x11CB0); (0x11CB2, 0x11CB3); (0x11CB5, 0x11CB6); (0x11D31, 0x11D36);
    (0x11D3A, 0x11D3A); (0x11D3C, 0x11D3D); (0x11D3F, 0x11D45); (0x11D47, 0x11D47);
    (0x11D90, 0x11D91); (0x11D95, 0x11D95); (0x11D97, 0x11D97); (0x11EF3, 0x11EF4);
    (0x13430, 0x13438); (0x16AF0, 0x16AF4); (0x16B30, 0x16B36); (0x16B40, 0x16B43);
    (0x16F4F, 0x16F4F); (0x16F8F, 0x16F9F); (0x16FE0, 0x16FE1); (0x16FE3, 0x16FE4);
    (0x1AFF0, 0x1AFF3); (0x1AFF5, 0x1AFFB); (0x1AFFD, 0x1AFFE); (0x1BC9D, 0x1BC9E);
    (0x1BCA0, 0x1BCA3); (0x1CF00, 0x1CF2D); (0x1CF30, 0x1CF46); (0x1D167, 0x1D169);
    (0x1D173, 0x1D182); (0x1D185, 0x1D18B); (0x1D1AA, 0x1D1AD); (0x1D242, 0x1D244);
    (0x1DA00, 0x1DA36); (0x1DA3B, 0x1DA6C); (0x1DA75, 0x1DA75); (0x1DA84, 0x1DA84);
    (0x1DA9B, 0x1DA9F); (0x1DAA1, 0x1DAAF); (0x1E000, 0x1E006); (0x1E008, 0x1E018);
    (0x1E01B, 0x1E021); (0x1E023, 0x1E024); (0x1E026, 0x1E02A); (0x1E130, 0x1E13D);
    (0x1E2AE, 0x1E2AE); (0x1E2EC, 0x1E2EF); (0x1E8D0, 0x1E8D6); (0x1E944, 0x1E94B);
    (0x1F3FB, 0x1F3FF); (0xE0001, 0xE0001); (0xE0020, 0xE007F); (0xE0100, 0xE01EF)
  ].

(** Simple lower-case mappings, as runs [(first, last, step, image_of_first)]: a code point c with
    first <= c <= last and step dividing c - first maps to image_of_first + (c - first). *)
Definition lower_runs : list (N * N * N * N) :=
  [
    (0x41, 0x5A, 1, 0x61); (0xC0, 0xD6, 1, 0xE0); (0xD8, 0xDE, 1, 0xF8);
    (0x100, 0x12E, 2, 0x101); (0x132, 0x136, 2, 0x133); (0x139, 0x147, 2, 0x13A);
    (0x14A, 0x176, 2, 0x14B); (0x178, 0x178, 1, 0xFF); (0x179, 0x17D, 2, 0x17A);
    (0x181, 0x181, 1, 0x253); (0x182, 0x184, 2, 0x183); (0x186, 0x186, 1, 0x254);
    (0x187, 0x187, 1, 0x188); (0x189, 0x18A, 1, 0x256); (0x18B, 0x18B, 1, 0x18C);
    (0x18E, 0x18E, 1, 0x1DD); (0x18F, 0x18F, 1, 0x259); (0x190, 0x190, 1, 0x25B);
    (0x191, 0x191, 1, 0x192); (0x193, 0x193, 1, 0x260); (0x194, 0x194, 1, 0x263);
    (0x196, 0x196, 1, 0x269); (0x197, 0x197, 1, 0x268); (0x198, 0x198, 1, 0x199);
    (0x19C, 0x19C, 1, 0x26F); (0x19D, 0x19D, 1, 0x272); (0x19F, 0x19F, 1, 0x275);
    (0x1A0, 0x1A4, 2, 0x1A1); (0x1A6, 0x1A6, 1, 0x280); (0x1A7, 0x1A7, 1, 0x1A8);
    (0x1A9, 0x1A9, 1, 0x283); (0x1AC, 0x1AC, 1, 0x1AD); (0x1AE, 0x1AE, 1, 0x288);
    (0x1AF, 0x1AF, 1, 0x1B0); (0x1B1, 0x1B2, 1, 0x28A); (0x1B3, 0x1B5, 2, 0x1B4);
    (0x1B7, 0x1B7, 1, 0x292); (0x1B8, 0x1B8, 1, 0x1B9); (0x1BC, 0x1BC, 1, 0x1BD);
    (0x1C4, 0x1C4, 1, 0x1C6); (0x1C5, 0x1C5, 1, 0x1C6); (0x1C7, 0x1C7, 1, 0x1C9);
    (0x1C8, 0x1C8, 1, 0x1C9); (0x1CA, 0x1CA, 1, 0x1CC); (0x1CB, 0x1DB, 2, 0x1CC);
    (0x1DE, 0x1EE, 2, 0x1DF); (0x1F1, 0x1F1, 1, 0x1F3); (0x1F2, 0x1F4, 2, 0x1F3);
    (0x1F6, 0x1F6, 1, 0x195); (0x1F7, 0x1F7, 1, 0x1BF); (0x1F8, 0x21E, 2, 0x1F9);
    (0x220, 0x220, 1, 0x19E); (0x222, 0x232, 2, 0x223); (0x23A, 0x23A, 1, 0x2C65);
    (0x23B, 0x23B, 1, 0x23C); (0x23D, 0x23D, 1, 0x19A); (0x23E, 0x23E, 1, 0x2C66);
    (0x241, 0x241, 1, 0x242); (0x243, 0x243, 1, 0x180); (0x244, 0x244, 1, 0x289);
    (0x245, 0x245, 1, 0x28C); (0x246, 0x24E, 2, 0x247); (0x370, 0x372, 2, 0x371);
    (0x376, 0x376, 1, 0x377); (0x37F, 0x37F, 1, 0x3F3); (0x386, 0x386, 1, 0x3AC);
    (0x388, 0x38A, 1, 0x3AD); (0x38C, 0x38C, 1, 0x3CC); (0x38E, 0x38F, 1, 0x3CD);
    (0x391, 0x3A1, 1, 0x3B1); (0x3A3, 0x3AB, 1, 0x3C3); (0x3CF, 0x3CF, 1, 0x3D7);
    (0x3D8, 0x3EE, 2, 0x3D9); (0x3F4, 0x3F4, 1, 0x3B8); (0x3F7, 0x3F7, 1, 0x3F8);
    (0x3F9, 0x3F9, 1, 0x3F2); (0x3FA, 0x3FA, 1, 0x3FB); (0x3FD, 0x3FF, 1, 0x37B);
    (0x400, 0x40F, 1, 0x450); (0x410, 0x42F, 1, 0x430); (0x460, 0x480, 2, 0x461);
    (0x48A, 0x4BE, 2, 0x48B); (0x4C0, 0x4C0, 1, 0x4CF); (0x4C1, 0x4CD, 2, 0x4C2);
    (0x4D0, 0x52E, 2, 0x4D1); (0x531, 0x556, 1, 0x561); (0x10A0, 0x10C5, 1, 0x2D00);
    (0x10C7, 0x10C7, 1, 0x2D27); (0x10CD, 0x10CD, 1, 0x2D2D); (0x13A0, 0x13EF, 1, 0xAB70);
    (0x13F0, 0x13F5, 1, 0x13F8); (0x1C90, 0x1CBA, 1, 0x10D0); (0x1CBD, 0x1CBF, 1, 0x10FD);
    (0x1E00, 0x1E94, 2, 0x1E01); (0x1E9E, 0x1E9E, 1, 0xDF); (0x1EA0, 0x1EFE, 2, 0x1EA1);
    (0x1F08, 0x1F0F, 1, 0x1F00); (0x1F18, 0x1F1D, 1, 0x1F10); (0x1F28, 0x1F2F, 1, 0x1F20);
    (0x1F38, 0x1F3F, 1, 0x1F30); (0x1F48, 0x1F4D, 1, 0x1F40); (0x1F59, 0x1F5F, 2, 0x1F51);
    (0x1F68, 0x1F6F, 1, 0x1F60); (0x1F88, 0x1F8F, 1, 0x1F80); (0x1F98, 0x1F9F, 1, 0x1F90);
    (0x1FA8, 0x1FAF, 1, 0x1FA0); (0x1FB8, 0x1FB9, 1, 0x1FB0); (0x1FBA, 0x1FBB, 1, 0x1F70);
    (0x1FBC, 0x1FBC, 1, 0x1FB3); (0x1FC8, 0x1FCB, 1, 0x1F72); (0x1FCC, 0x1FCC, 1, 0x1FC3);
    (0x1FD8, 0x1FD9, 1, 0x1FD0); (0x1FDA, 0x1FDB, 1, 0x1F76); (0x1FE8, 0x1FE9, 1, 0x1FE0);
    (0x1FEA, 0x1FEB, 1, 0x1F7A); (0x1FEC, 0x1FEC, 1, 0x1FE5); (0x1FF8, 0x1FF9, 1, 0x1F78);
    (0x1FFA, 0x1FFB, 1, 0x1F7C); (0x1FFC, 0x1FFC, 1, 0x1FF3); (0x2126, 0x2126, 1, 0x3C9);
    (0x212A, 0x212A, 1, 0x6B); (0x212B, 0x212B, 1, 0xE5); (0x2132, 0x2132, 1, 0x214E);
    (0x2160, 0x216F, 1, 0x2170); (0x2183, 0x2183, 1, 0x2184); (0x24B6, 0x24CF, 1, 0x24D0);
    (0x2C00, 0x2C2F, 1, 0x2C30); (0x2C60, 0x2C60, 1, 0x2C61); (0x2C62, 0x2C62, 1, 0x26B);
    (0x2C63, 0x2C63, 1, 0x1D7D); (0x2C64, 0x2C64, 1, 0x27D); (0x2C67, 0x2C6B, 2, 0x2C68);
    (0x2C6D, 0x2C6D, 1, 0x251); (0x2C6E, 0x2C6E, 1, 0x271); (0x2C6F, 0x2C6F, 1, 0x250);
    (0x2C70, 0x2C70, 1, 0x252); (0x2C72, 0x2C72, 1, 0x2C73); (0x2C75, 0x2C75, 1, 0x2C76);
    (0x2C7E, 0x2C7F, 1, 0x23F); (0x2C80, 0x2CE2, 2, 0x2C81); (0x2CEB, 0x2CED, 2, 0x2CEC);
    (0x2CF2, 0x2CF2, 1, 0x2CF3); (0xA640, 0xA66C, 2, 0xA641); (0xA680, 0xA69A, 2, 0xA681);
    (0xA722, 0xA72E, 2, 0xA723); (0xA732, 0xA76E, 2, 0xA733); (0xA779, 0xA77B, 2, 0xA77A);
    (0xA77D, 0xA77D, 1, 0x1D79); (0xA77E, 0xA786, 2, 0xA77F); (0xA78B, 0xA78B, 1, 0xA78C);
    (0xA78D, 0xA78D, 1, 0x265); (0xA790, 0xA792, 2, 0xA791); (0xA796, 0xA7A8, 2, 0xA797);
    (0xA7AA, 0xA7AA, 1, 0x266); (0xA7AB, 0xA7AB, 1, 0x25C); (0xA7AC, 0xA7AC, 1, 0x261);
    (0xA7AD, 0xA7AD, 1, 0x26C); (0xA7AE, 0xA7AE, 1, 0x26A); (0xA7B0, 0xA7B0, 1, 0x29E);
    (0xA7B1, 0xA7B1, 1, 0x287); (0xA7B2, 0xA7B2, 1, 0x29D); (0xA7B3, 0xA7B3, 1, 0xAB53);
    (0xA7B4, 0xA7C2, 2, 0xA7B5); (0xA7C4, 0xA7C4, 1, 0xA794); (0xA7C5, 0xA7C5, 1, 0x282);
    (0xA7C6, 0xA7C6, 1, 0x1D8E); (0xA7C7, 0xA7C9, 2, 0xA7C8); (0xA7D0, 0xA7D0, 1, 0xA7D1);
    (0xA7D6, 0xA7D8, 2, 0xA7D7); (0xA7F5, 0xA7F5, 1, 0xA7F6); (0xFF21, 0xFF3A, 1, 0xFF41);
    (0x10400, 0x10427, 1, 0x10428); (0x104B0, 0x104D3, 1, 0x104D8);
    (0x10570, 0x10594, 2, 0x10597); (0x10571, 0x10579, 2, 0x10598);
    (0x1057D, 0x10589, 2, 0x105A4); (0x1058D, 0x10591, 2, 0x105B4);
    (0x10595, 0x10595, 1, 0x105BC); (0x10C80, 0x10CB2, 1, 0x10CC0);
    (0x118A0, 0x118BF, 1, 0x118C0); (0x16E40, 0x16E5F, 1, 0x16E60);
    (0x1E900, 0x1E921, 1, 0x1E922)
  ].

(** Lower-case mappings to more than one code point. *)
Definition lower_special : list (N * list N) :=
  [
    (0x130, [0x69; 0x307])
  ].

(** Simple title-case mappings, in the format of [lower_runs]. *)
Definition title_runs : list (N * N * N * N) :=
  [
    (0x61, 0x7A, 1, 0x41); (0xB5, 0xB5, 1, 0x39C); (0xE0, 0xF6, 1, 0xC0);
    (0xF8, 0xFE, 1, 0xD8); (0xFF, 0xFF, 1, 0x178); (0x101, 0x12F, 2, 0x100);
    (0x131, 0x131, 1, 0x49); (0x133, 0x137, 2, 0x132); (0x13A, 0x148, 2, 0x139);
    (0x14B, 0x177, 2, 0x14A); (0x17A, 0x17E, 2, 0x179); (0x17F, 0x17F, 1, 0x53);
    (0x180, 0x180, 1, 0x243); (0x183, 0x185, 2, 0x182); (0x188, 0x188, 1, 0x187);
    (0x18C, 0x18C, 1, 0x18B); (0x192, 0x192, 1, 0x191); (0x195, 0x195, 1, 0x1F6);
    (0x199, 0x199, 1, 0x198); (0x19A, 0x19A, 1, 0x23D); (0x19E, 0x19E, 1, 0x220);
    (0x1A1, 0x1A5, 2, 0x1A0); (0x1A8, 0x1A8, 1, 0x1A7); (0x1AD, 0x1AD, 1, 0x1AC);
    (0x1B0, 0x1B0, 1, 0x1AF); (0x1B4, 0x1B6, 2, 0x1B3); (0x1B9, 0x1B9, 1, 0x1B8);
    (0x1BD, 0x1BD, 1, 0x1BC); (0x1BF, 0x1BF, 1, 0x1F7); (0x1C4, 0x1C4, 1, 0x1C5);
    (0x1C6, 0x1C6, 1, 0x1C5); (0x1C7, 0x1C7, 1, 0x1C8); (0x1C9, 0x1C9, 1, 0x1C8);
    (0x1CA, 0x1CA, 1, 0x1CB); (0x1CC, 0x1DC, 2, 0x1CB); (0x1DD, 0x1DD, 1, 0x18E);
    (0x1DF, 0x1EF, 2, 0x1DE); (0x1F1, 0x1F1, 1, 0x1F2); (0x1F3, 0x1F5, 2, 0x1F2);
    (0x1F9, 0x21F, 2, 0x1F8); (0x223, 0x233, 2, 0x222); (0x23C, 0x23C, 1, 0x23B);
    (0x23F, 0x240, 1, 0x2C7E); (0x242, 0x242, 1, 0x241); (0x247, 0x24F, 2, 0x246);
    (0x250, 0x250, 1, 0x2C6F); (0x251, 0x251, 1, 0x2C6D); (0x252, 0x252, 1, 0x2C70);
    (0x253, 0x253, 1, 0x181); (0x254, 0x254, 1, 0x186); (0x256, 0x257, 1, 0x189);
    (0x259, 0x259, 1, 0x18F); (0x25B, 0x25B, 1, 0x190); (0x25C, 0x25C, 1, 0xA7AB);
    (0x260, 0x260, 1, 0x193); (0x261, 0x261, 1, 0xA7AC); (0x263, 0x263, 1, 0x194);
    (0x265, 0x265, 1, 0xA78D); (0x266, 0x266, 1, 0xA7AA); (0x268, 0x268, 1, 0x197);
    (0x269, 0x269, 1, 0x196); (0x26A, 0x26A, 1, 0xA7AE); (0x26B, 0x26B, 1, 0x2C62);
    (0x26C, 0x26C, 1, 0xA7AD); (0x26F, 0x26F, 1, 0x19C); (0x271, 0x271, 1, 0x2C6E);
    (0x272, 0x272, 1, 0x19D); (0x275, 0x275, 1, 0x19F); (0x27D, 0x27D, 1, 0x2C64);
    (0x280, 0x280, 1, 0x1A6); (0x282, 0x282, 1, 0xA7C5); (0x283, 0x283, 1, 0x1A9);
    (0x287, 0x287, 1, 0xA7B1); (0x288, 0x288, 1, 0x1AE); (0x289, 0x289, 1, 0x244);
    (0x28A, 0x28B, 1, 0x1B1); (0x28C, 0x28C, 1, 0x245); (0x292, 0x292, 1, 0x1B7);
    (0x29D, 0x29D, 1, 0xA7B2); (0x29E, 0x29E, 1, 0xA7B0); (0x345, 0x345, 1, 0x399);
    (0x371, 0x373, 2, 0x370); (0x377, 0x377, 1, 0x376); (0x37B, 0x37D, 1, 0x3FD);
    (0x3AC, 0x3AC, 1, 0x386); (0x3AD, 0x3AF, 1, 0x388); (0x3B1, 0x3C1, 1, 0x391);
    (0x3C2, 0x3C2, 1, 0x3A3); (0x3C3, 0x3CB, 1, 0x3A3); (0x3CC, 0x3CC, 1, 0x38C);
    (0x3CD, 0x3CE, 1, 0x38E); (0x3D0, 0x3D0, 1, 0x392); (0x3D1, 0x3D1, 1, 0x398);
    (0x3D5, 0x3D5, 1, 0x3A6); (0x3D6, 0x3D6, 1, 0x3A0); (0x3D7, 0x3D7, 1, 0x3CF);
    (0x3D9, 0x3EF, 2, 0x3D8); (0x3F0, 0x3F0, 1, 0x39A); (0x3F1, 0x3F1, 1, 0x3A1);
    (0x3F2, 0x3F2, 1, 0x3F9); (0x3F3, 0x3F3, 1, 0x37F); (0x3F5, 0x3F5, 1, 0x395);
    (0x3F8, 0x3F8, 1, 0x3F7); (0x3FB, 0x3FB, 1, 0x3FA); (0x430, 0x44F, 1, 0x410);
    (0x450, 0x45F, 1, 0x400); (0x461, 0x481, 2, 0x460); (0x48B, 0x4BF, 2, 0x48A);
    (0x4C2, 0x4CE, 2, 0x4C1); (0x4CF, 0x4CF, 1, 0x4C0); (0x4D1, 0x52F, 2, 0x4D0);
    (0x561, 0x586, 1, 0x531); (0x13F8, 0x13FD, 1, 0x13F0); (0x1C80, 0x1C80, 1, 0x412);
    (0x1C81, 0x1C81, 1, 0x414); (0x1C82, 0x1C82, 1, 0x41E); (0x1C83, 0x1C84, 1, 0x421);
    (0x1C85, 0x1C85, 1, 0x422); (0x1C86, 0x1C86, 1, 0x42A); (0x1C87, 0x1C87, 1, 0x462);
    (0x1C88, 0x1C88, 1, 0xA64A); (0x1D79, 0x1D79, 1, 0xA77D); (0x1D7D, 0x1D7D, 1, 0x2C63);
    (0x1D8E, 0x1D8E, 1, 0xA7C6); (0x1E01, 0x1E95, 2, 0x1E00); (0x1E9B, 0x1E9B, 1, 0x1E60);
    (0x1EA1, 0x1EFF, 2, 0x1EA0); (0x1F00, 0x1F07, 1, 0x1F08); (0x1F10, 0x1F15, 1, 0x1F18);
    (0x1F20, 0x1F27, 1, 0x1F28); (0x1F30, 0x1F37, 1, 0x1F38); (0x1F40, 0x1F45, 1, 0x1F48);
    (0x1F51, 0x1F57, 2, 0x1F59); (0x1F60, 0x1F67, 1, 0x1F68); (0x1F70, 0x1F71, 1, 0x1FBA);
    (0x1F72, 0x1F75, 1, 0x1FC8); (0x1F76, 0x1F77, 1, 0x1FDA); (0x1F78, 0x1F79, 1, 0x1FF8);
    (0x1F7A, 0x1F7B, 1, 0x1FEA); (0x1F7C, 0x1F7D, 1, 0x1FFA); (0x1F80, 0x1F87, 1, 0x1F88);
    (0x1F90, 0x1F97, 1, 0x1F98); (0x1FA0, 0x1FA7, 1, 0x1FA8); (0x1FB0, 0x1FB1, 1, 0x1FB8);
    (0x1FB3, 0x1FB3, 1, 0x1FBC); (0x1FBE, 0x1FBE, 1, 0x399); (0x1FC3, 0x1FC3, 1, 0x1FCC);
    (0x1FD0, 0x1FD1, 1, 0x1FD8); (0x1FE0, 0x1FE1, 1, 0x1FE8); (0x1FE5, 0x1FE5, 1, 0x1FEC);
    (0x1FF3, 0x1FF3, 1, 0x1FFC); (0x214E, 0x214E, 1, 0x2132); (0x2170, 0x217F, 1, 0x2160);
    (0x2184, 0x2184, 1, 0x2183); (0x24D0, 0x24E9, 1, 0x24B6); (0x2C30, 0x2C5F, 1, 0x2C00);
    (0x2C61, 0x2C61, 1, 0x2C60); (0x2C65, 0x2C65, 1, 0x23A); (0x2C66, 0x2C66, 1, 0x23E);
    (0x2C68, 0x2C6C, 2, 0x2C67); (0x2C73, 0x2C73, 1, 0x2C72); (0x2C76, 0x2C76, 1, 0x2C75);
    (0x2C81, 0x2CE3, 2, 0x2C80); (0x2CEC, 0x2CEE, 2, 0x2CEB); (0x2CF3, 0x2CF3, 1, 0x2CF2);
    (0x2D00, 0x2D25, 1, 0x10A0); (0x2D27, 0x2D27, 1, 0x10C7); (0x2D2D, 0x2D2D, 1, 0x10CD);
    (0xA641, 0xA66D, 2, 0xA640); (0xA681, 0xA69B, 2, 0xA680); (0xA723, 0xA72F, 2, 0xA722);
    (0xA733, 0xA76F, 2, 0xA732); (0xA77A, 0xA77C, 2, 0xA779); (0xA77F, 0xA787, 2, 0xA77E);
    (0xA78C, 0xA78C, 1, 0xA78B); (0xA791, 0xA793, 2, 0xA790); (0xA794, 0xA794, 1, 0xA7C4);
    (0xA797, 0xA7A9, 2, 0xA796); (0xA7B5, 0xA7C3, 2, 0xA7B4); (0xA7C8, 0xA7CA, 2, 0xA7C7);
    (0xA7D1, 0xA7D1, 1, 0xA7D0); (0xA7D7, 0xA7D9, 2, 0xA7D6); (0xA7F6, 0xA7F6, 1, 0xA7F5);
    (0xAB53, 0xAB53, 1, 0xA7B3); (0xAB70, 0xABBF, 1, 0x13A0); (0xFF41, 0xFF5A, 1, 0xFF21);
    (0x10428, 0x1044F, 1, 0x10400); (0x104D8, 0x104FB, 1, 0x104B0);
    (0x10597, 0x105BB, 2, 0x10570); (0x10598, 0x105A0, 2, 0x10571);
    (0x105A4, 0x105B0, 2, 0x1057D); (0x105B4, 0x105B8, 2, 0x1058D);
    (0x105BC, 0x105BC, 1, 0x10595); (0x10CC0, 0x10CF2, 1, 0x10C80);
    (0x118C0, 0x118DF, 1, 0x118A0); (0x16E60, 0x16E7F, 1, 0x16E40);
    (0x1E922, 0x1E943, 1, 0x1E900)
  ].

(** Title-case mappings to more than one code point. *)
Definition title_special : list (N * list N) :=
  [
    (0xDF, [0x53; 0x73]); (0x149, [0x2BC; 0x4E]); (0x1F0, [0x4A; 0x30C]);
    (0x390, [0x399; 0x308; 0x301]); (0x3B0, [0x3A5; 0x308; 0x301]); (0x587, [0x535; 0x582]);
    (0x1E96, [0x48; 0x331]); (0x1E97, [0x54; 0x308]); (0x1E98, [0x57; 0x30A]);
    (0x1E99, [0x59; 0x30A]); (0x1E9A, [0x41; 0x2BE]); (0x1F50, [0x3A5; 0x313]);
    (0x1F52, [0x3A5; 0x313; 0x300]); (0x1F54, [0x3A5; 0x313; 0x301]);
    (0x1F56, [0x3A5; 0x313; 0x342]); (0x1FB2, [0x1FBA; 0x345]); (0x1FB4, [0x386; 0x345]);
    (0x1FB6, [0x391; 0x342]); (0x1FB7, [0x391; 0x342; 0x345]); (0x1FC2, [0x1FCA; 0x345]);
    (0x1FC4, [0x389; 0x345]); (0x1FC6, [0x397; 0x342]); (0x1FC7, [0x397; 0x342; 0x345]);
    (0x1FD2, [0x399; 0x308; 0x300]); (0x1FD3, [0x399; 0x308; 0x301]); (0x1FD6, [0x399; 0x342]);
    (0x1FD7, [0x399; 0x308; 0x342]); (0x1FE2, [0x3A5; 0x308; 0x300]);
    (0x1FE3, [0x3A5; 0x308; 0x301]); (0x1FE4, [0x3A1; 0x313]); (0x1FE6, [0x3A5; 0x342]);
    (0x1FE7, [0x3A5; 0x308; 0x342]); (0x1FF2, [0x1FFA; 0x345]); (0x1FF4, [0x38F; 0x345]);
    (0x1FF6, [0x3A9; 0x342]); (0x1FF7, [0x3A9; 0x342; 0x345]); (0xFB00, [0x46; 0x66]);
    (0xFB01, [0x46; 0x69]); (0xFB02, [0x46; 0x6C]); (0xFB03, [0x46; 0x66; 0x69]);
    (0xFB04, [0x46; 0x66; 0x6C]); (0xFB05, [0x53; 0x74]); (0xFB06, [0x53; 0x74]);
    (0xFB13, [0x544; 0x576]); (0xFB14, [0x544; 0x565]); (0xFB15, [0x544; 0x56B]);
    (0xFB16, [0x54E; 0x576]); (0xFB17, [0x544; 0x56D])
  ].

End Unicode.

(** ** Python strings *)

Module PyStr.

Local Open Scope N_scope.

(** A [str] is a sequence of Unicode code points. *)
Definition pystr := list N.

(** *** Literals

    String literals of the source are written as they are in the source and
    decoded from the UTF-8 bytes of the Rocq literal. *)

Definition cont (b : N) : N := N.land b 0x3F.

Fixpoint utf8_decode (bs : list N) : pystr :=
  match bs with
  | [] => []
  | b :: r1 =>
    if b <? 0x80 then b :: utf8_decode r1
    else match r1 with
    | [] => [b]
    | b1 :: r2 =>
      if b <? 0xE0 then (N.shiftl (N.land b 0x1F) 6 + cont b1) :: utf8_decode r2
      else match r2 with
      | [] => [b]
      | b2 :: r3 =>
        if b <? 0xF0
        then (N.shiftl (N.land b 0x0F) 12 + N.shiftl (cont b1) 6 + cont b2) :: utf8_decode r3
        else match r3 with
        | [] => [b]
        | b3 :: r4 =>
          (N.shiftl (N.land b 0x07) 18 + N.shiftl (cont b1) 12
             + N.shiftl (cont b2) 6 + cont b3) :: utf8_decode r4
        end
      end
    end
  end.

Definition u (s : string) : pystr :=
  utf8_decode (map N_of_ascii (list_ascii_of_string s)).

(** The escape [\n]. *)
Definition nl : pystr := [0xA].

(** *** Character classes *)

Fixpoint in_ranges (c : N) (rs : list (N * N)) : bool :=
  match rs with
  | [] => false
  | (a, b) :: rs' => ((a <=? c) && (c <=? b)) || in_ranges c rs'
  end.

Definition isspace_cp (c : N) : bool := in_ranges c Unicode.space_ranges.
Definition isdigit_cp (c : N) : bool := in_ranges c Unicode.digit_ranges.
Definition cased (c : N) : bool := in_ranges c Unicode.cased_ranges.
Definition case_ignorable (c : N) : bool := in_ranges c Unicode.case_ignorable_ranges.

(** The value [int] gives to a decimal digit character. *)
Fixpoint decimal_in (c : N) (rs : list (N * N)) : option N :=
  match rs with
  | [] => None
  | (a, b) :: rs' =>
    if (a <=? c) && (c <=? b) then Some ((c - a) mod 10) else decimal_in c rs'
  end.

Definition decimal_value (c : N) : option N := decimal_in c Unicode.decimal_ranges.

(** *** Case mappings *)

Fixpoint run_lookup (c : N) (rs : list (N * N * N * N)) : option N :=
  match rs with
  | [] => None
  | (a, b, step, img) :: rs' =>
    if (a <=? c) && (c <=? b) && ((c - a) mod step =? 0)
    then Some (img + (c - a))
    else run_lookup c rs'
  end.

Fixpoint special_lookup (c : N) (m : list (N * list N)) : option (list N) :=
  match m with
  | [] => None
  | (k, v) :: m' => if k =? c then Some v else special_lookup c m'
  end.

Definition map_full (special : list (N * list N)) (runs : list (N * N * N * N))
    (c : N) : list N :=
  match special_lookup c special with
  | Some v => v
  | None => match run_lookup c runs with Some d => [d] | None => [c] end
  end.

Definition lower_full : N -> list N := map_full Unicode.lower_special Unicode.lower_runs.
Definition title_full : N -> list N := map_full Unicode.title_special Unicode.title_runs.

Fixpoint drop_while (f : N -> bool) (s : pystr) : pystr :=
  match s with
  | [] => []
  | c :: s' => if f c then drop_while f s' else s
  end.

(** Capital sigma lower-cases to the final form when a cased letter stands
    before it and none after it, case-ignorable characters being skipped on
    both sides. [before] lists the characters to the left, nearest first. *)
Definition final_sigma (before after : pystr) : bool :=
  match drop_while case_ignorable before with
  | [] => false
  | c :: _ =>
    cased c &&
    match drop_while case_ignorable after with
    | [] => true
    | d :: _ => negb (cased d)
    end
  end.

Definition lower_char (before : pystr) (c : N) (after : pystr) : list N :=
  if c =? 0x3A3
  then [if final_sigma before after then 0x3C2 else 0x3C3]
  else lower_full c.

Fixpoint lower_from (before s : pystr) : pystr :=
  match s with
  | [] => []
  | c :: s' => lower_char before c s' ++ lower_from (c :: before) s'
  end.

(** [s.lower()] *)
Definition lower (s : pystr) : pystr := lower_from [] s.

Fixpoint title_from (previous_is_cased : bool) (before s : pystr) : pystr :=
  match s with
  | [] => []
  | c :: s' =>
    (if previous_is_cased then lower_char before c s' else title_full c)
      ++ title_from (cased c) (c :: before) s'
  end.

(** [s.title()] *)
Definition title (s : pystr) : pystr := title_from false [] s.

(** *** Tests and searches *)

Definition is_empty {A} (l : list A) : bool :=
  match l with [] => true | _ :: _ => false end.

(** [s.strip()] *)
Definition lstrip (s : pystr) : pystr := drop_while isspace_cp s.
Definition rstrip (s : pystr) : pystr := rev (drop_while isspace_cp (rev s)).
Definition strip (s : pystr) : pystr := rstrip (lstrip s).

(** [s.isdigit()]: at least one character, all of them digits. *)
Definition isdigit (s : pystr) : bool := negb (is_empty s) && forallb isdigit_cp s.

Fixpoint starts_with (p s : pystr) : bool :=
  match p, s with
  | [], _ => true
  | _ :: _, [] => false
  | a :: p', b :: s' => (a =? b) && starts_with p' s'
  end.

(** [sub in s] *)
Fixpoint contains (sub s : pystr) : bool :=
  starts_with sub s || match s with [] => false | _ :: s' => contains sub s' end.

(** [a == b] *)
Fixpoint str_eqb (a b : pystr) : bool :=
  match a, b with
  | [], [] => true
  | x :: a', y :: b' => (x =? y) && str_eqb a' b'
  | _, _ => false
  end.

(** [x in choices] for a list of strings *)
Definition str_in (x : pystr) (choices : list pystr) : bool := existsb (str_eqb x) choices.

(** [sep.join(parts)] *)
Fixpoint join (sep : pystr) (parts : list pystr) : pystr :=
  match parts with
  | [] => []
  | [p] => p
  | p :: rest => p ++ sep ++ join sep rest
  end.

(** *** Integers to and from strings *)

Fixpoint uint_chars (d : Decimal.uint) : pystr :=
  match d with
  | Decimal.Nil => []
  | Decimal.D0 d => 0x30 :: uint_chars d
  | Decimal.D1 d => 0x31 :: uint_chars d
  | Decimal.D2 d => 0x32 :: uint_chars d
  | Decimal.D3 d => 0x33 :: uint_chars d
  | Decimal.D4 d => 0x34 :: uint_chars d
  | Decimal.D5 d => 0x35 :: uint_chars d
  | Decimal.D6 d => 0x36 :: uint_chars d
  | Decimal.D7 d => 0x37 :: uint_chars d
  | Decimal.D8 d => 0x38 :: uint_chars d
  | Decimal.D9 d => 0x39 :: uint_chars d
  end.

(** [str(n)] for an [int] n >= 0 *)
Definition str_N (n : N) : pystr := uint_chars (N.to_uint n).
Definition str_nat (n : nat) : pystr := str_N (N.of_nat n).

(** [str(z)] for an [int] *)
Definition str_Z (z : Z) : pystr :=
  match z with
  | Zneg p => 0x2D :: str_N (Npos p)
  | _ => str_N (Z.to_N z)
  end.

Fixpoint int_digits (acc : N) (s : pystr) : option N :=
  match s with
  | [] => Some acc
  | c :: s' =>
    match decimal_value c with
    | Some d => int_digits (acc * 10 + d) s'
    | None => None
    end
  end.

(** [int(s)] for a string s without sign, blank or underscore, which is what
    the guard [s.isdigit()] of the caller lets through, and of no more digits
    than the interpreter converts (see [within_digit_limit] below): the number
    written by the characters when each of them is a decimal digit, [None]
    (for [ValueError]) otherwise. *)
Definition int_of_str (s : pystr) : option N :=
  match s with
  | [] => None
  | _ :: _ => int_digits 0 s
  end.

(** [sys.int_info.default_max_str_digits]: since CPython 3.11 [int(s)] raises
    [ValueError] when s has more digits than this, leading zeros counted,
    unless the interpreter was started with another limit. *)
Definition int_max_str_digits : N := 4300.

(** The strings short enough for [int]. On these [int_of_str] is [int]; on a
    longer string of decimal digits [int] raises [ValueError] where
    [int_of_str] gives the number, so a statement about what [int] returns
    must keep to them. The numerals of the positions of a roster are among
    them: a list has fewer than 2^63 items. *)
Definition within_digit_limit (s : pystr) : bool :=
  (N.of_nat (length s) <=? int_max_str_digits)%N.

End PyStr.

Import PyStr.

(** ** Numbers

    [json.load] turns a JSON number into an [int] or a [float]. The program
    compares such numbers and prints them and does nothing else with them, so
    they are kept abstract: a type with Python's [<] and [str]. *)

Class PyNumber (num : Type) : Type := {
  num_lt : num -> num -> bool;
  num_str : num -> pystr
}.

(** [a >= b] on numbers that are totally ordered, as the numbers of a JSON
    file are. *)
Definition num_ge {num} `{PyNumber num} (a b : num) : bool := negb (num_lt a b).
Definition num_le {num} `{PyNumber num} (a b : num) : bool := negb (num_lt b a).

(** The laws of [<] on [int] and on [float] without NaN. *)
Class PyNumberOrder (num : Type) `{PyNumber num} : Prop := {
  num_lt_irrefl : forall a, num_lt a a = false;
  num_lt_trans : forall a b c, num_lt a b = true -> num_lt b c = true -> num_lt a c = true;
  num_lt_between : forall a b c, num_lt a b = true -> num_lt a c = true \/ num_lt c b = true
}.

(** Python's [int]. *)
#[export] Instance PyInt : PyNumber Z := {| num_lt := Z.ltb; num_str := str_Z |}.

(** The numbers of a file with NaN: besides the numbers of the JSON standard
    [json.load] accepts the word [NaN] and returns [float('nan')] for it.
    Every comparison with NaN is false, and [str] of it is "nan". *)
Inductive nan_number : Type :=
| Finite (z : Z)
| NaN.

Definition nan_lt (a b : nan_number) : bool :=
  match a, b with
  | Finite x, Finite y => Z.ltb x y
  | _, _ => false
  end.

(** [a >= b] and [a <= b] *)
Definition nan_ge (a b : nan_number) : bool :=
  match a, b with
  | Finite x, Finite y => Z.leb y x
  | _, _ => false
  end.

Definition nan_le (a b : nan_number) : bool :=
  match a, b with
  | Finite x, Finite y => Z.leb x y
  | _, _ => false
  end.

Definition nan_str (a : nan_number) : pystr :=
  match a with
  | Finite z => str_Z z
  | NaN => u "nan"
  end.

Definition PyNan : PyNumber nan_number := {| num_lt := nan_lt; num_str := nan_str |}.

(** ** Exceptions and results *)

Inductive exn : Type :=
| ValueError
| TypeError
| IndexError
| FileNotFoundError
| JSONDecodeError.

Inductive result (A : Type) : Type :=
| Ok (a : A)
| Raise (e : exn).

Arguments Ok {A} a.
Arguments Raise {A} e.

(** ** Sequences *)

Fixpoint enumerate_from {A} (i : nat) (l : list A) : list (nat * A) :=
  match l with
  | [] => []
  | x :: l' => (i, x) :: enumerate_from (S i) l'
  end.

(** [enumerate(l)] *)
Definition enumerate {A} (l : list A) : list (nat * A) := enumerate_from 0 l.

(** The scan behind [max] and [min]: the running extremum [cur] is replaced
    by an item only when the item is strictly better. *)
Fixpoint scan {A} (better : A -> A -> bool) (cur : A) (l : list A) : A :=
  match l with
  | [] => cur
  | x :: l' => scan better (if better x cur then x else cur) l'
  end.

(** [max(l, key=key)] and [min(l, key=key)]; [None] stands for the
    [ValueError] raised on an empty sequence. *)
Definition py_max {A K} (lt : K -> K -> bool) (key : A -> K) (l : list A) : option A :=
  match l with
  | [] => None
  | x :: l' => Some (scan (fun y cur => lt (key cur) (key y)) x l')
  end.

Definition py_min {A K} (lt : K -> K -> bool) (key : A -> K) (l : list A) : option A :=
  match l with
  | [] => None
  | x :: l' => Some (scan (fun y cur => lt (key y) (key cur)) x l')
  end.

(** ** The program *)

Section App.

Context {num : Type} `{PyNumber num}.

(** A field of a JSON object that may be left out or be [null]. *)
Inductive field (A : Type) : Type :=
| Missing
| Null
| Val (a : A).

Arguments Missing {A}.
Arguments Null {A}.
Arguments Val {A} a.

(** [p.get(key)]: [None] when the key is missing, the stored value (which is
    [None] for [null]) otherwise. *)
Definition get {A} (f : field A) : option A :=
  match f with
  | Val a => Some a
  | Missing | Null => None
  end.

Definition is_some {A} (o : option A) : bool :=
  match o with Some _ => true | None => false end.

(** An entry of [data.json]: the strings "Name", "University" and "Category",
    and the numbers "Value" and "Player Points", each of which may be left out
    or be [null]. *)
Record Player : Type := {
  Name : pystr;
  University : pystr;
  Category : pystr;
  Value : field num;
  Player_Points : field num
}.

(** What an f-string may have to print. *)
Inductive pyval : Type :=
| PStr (s : pystr)
| PNone
| PNum (n : num).

(** [str(v)] *)
Definition py_str (v : pyval) : pystr :=
  match v with
  | PStr s => s
  | PNone => u "None"
  | PNum n => num_str n
  end.

(** [p.get(key, default)] with a string for default. *)
Definition get_default (f : field num) (default : pystr) : pyval :=
  match f with
  | Missing => PStr default
  | Null => PNone
  | Val n => PNum n
  end.

(** The world the script runs in: the file [data.json] ([None] when there is
    no such file), the banners [st.error] has put on the page (latest first)
    and the module-level variable [players]. *)
Record World : Type := {
  data_json : option pystr;
  banners : list pystr;
  players : list Player
}.

(** Computations that read and write the world and may raise. *)
Definition M (A : Type) : Type := World -> result A * World.

Definition ret {A} (a : A) : M A := fun w => (Ok a, w).

Definition raise {A} (e : exn) : M A := fun w => (Raise e, w).

Definition bind {A B} (m : M A) (k : A -> M B) : M B :=
  fun w =>
    match m w with
    | (Ok a, w') => k a w'
    | (Raise e, w') => (Raise e, w')
    end.

(** [try: m except e: handler e] *)
Definition try_except {A} (m : M A) (handler : exn -> M A) : M A :=
  fun w =>
    match m w with
    | (Ok a, w') => (Ok a, w')
    | (Raise e, w') => handler e w'
    end.

Notation "x <- m ;; k" := (bind m (fun x => k))
  (at level 61, m at next level, right associativity).
Notation "m ;;; k" := (bind m (fun _ => k))
  (at level 61, right associativity).

(** [open('data.json', 'r')] followed by reading the text, in the two
    courses that [load_players] tells apart: the file is there and is read,
    or it is not there. Another [OSError] from [open] and a
    [UnicodeDecodeError] from reading escape [load_players] and are not
    modelled. *)
Definition open_data_json : M pystr :=
  fun w =>
    match data_json w with
    | Some text => (Ok text, w)
    | None => (Raise FileNotFoundError, w)
    end.

(** The world with one more banner. *)
Definition with_banner (msg : pystr) (w : World) : World :=
  {| data_json := data_json w; banners := msg :: banners w; players := players w |}.

(** [st.error(msg)] *)
Definition st_error (msg : pystr) : M unit := fun w => (Ok tt, with_banner msg w).

(** Reading and assigning the module-level [players]. *)
Definition get_players : M (list Player) := fun w => (Ok (players w), w).

Definition set_players (ps : list Player) : M unit :=
  fun w => (Ok tt, {| data_json := data_json w; banners := banners w; players := ps |}).

(** The JSON parser: the entries a text denotes, [None] when the text is not
    valid JSON ([json.JSONDecodeError]). The other exceptions of [json.load]
    (a [ValueError] for a number of more digits than [int] converts, a
    [RecursionError] for too deep a nesting) escape [load_players] and are
    not modelled. *)
Variable json_loads : pystr -> option (list Player).

(** The score from 0 to 100 that [fuzzywuzzy.process.extractOne] gives to a
    query and a choice with its default processor and scorer. *)
Variable score : pystr -> pystr -> N.

Definition json_load (text : pystr) : M (list Player) :=
  match json_loads text with
  | Some ps => ret ps
  | None => raise JSONDecodeError
  end.

(** [load_players], lines 15-25. The decorator [st.cache_data] keeps the
    result for later runs of the script; this is one run of the body. The
    two handlers catch [FileNotFoundError] and [JSONDecodeError] and let
    every other exception through; of the runs in which the body raises, the
    world above has those with one of these two. *)
Definition load_players : M (list Player) :=
  try_except
    (file <- open_data_json ;; json_load file)
    (fun e =>
       match e with
       | FileNotFoundError =>
         st_error (u "❌ data.json file not found. Please make sure the file exists in the same directory.") ;;;
         ret []
       | JSONDecodeError =>
         st_error (u "❌ Invalid JSON format in data.json file.") ;;;
         ret []
       | _ => raise e
       end).

(** Line 27: [players = load_players()]. *)
Definition startup : M unit :=
  ps <- load_players ;; set_players ps.

(** Line 30. *)
Definition STANDARD_TERMS : list pystr :=
  [u "batsman"; u "bowler"; u "all-rounder"; u "player list"; u "best player"; u "worst player"].

(** [process.extractOne(query, choices)]: every choice with its score, and of
    these the first one with the highest score; [None] when there is no
    choice. *)
Definition extractOne (query : pystr) (choices : list pystr) : option (pystr * N) :=
  py_max N.ltb snd (map (fun c => (c, score query c)) choices).

(** [get_best_match], lines 32-41. Unpacking [None] into [match, score]
    raises [TypeError]. *)
Definition get_best_match (user_input : pystr) (choices : list pystr) (threshold : N)
    : M (option pystr) :=
  if is_empty (strip user_input) then ret None
  else
    match extractOne user_input choices with
    | Some (match_, score_) => ret (if threshold <=? score_ then Some match_ else None)%N
    | None => raise TypeError
    end.

(** The text for the value of a player, lines 46 and 78. *)
Definition value_text (p : Player) : pystr :=
  match get (Value p) with
  | Some v => u "$" ++ num_str v
  | None => u "N/A"
  end.

(** [format_player_info], lines 43-47. *)
Definition format_player_info (player : Player) (index : option nat) : pystr :=
  let prefix :=
    match index with
    | Some i => str_nat i ++ u ". "
    | None => []
    end in
  let value := value_text player in
  prefix ++ Name player ++ u " - " ++ University player ++ u " - " ++ Category player
    ++ u " - " ++ value.

(** [get_players_by_category], lines 49-54. *)
Definition get_players_by_category (category : pystr) : M (list Player) :=
  players <- get_players ;;
  ret (filter
         (fun p => str_eqb (lower (Category p)) (lower category) && is_some (get (Value p)))
         players).

(** The numbered lines of a listing, lines 69 and 112. *)
Definition numbered (l : list Player) : list pystr :=
  map (fun ip => format_player_info (snd ip) (Some (fst ip + 1))) (enumerate l).

(** The players that have points, each with its points (line 92). On these
    the key of lines 96 and 97, [p.get("Player Points", 0)], is the points,
    the second component here. *)
Definition with_points (l : list Player) : list (Player * num) :=
  flat_map (fun p => match get (Player_Points p) with Some n => [(p, n)] | None => [] end) l.

(** The help text of lines 116-122. *)
Definition help (count : nat) : pystr :=
  u "🤔 I didn't understand your query. Try asking about:" ++ nl
  ++ u "• **'player list'** - to see all players" ++ nl
  ++ u "• **'batsman'**, **'bowler'**, or **'all-rounder'** - to filter by category" ++ nl
  ++ u "• **'best player'** - to see the best and worst players" ++ nl
  ++ u "• **A number (1-" ++ str_nat count ++ u ")** - to get details about a specific player".

(** [process_query], lines 56-122. [int] of line 74 is [int_of_str], which
    is [int] on the strings [within_digit_limit]; the statements about an
    input that is not the numeral of a position of the roster keep to the
    inputs [within_int_limit]. *)
Definition process_query (user_input : pystr) : M pystr :=
  if is_empty (strip user_input) then ret (u "Please enter a query.")
  else
    let user_input_lower := strip (lower user_input) in
    if contains (u "player list") user_input_lower then
      players <- get_players ;;
      let valid_players := filter (fun p => is_some (get (Value p))) players in
      if is_empty valid_players then ret (u "No players found with valid values.")
      else
        let response := numbered valid_players in
        ret (u "📋 **Player List (" ++ str_nat (length valid_players) ++ u " players):**" ++ nl
             ++ join nl response)
    else if isdigit user_input_lower then
      match int_of_str user_input_lower with
      | None => raise ValueError
      | Some n =>
        let index := (Z.of_N n - 1)%Z in
        players <- get_players ;;
        if ((0 <=? index) && (index <? Z.of_nat (length players)))%Z then
          match nth_error players (Z.to_nat index) with
          | None => raise IndexError
          | Some p =>
            let points := get_default (Player_Points p) (u "N/A") in
            let value := value_text p in
            ret (u "🏏 **Player Details:**" ++ nl
                 ++ u "**Name:** " ++ Name p ++ nl
                 ++ u "**University:** " ++ University p ++ nl
                 ++ u "**Category:** " ++ Category p ++ nl
                 ++ u "**Value:** " ++ value ++ nl
                 ++ u "**Points:** " ++ py_str points)
          end
        else
          ret (u "❌ Invalid player index. Please enter a number between 1 and "
               ++ str_nat (length players) ++ u ".")
      end
    else if contains (u "best player") user_input_lower
            || contains (u "worst player") user_input_lower then
      players <- get_players ;;
      let valid_players := with_points players in
      if is_empty valid_players then ret (u "No players found with valid points data.")
      else
        match py_max num_lt snd valid_players, py_min num_lt snd valid_players with
        | Some best_player, Some worst_player =>
          ret (u "🏆 **Best Player:** " ++ Name (fst best_player) ++ u " - "
               ++ num_str (snd best_player) ++ u " points" ++ nl
               ++ u "📉 **Worst Player:** " ++ Name (fst worst_player) ++ u " - "
               ++ num_str (snd worst_player) ++ u " points")
        | _, _ => raise ValueError
        end
    else
      best_match <- get_best_match user_input_lower STANDARD_TERMS 60 ;;
      match best_match with
      | Some term =>
        if str_in term [u "batsman"; u "bowler"; u "all-rounder"] then
          category_players <- get_players_by_category term ;;
          if is_empty category_players then ret (u "❌ No " ++ term ++ u "s found.")
          else
            let response := numbered category_players in
            ret (u "🏏 **" ++ title term ++ u "s (" ++ str_nat (length category_players)
                 ++ u " found):**" ++ nl ++ join nl response)
        else
          players <- get_players ;; ret (help (length players))
      | None =>
        players <- get_players ;; ret (help (length players))
      end.

End App.

Arguments Missing {A}.
Arguments Null {A}.
Arguments Val {A} a.

Arguments u : simpl never.

(** ** The responder as a function

    [respond] is the answer of [process_query] as a function of the roster and
    the input: the result of running it in a world that has this roster. *)

Definition respond {num} `{PyNumber num} (score : pystr -> pystr -> N)
    (roster : list Player) (rawInput : pystr) : result pystr :=
  fst (process_query score rawInput {| data_json := None; banners := []; players := roster |}).

(** What [get_best_match] returns on the vocabulary with the default
    threshold, as a value. *)
Definition best_match_of (score : pystr -> pystr -> N) (user_input : pystr)
    : result (option pystr) :=
  if is_empty (strip user_input) then Ok None
  else
    match extractOne score user_input STANDARD_TERMS with
    | Some (term, sc) => Ok (if (60 <=? sc)%N then Some term else None)
    | None => Raise TypeError
    end.

(** The input as the rules see it: [user_input.lower().strip()]. *)
Definition normal (user_input : pystr) : pystr := strip (lower user_input).

(** The inputs that [int] of line 74 can take: all but those whose normal
    form is all digits and longer than the limit on digits, on which line 74
    raises [ValueError] whatever the digits. *)
Definition within_int_limit (user_input : pystr) : bool :=
  negb (isdigit (normal user_input)) || within_digit_limit (normal user_input).

(** ** Selections

    [selection P l r]: r lists the elements of l that satisfy P, all of them
    and only them, in the order of l. *)

Inductive selection {A} (P : A -> Prop) : list A -> list A -> Prop :=
| selection_nil : selection P [] []
| selection_keep x l r : P x -> selection P l r -> selection P (x :: l) (x :: r)
| selection_skip x l r : ~ P x -> selection P l r -> selection P (x :: l) r.

(** A record is in the listing of a category when its category is the given
    one up to case and it has a value. *)
Definition in_category {num} (category : pystr) (p : Player (num := num)) : Prop :=
  lower (Category p) = lower category /\ exists v, Value p = Val v.

(** ** The answer on the page

    Lines 174-185: nothing is computed for the empty string; otherwise the
    answer of [process_query] goes to [st.error], [st.success] or [st.info]
    according to how it starts. *)

Inductive box : Type :=
| BoxError
| BoxSuccess
| BoxInfo.

(** [response.startswith(prefix)] is [starts_with prefix response]. *)
Definition response_box (response : pystr) : box :=
  if starts_with (u "❌") response then BoxError
  else if starts_with (u "🏆") response || starts_with (u "📋") response
          || starts_with (u "🏏") response then BoxSuccess
  else BoxInfo.

Definition show_response {num} `{PyNumber num} (score : pystr -> pystr -> N)
    (user_input : pystr) : M (option (box * pystr)) :=
  if is_empty user_input then ret None
  else bind (process_query score user_input)
            (fun response => ret (Some (response_box response, response))).

(** ** The summary in the sidebar

    Lines 146-155. The dictionary [categories] is a list of keys with their
    counts in the order in which the keys were first set, the order in which
    [categories.items()] gives them. *)

(** [d.get(k, default)] *)
Fixpoint dict_get (d : list (pystr * nat)) (k : pystr) (default : nat) : nat :=
  match d with
  | [] => default
  | (k', v) :: d' => if str_eqb k' k then v else dict_get d' k default
  end.

(** [d[k] = v] *)
Fixpoint dict_set (d : list (pystr * nat)) (k : pystr) (v : nat) : list (pystr * nat) :=
  match d with
  | [] => [(k, v)]
  | (k', v') :: d' => if str_eqb k' k then (k', v) :: d' else (k', v') :: dict_set d' k v
  end.

(** The body of the loop, lines 150 and 151. Every record has its
    "Category", so the default ['Unknown'] of line 150 is not used. *)
Definition count_step {num} (categories : list (pystr * nat)) (p : Player (num := num))
    : list (pystr * nat) :=
  let cat := Category p in
  dict_set categories cat (dict_get categories cat 0 + 1).

(** The loop of lines 148-151. *)
Definition count_categories {num} (roster : list (Player (num := num)))
    : list (pystr * nat) :=
  fold_left count_step roster [].

(** The texts given to [st.markdown] by lines 146-155, in order. *)
Definition sidebar_summary {num} : M (num := num) (list pystr) :=
  bind get_players
    (fun players =>
       if is_empty players then ret []
       else
         ret ((u "**Total Players:** " ++ str_nat (length players))
              :: u "**By Category:**"
              :: map (fun item => u "- " ++ fst item ++ u ": " ++ str_nat (snd item))
                     (count_categories players))).

(** The number of records of a category, the category taken as it is
    written. *)
Definition count_category {num} (category : pystr) (roster : list (Player (num := num)))
    : nat :=
  length (filter (fun p => str_eqb (Category p) category) roster).

(** The elements of a list of strings that are not in [seen], without the
    repetitions, each at its first place. *)
Fixpoint first_occurrences (seen l : list pystr) : list pystr :=
  match l with
  | [] => []
  | x :: l' =>
    if str_in x seen then first_occurrences seen l'
    else x :: first_occurrences (seen ++ [x]) l'
  end.

(** The sum of the counts of a dictionary. *)
Definition total_count (d : list (pystr * nat)) : nat :=
  fold_right (fun item acc => snd item + acc) 0 d.

(** ** Ranges that do not meet

    Used to check that a case mapping never gives a blank. *)

Definition avoids (lo hi : N) (rs : list (N * N)) : bool :=
  forallb (fun ab => (hi <? fst ab)%N || (snd ab <? lo)%N) rs.

Definition runs_avoid (runs : list (N * N * N * N)) (rs : list (N * N)) : bool :=
  forallb (fun r =>
             match r with
             | (a, b, _, img) => avoids img (img + (b - a))%N rs
             end) runs.

Definition specials_not_blank (m : list (N * list N)) : bool :=
  forallb (fun kv => existsb (fun c => negb (isspace_cp c)) (snd kv)) m.

(** ** Sample data *)

Module Sample.

Definition player (name university category : string) (value points : field Z)
    : Player (num := Z) :=
  {| Name := u name; University := u university; Category := u category;
     Value := value; Player_Points := points |}.

Definition roster : list Player :=
  [ player "Ann" "Moratuwa" "Batsman" (Val 100%Z) (Val 50%Z);
    player "Bob" "Colombo" "Bowler" Null Null;
    player "Cy" "Peradeniya" "batsman" (Val 70%Z) Missing;
    player "Di" "Ruhuna" "All-Rounder" (Val 90%Z) (Val 50%Z);
    player "Ed" "Jaffna" "Bowler" (Val 90%Z) (Val 3%Z);
    player "Flo" "Kelaniya" "BOWLER" Missing (Val 3%Z) ].

Definition world : World :=
  {| data_json := Some (u "[...]"); banners := []; players := roster |}.

(** A world without [data.json], before the script has run. *)
Definition no_file : World (num := Z) :=
  {| data_json := None; banners := []; players := [] |}.

(** A world whose [data.json] is not JSON, and a parser that says so. *)
Definition bad_file : World (num := Z) :=
  {| data_json := Some (u "{"); banners := []; players := [] |}.

Definition reject (text : pystr) : option (list (Player (num := Z))) := None.

(** A parser that reads [roster] in every text. *)
Definition accept (text : pystr) : option (list (Player (num := Z))) := Some roster.

(** A world whose roster is stale: the file is there, a banner is on the
    page and the roster holds another list. *)
Definition stale : World (num := Z) :=
  {| data_json := Some (u "[...]"); banners := [u "note"];
     players := [player "Ann" "Moratuwa" "Batsman" (Val 100%Z) Null] |}.

(** A scorer for the examples: 100 when query and choice are the same once
    hyphens are read as blanks, 0 otherwise. *)
Definition same_words (query choice : pystr) : N :=
  let blank c := if (c =? 0x2D)%N then 0x20%N else c in
  if str_eqb (map blank query) (map blank choice) then 100%N else 0%N.

(** A record whose points are [null], alone in a roster. *)
Definition ann_null : Player := player "Ann" "Moratuwa" "Batsman" (Val 100%Z) Null.

Definition null_points : list Player := [ann_null].

Definition null_world : World :=
  {| data_json := Some (u "[...]"); banners := []; players := null_points |}.

(** A roster from a file in which the points of the first record are [NaN]. *)
Definition nan_player (name university category : string) (points : nan_number)
    : Player (num := nan_number) :=
  {| Name := u name; University := u university; Category := u category;
     Value := Missing; Player_Points := Val points |}.

Definition nan_roster : list Player :=
  [ nan_player "Ann" "Moratuwa" "Batsman" NaN;
    nan_player "Bob" "Colombo" "Bowler" (Finite 5);
    nan_player "Cy" "Peradeniya" "Batsman" (Finite 7) ].

Definition nan_world : World :=
  {| data_json := Some (u "[...]"); banners := []; players := nan_roster |}.

(** The roster of [world] in a world that differs in all the rest. *)
Definition other_page : World :=
  {| data_json := None; banners := [u "note"]; players := roster |}.

End Sample.

(** ** Enumeration of ranges

    Facts about every character of a class are checked on the finite list of
    the characters in the ranges of the class. *)

Fixpoint range_list (a : N) (n : nat) : list N :=
  match n with
  | O => []
  | S n' => a :: range_list (N.succ a) n'
  end.

Definition expand (rs : list (N * N)) : list N :=
  flat_map (fun ab => range_list (fst ab) (N.to_nat (N.succ (snd ab) - fst ab))) rs.

(** A character that [lower] leaves alone wherever it stands. *)
Definition lower_fixed (c : N) : bool :=
  negb (c =? 0x3A3)%N && str_eqb (lower_full c) [c].

Definition ascii_digits : list (N * N) := [(0x30, 0x39)]%N.

(** What the responder needs of the characters '0' to '9'. *)
Definition ascii_digit_ok (c : N) : bool :=
  lower_fixed c && isdigit_cp c && negb (isspace_cp c)
  && match decimal_value c with Some d => (d =? c - 0x30)%N | None => false end.

(** * Properties *)

(** ** Strings *)

Section StringFacts.

Local Open Scope N_scope.

Lemma str_eqb_eq (a b : pystr) : str_eqb a b = true <-> a = b.
Proof.
  revert b; induction a as [|x a IH]; intros [|y b]; simpl; split; try easy.
  - rewrite andb_true_iff, N.eqb_eq, IH. now intros [-> ->].
  - intros E; injection E as -> ->. now rewrite N.eqb_refl, (proj2 (IH b)).
Qed.

Lemma str_eqb_refl (a : pystr) : str_eqb a a = true.
Proof. now apply str_eqb_eq. Qed.

Lemma range_list_In (c a : N) (n : nat) :
  a <= c -> c < a + N.of_nat n -> In c (range_list a n).
Proof.
  revert a; induction n as [|n IH]; intros a Ha Hc; simpl.
  - lia.
  - destruct (N.eq_dec a c) as [->|Hne]; [now left|right].
    apply IH; lia.
Qed.

Lemma in_ranges_expand (c : N) (rs : list (N * N)) :
  in_ranges c rs = true -> In c (expand rs).
Proof.
  induction rs as [|[a b] rs IH]; simpl; [discriminate|].
  rewrite orb_true_iff, andb_true_iff, !N.leb_le.
  intros [[Ha Hb]|Hr]; apply in_or_app; [left|right; now apply IH].
  apply range_list_In; lia.
Qed.

(** Checking a property on the characters of a class. *)
Lemma forall_in_ranges (P : N -> bool) (rs : list (N * N)) :
  forallb P (expand rs) = true -> forall c, in_ranges c rs = true -> P c = true.
Proof.
  intros Hall c Hc. rewrite forallb_forall in Hall.
  apply Hall. now apply in_ranges_expand.
Qed.

Lemma space_lower_fixed (c : N) : isspace_cp c = true -> lower_fixed c = true.
Proof. apply forall_in_ranges. vm_compute. reflexivity. Qed.

Lemma ascii_digit_props (c : N) : in_ranges c ascii_digits = true -> ascii_digit_ok c = true.
Proof. apply forall_in_ranges. vm_compute. reflexivity. Qed.

Lemma lower_char_fixed (before after : pystr) (c : N) :
  lower_fixed c = true -> lower_char before c after = [c].
Proof.
  unfold lower_fixed, lower_char. rewrite andb_true_iff, negb_true_iff, str_eqb_eq.
  now intros [-> ->].
Qed.

Lemma lower_from_fixed (s before : pystr) :
  forallb lower_fixed s = true -> lower_from before s = s.
Proof.
  revert before; induction s as [|c s IH]; intros before; simpl; [reflexivity|].
  rewrite andb_true_iff. intros [Hc Hs].
  now rewrite lower_char_fixed, IH.
Qed.

Lemma lower_fixed_id (s : pystr) : forallb lower_fixed s = true -> lower s = s.
Proof. apply lower_from_fixed. Qed.

Lemma forallb_impl {A} (f g : A -> bool) (l : list A) :
  (forall x, f x = true -> g x = true) -> forallb f l = true -> forallb g l = true.
Proof.
  intros Hfg. rewrite !forallb_forall. auto.
Qed.

(** *** Stripping *)

Lemma drop_while_all (f : N -> bool) (s : pystr) :
  forallb f s = true -> drop_while f s = [].
Proof.
  induction s as [|c s IH]; simpl; [reflexivity|].
  rewrite andb_true_iff. intros [-> Hs]. auto.
Qed.

Lemma drop_while_nil (f : N -> bool) (s : pystr) :
  drop_while f s = [] -> forallb f s = true.
Proof.
  induction s as [|c s IH]; simpl; [reflexivity|].
  destruct (f c); [auto|discriminate].
Qed.

Lemma drop_while_none (f : N -> bool) (s : pystr) :
  forallb (fun c => negb (f c)) s = true -> drop_while f s = s.
Proof.
  destruct s as [|c s]; simpl; [reflexivity|].
  rewrite andb_true_iff, negb_true_iff. now intros [-> _].
Qed.

Lemma forallb_rev {A} (f : A -> bool) (l : list A) :
  forallb f (rev l) = forallb f l.
Proof.
  induction l as [|x l IH]; simpl; [reflexivity|].
  rewrite forallb_app, IH. simpl. rewrite andb_true_r. apply andb_comm.
Qed.

Lemma drop_while_suffix (f : N -> bool) (s : pystr) :
  exists pre, s = pre ++ drop_while f s /\ forallb f pre = true.
Proof.
  induction s as [|c s (pre & E & Hpre)]; simpl.
  - now exists [].
  - destruct (f c) eqn:Hc.
    + exists (c :: pre). simpl. rewrite Hc, Hpre. split; [now f_equal|reflexivity].
    + now exists [].
Qed.

Lemma strip_all_space (s : pystr) : forallb isspace_cp s = true -> strip s = [].
Proof.
  intros Hs. unfold strip, lstrip, rstrip. now rewrite (drop_while_all _ _ Hs).
Qed.

Lemma drop_while_head (f : N -> bool) (s t : pystr) (c : N) :
  drop_while f s = c :: t -> f c = false.
Proof.
  induction s as [|x s IH]; simpl; [discriminate|].
  destruct (f x) eqn:Hx; [exact IH|]. now intros [= <- _].
Qed.

Lemma rev_nil {A} (l : list A) : rev l = [] -> l = [].
Proof.
  intros E. apply (f_equal (@rev A)) in E. now rewrite rev_involutive in E.
Qed.

Lemma strip_nil (s : pystr) : strip s = [] -> forallb isspace_cp s = true.
Proof.
  unfold strip, lstrip, rstrip. intros E.
  apply rev_nil, drop_while_nil in E. rewrite forallb_rev in E.
  destruct (drop_while isspace_cp s) as [|c t] eqn:Ed.
  - now apply drop_while_nil.
  - apply drop_while_head in Ed. simpl in E. now rewrite Ed in E.
Qed.

Lemma strip_none (s : pystr) :
  forallb (fun c => negb (isspace_cp c)) s = true -> strip s = s.
Proof.
  intros Hs. unfold strip, lstrip, rstrip.
  rewrite (drop_while_none _ _ Hs), drop_while_none, rev_involutive; [reflexivity|].
  now rewrite forallb_rev.
Qed.

(** *** Substrings *)

Lemma starts_with_iff (p s : pystr) :
  starts_with p s = true <-> exists t, s = p ++ t.
Proof.
  revert s; induction p as [|a p IH]; intros s; simpl.
  - split; [now exists s|reflexivity].
  - destruct s as [|b s].
    + split; [discriminate|]. now intros (t & E).
    + rewrite andb_true_iff, N.eqb_eq, IH. split.
      * intros [-> (t & ->)]. now exists t.
      * intros (t & E). injection E as -> ->. split; [reflexivity|now exists t].
Qed.

Lemma contains_iff (p s : pystr) :
  contains p s = true <-> exists pre post, s = pre ++ p ++ post.
Proof.
  induction s as [|b s IH]; simpl; rewrite orb_true_iff, starts_with_iff.
  - split.
    + intros [(t & E)|H]; [|discriminate]. now exists [], t.
    + intros (pre & post & E). left. exists post.
      destruct pre; [exact E|discriminate].
  - rewrite IH. split.
    + intros [(t & E)|(pre & post & E)].
      * now exists [], t.
      * exists (b :: pre), post. now rewrite E.
    + intros (pre & post & E). destruct pre as [|x pre].
      * left. now exists post.
      * right. injection E as -> ->. now exists pre, post.
Qed.

Lemma contains_rev (p s : pystr) : contains (rev p) (rev s) = contains p s.
Proof.
  assert (H : forall p s, contains p s = true -> contains (rev p) (rev s) = true).
  { intros p0 s0. rewrite !contains_iff. intros (pre & post & ->).
    exists (rev post), (rev pre). now rewrite !rev_app_distr, app_assoc. }
  apply eq_true_iff_eq. split; [|apply H].
  intros H'. apply H in H'. now rewrite !rev_involutive in H'.
Qed.

Lemma contains_head_in (a : N) (p s : pystr) : contains (a :: p) s = true -> In a s.
Proof.
  rewrite contains_iff. intros (pre & post & ->).
  apply in_or_app. right. now left.
Qed.

(** A string of characters of one class has no substring that starts with a
    character outside the class. *)
Lemma contains_class (f : N -> bool) (a : N) (p s : pystr) :
  f a = false -> forallb f s = true -> contains (a :: p) s = false.
Proof.
  intros Ha Hs. destruct (contains (a :: p) s) eqn:E; [|reflexivity].
  apply contains_head_in in E. rewrite forallb_forall in Hs.
  apply Hs in E. congruence.
Qed.

Lemma contains_drop_while (f : N -> bool) (a : N) (p s : pystr) :
  f a = false -> contains (a :: p) (drop_while f s) = contains (a :: p) s.
Proof.
  intros Ha. induction s as [|c s IH]; [reflexivity|].
  cbn [drop_while]. destruct (f c) eqn:Hc; [|reflexivity].
  rewrite IH. cbn [contains starts_with].
  destruct (N.eqb_spec a c) as [->|_]; [congruence|reflexivity].
Qed.

(** Stripping keeps the occurrences of a substring that neither starts nor
    ends with a blank. *)
Lemma contains_strip (p s : pystr) (a z : N) (q r : pystr) :
  p = a :: q -> rev p = z :: r -> isspace_cp a = false -> isspace_cp z = false ->
  contains p (strip s) = contains p s.
Proof.
  intros Ep Er Ha Hz. unfold strip, rstrip, lstrip.
  rewrite <- contains_rev, rev_involutive, Er, (contains_drop_while _ _ _ _ Hz).
  rewrite <- Er, contains_rev, Ep. now apply contains_drop_while.
Qed.

(** A blank input has no lower-cased form with a letter in it. *)
Lemma blank_lower (s : pystr) : strip s = [] -> lower s = s.
Proof.
  intros E. apply lower_fixed_id.
  apply forallb_impl with (f := isspace_cp); [exact space_lower_fixed|].
  now apply strip_nil.
Qed.

Lemma contains_not_blank (a : N) (p s : pystr) :
  isspace_cp a = false -> contains (a :: p) (lower s) = true -> strip s <> [].
Proof.
  intros Ha Hc E. rewrite (blank_lower _ E) in Hc.
  rewrite (contains_class isspace_cp a p s Ha) in Hc; [discriminate|].
  now apply strip_nil.
Qed.

(** *** Decimal numerals *)

Lemma uint_chars_digits (d : Decimal.uint) :
  forallb (fun c => in_ranges c ascii_digits) (uint_chars d) = true.
Proof. induction d; simpl; auto. Qed.

Lemma str_N_digits (n : N) : forallb ascii_digit_ok (str_N n) = true.
Proof.
  apply forallb_impl with (f := fun c => in_ranges c ascii_digits).
  - exact ascii_digit_props.
  - apply uint_chars_digits.
Qed.

Lemma uint_chars_nil (d : Decimal.uint) : uint_chars d = [] -> d = Decimal.Nil.
Proof. destruct d; simpl; [reflexivity|discriminate..]. Qed.

Lemma str_N_not_nil (n : N) : str_N n <> [].
Proof.
  unfold str_N. intros E. apply uint_chars_nil in E.
  destruct n as [|p]; [discriminate|].
  now apply (DecimalPos.Unsigned.to_uint_nonnil p).
Qed.

Lemma int_digits_uint (d : Decimal.uint) (acc : N) :
  int_digits acc (uint_chars d)
  = Some (acc * 10 ^ DecimalPos.Unsigned.usize d
          + DecimalPos.Unsigned.of_lu (Decimal.rev d)).
Proof.
  revert acc; induction d; intros acc;
    [ simpl; f_equal; lia | .. ];
    cbn [uint_chars int_digits];
    match goal with |- context [decimal_value ?c] =>
      let v := eval vm_compute in (decimal_value c) in
      change (decimal_value c) with v end;
    cbv iota; rewrite IHd; f_equal;
    unfold Decimal.rev at 2; cbn [Decimal.revapp];
    match goal with |- context [Decimal.revapp d (?k Decimal.Nil)] =>
      rewrite (DecimalPos.Unsigned.of_lu_revapp d (k Decimal.Nil)) end;
    cbn [DecimalPos.Unsigned.usize DecimalPos.Unsigned.of_lu];
    rewrite N.pow_succ_r'; lia.
Qed.

(** Reading back what [str] writes. *)
Lemma int_of_str_str_N (n : N) : int_of_str (str_N n) = Some n.
Proof.
  unfold int_of_str. destruct (str_N n) eqn:E; [now apply str_N_not_nil in E|].
  rewrite <- E. unfold str_N. rewrite int_digits_uint, N.mul_0_l, N.add_0_l.
  rewrite <- DecimalPos.Unsigned.of_uint_alt.
  change (Pos.of_uint (N.to_uint n)) with (N.of_uint (N.to_uint n)).
  now rewrite DecimalN.Unsigned.of_to.
Qed.

Lemma ascii_digit_ok_fixed (c : N) : ascii_digit_ok c = true -> lower_fixed c = true.
Proof. unfold ascii_digit_ok. rewrite !andb_true_iff. tauto. Qed.

Lemma ascii_digit_ok_digit (c : N) : ascii_digit_ok c = true -> isdigit_cp c = true.
Proof. unfold ascii_digit_ok. rewrite !andb_true_iff. tauto. Qed.

Lemma ascii_digit_ok_not_space (c : N) :
  ascii_digit_ok c = true -> negb (isspace_cp c) = true.
Proof. unfold ascii_digit_ok. rewrite !andb_true_iff. tauto. Qed.

(** A decimal numeral goes through [lower] and [strip] unchanged and is
    digits only. *)
Lemma normal_str_N (n : N) : strip (lower (str_N n)) = str_N n.
Proof.
  rewrite lower_fixed_id.
  - apply strip_none.
    apply forallb_impl with (f := ascii_digit_ok); [exact ascii_digit_ok_not_space|].
    apply str_N_digits.
  - apply forallb_impl with (f := ascii_digit_ok); [exact ascii_digit_ok_fixed|].
    apply str_N_digits.
Qed.

Lemma strip_str_N (n : N) : strip (str_N n) = str_N n.
Proof.
  apply strip_none.
  apply forallb_impl with (f := ascii_digit_ok); [exact ascii_digit_ok_not_space|].
  apply str_N_digits.
Qed.

Lemma isdigit_str_N (n : N) : isdigit (str_N n) = true.
Proof.
  unfold isdigit. rewrite andb_true_iff. split.
  - destruct (str_N n) eqn:E; [now apply str_N_not_nil in E|reflexivity].
  - apply forallb_impl with (f := ascii_digit_ok); [exact ascii_digit_ok_digit|].
    apply str_N_digits.
Qed.

(** Digits only: no substring that starts with a letter. *)
Lemma isdigit_contains (a : N) (p s : pystr) :
  isdigit_cp a = false -> isdigit s = true -> contains (a :: p) s = false.
Proof.
  unfold isdigit. rewrite andb_true_iff. intros Ha [_ Hs].
  now apply contains_class with (f := isdigit_cp).
Qed.

End StringFacts.

(** ** The scan of [max] and [min] *)

Section Scan.

Variables (A K : Type) (key : A -> K) (R : K -> K -> bool).

Hypothesis R_trans : forall a b c, R a b = true -> R b c = true -> R a c = true.
Hypothesis R_between : forall a b c, R a b = true -> R a c = true \/ R c b = true.

(** The scan that replaces the running item by a strictly better one returns
    the first of the best items: every item before it is strictly worse, no
    item after it is strictly better. *)
Lemma scan_first_best (l : list A) (cur : A) :
  exists l1 l2,
    cur :: l = l1 ++ scan (fun y c => R (key c) (key y)) cur l :: l2
    /\ (forall x, In x l1 ->
          R (key x) (key (scan (fun y c => R (key c) (key y)) cur l)) = true)
    /\ (forall x, In x l2 ->
          R (key (scan (fun y c => R (key c) (key y)) cur l)) (key x) = false).
Proof.
  revert cur; induction l as [|y l IH]; intros cur; cbn [scan].
  - exists [], []. repeat split; intros x [].
  - destruct (R (key cur) (key y)) eqn:Hy.
    + destruct (IH y) as (l1 & l2 & E & Hb & Ha).
      set (r := scan _ y l) in *.
      exists (cur :: l1), l2. split; [now rewrite E|]. split; [|exact Ha].
      intros x [<-|Hx]; [|now apply Hb].
      destruct l1 as [|z l1].
      * injection E as E _. now rewrite <- E.
      * injection E as E _. subst z.
        apply R_trans with (b := key y); [exact Hy|]. apply Hb. now left.
    + destruct (IH cur) as (l1 & l2 & E & Hb & Ha).
      set (r := scan _ cur l) in *.
      destruct l1 as [|z l1].
      * injection E as E El. exists [], (y :: l2). rewrite <- E in *.
        split; [now rewrite El|]. split; [intros x []|].
        intros x [<-|Hx]; [exact Hy|now apply Ha].
      * injection E as E El. subst z.
        exists (cur :: y :: l1), l2. split; [now rewrite El|]. split; [|exact Ha].
        assert (Hc : R (key cur) (key r) = true) by (apply Hb; now left).
        intros x [<-|[<-|Hx]]; [exact Hc| |apply Hb; now right].
        destruct (R_between _ _ (key y) Hc) as [Hcy|Hyr]; [congruence|exact Hyr].
Qed.

End Scan.

(** ** The responder *)

Lemma PyIntOrder : PyNumberOrder Z.
Proof.
  split; unfold num_lt; simpl; intros.
  - apply Z.ltb_irrefl.
  - rewrite Z.ltb_lt in *. lia.
  - rewrite !Z.ltb_lt in *. lia.
Qed.

Section ResponderFacts.

Context {num : Type} `{PyNumber num}.
Variable score : pystr -> pystr -> N.

Implicit Types (w : World (num := num)) (input : pystr).

(** [process_query] leaves the world as it is, and its answer is that of
    [respond] on the roster of the world. *)
Lemma process_query_respond input w :
  process_query score input w = (respond score (players w) input, w).
Proof.
  unfold respond, process_query.
  destruct (is_empty (strip input)); [reflexivity|]. cbv zeta.
  destruct (contains (u "player list") _).
  { unfold bind, get_players, ret; cbn [players fst].
    destruct (is_empty _); reflexivity. }
  destruct (isdigit _).
  { destruct (int_of_str _); [|reflexivity].
    unfold bind, get_players, ret, raise; cbn [players fst].
    destruct (_ && _)%bool; [|reflexivity].
    destruct (nth_error _ _); reflexivity. }
  destruct (_ || _)%bool.
  { unfold bind, get_players, ret, raise; cbn [players fst].
    destruct (is_empty _); [reflexivity|].
    destruct (py_max _ _ _); [|reflexivity].
    destruct (py_min _ _ _); reflexivity. }
  unfold get_best_match.
  destruct (is_empty (strip _)).
  { unfold bind, ret, get_players; cbn [players fst]. reflexivity. }
  destruct (extractOne _ _ _) as [[t sc]|]; [|reflexivity].
  destruct (60 <=? sc)%N; unfold bind, ret, get_players; cbn [players fst];
    [|reflexivity].
  destruct (str_in t _); [|reflexivity].
  unfold get_players_by_category, bind, get_players, ret; cbn [players fst].
  destruct (is_empty _); reflexivity.
Qed.

Lemma is_empty_false {A} (l : list A) : l <> [] -> is_empty l = false.
Proof. destruct l; [congruence|reflexivity]. Qed.

Lemma is_empty_true {A} (l : list A) : is_empty l = true -> l = [].
Proof. destruct l; [reflexivity|discriminate]. Qed.

(** *** The rules, one by one *)

Lemma respond_blank roster input :
  strip input = [] -> respond score roster input = Ok (u "Please enter a query.").
Proof. intros E. unfold respond, process_query. now rewrite E. Qed.

Lemma respond_list roster input :
  strip input <> [] ->
  contains (u "player list") (normal input) = true ->
  respond score roster input =
    let valid := filter (fun p => is_some (get (Value p))) roster in
    if is_empty valid then Ok (u "No players found with valid values.")
    else Ok (u "📋 **Player List (" ++ str_nat (length valid) ++ u " players):**" ++ nl
             ++ join nl (numbered valid)).
Proof.
  intros Hne Hl. unfold respond, process_query, normal in *.
  rewrite (is_empty_false _ Hne), Hl. cbv zeta.
  unfold bind, get_players, ret; cbn [players fst].
  destruct (is_empty _); reflexivity.
Qed.

Lemma respond_number roster input :
  strip input <> [] ->
  contains (u "player list") (normal input) = false ->
  isdigit (normal input) = true ->
  respond score roster input =
    match int_of_str (normal input) with
    | None => Raise ValueError
    | Some n =>
      let index := (Z.of_N n - 1)%Z in
      if ((0 <=? index) && (index <? Z.of_nat (length roster)))%Z then
        match nth_error roster (Z.to_nat index) with
        | None => Raise IndexError
        | Some p =>
          Ok (u "🏏 **Player Details:**" ++ nl
              ++ u "**Name:** " ++ Name p ++ nl
              ++ u "**University:** " ++ University p ++ nl
              ++ u "**Category:** " ++ Category p ++ nl
              ++ u "**Value:** " ++ value_text p ++ nl
              ++ u "**Points:** " ++ py_str (get_default (Player_Points p) (u "N/A")))
        end
      else
        Ok (u "❌ Invalid player index. Please enter a number between 1 and "
            ++ str_nat (length roster) ++ u ".")
    end.
Proof.
  intros Hne Hl Hd. unfold respond, process_query, normal in *.
  rewrite (is_empty_false _ Hne), Hl, Hd. cbv zeta.
  destruct (int_of_str _); [|reflexivity].
  unfold bind, get_players, ret, raise; cbn [players fst].
  destruct (_ && _)%bool; [|reflexivity].
  destruct (nth_error _ _); reflexivity.
Qed.

Lemma respond_best_worst roster input :
  strip input <> [] ->
  contains (u "player list") (normal input) = false ->
  isdigit (normal input) = false ->
  contains (u "best player") (normal input) || contains (u "worst player") (normal input)
    = true ->
  respond score roster input =
    let valid := with_points roster in
    if is_empty valid then Ok (u "No players found with valid points data.")
    else
      match py_max num_lt snd valid, py_min num_lt snd valid with
      | Some best, Some worst =>
        Ok (u "🏆 **Best Player:** " ++ Name (fst best) ++ u " - "
            ++ num_str (snd best) ++ u " points" ++ nl
            ++ u "📉 **Worst Player:** " ++ Name (fst worst) ++ u " - "
            ++ num_str (snd worst) ++ u " points")
      | _, _ => Raise ValueError
      end.
Proof.
  intros Hne Hl Hd Hb. unfold respond, process_query, normal in *.
  rewrite (is_empty_false _ Hne), Hl, Hd, Hb. cbv zeta.
  unfold bind, get_players, ret, raise; cbn [players fst].
  destruct (is_empty _); [reflexivity|].
  destruct (py_max _ _ _); [|reflexivity].
  destruct (py_min _ _ _); reflexivity.
Qed.

Lemma respond_fuzzy roster input :
  strip input <> [] ->
  contains (u "player list") (normal input) = false ->
  isdigit (normal input) = false ->
  contains (u "best player") (normal input) || contains (u "worst player") (normal input)
    = false ->
  respond score roster input =
    match best_match_of score (normal input) with
    | Raise e => Raise e
    | Ok None => Ok (help (length roster))
    | Ok (Some term) =>
      if str_in term [u "batsman"; u "bowler"; u "all-rounder"] then
        let found :=
          filter (fun p => str_eqb (lower (Category p)) (lower term)
                           && is_some (get (Value p))) roster in
        if is_empty found then Ok (u "❌ No " ++ term ++ u "s found.")
        else Ok (u "🏏 **" ++ title term ++ u "s (" ++ str_nat (length found)
                 ++ u " found):**" ++ nl ++ join nl (numbered found))
      else Ok (help (length roster))
    end.
Proof.
  intros Hne Hl Hd Hb. unfold respond, process_query, best_match_of, normal in *.
  rewrite (is_empty_false _ Hne), Hl, Hd, Hb. cbv zeta.
  unfold get_best_match.
  destruct (is_empty (strip _)).
  { unfold bind, ret, get_players; cbn [players fst]. reflexivity. }
  destruct (extractOne _ _ _) as [[t sc]|]; [|reflexivity].
  destruct (60 <=? sc)%N; unfold bind, ret, get_players; cbn [players fst];
    [|reflexivity].
  destruct (str_in t _); [|reflexivity].
  unfold get_players_by_category, bind, get_players, ret; cbn [players fst].
  destruct (is_empty _); reflexivity.
Qed.

(** *** Numbered listings *)

Lemma nth_error_enumerate_from {A} (l : list A) (i k : nat) :
  nth_error (enumerate_from i l) k = option_map (fun x => (i + k, x)) (nth_error l k).
Proof.
  revert i k; induction l as [|x l IH]; intros i [|k]; simpl; try reflexivity.
  - now rewrite Nat.add_0_r.
  - rewrite IH. now rewrite Nat.add_succ_r.
Qed.

Lemma length_enumerate_from {A} (l : list A) (i : nat) :
  length (enumerate_from i l) = length l.
Proof. revert i; induction l; intros i; simpl; auto. Qed.

Lemma length_numbered (l : list Player) : length (numbered l) = length l.
Proof. unfold numbered, enumerate. now rewrite length_map, length_enumerate_from. Qed.

Lemma nth_error_numbered (l : list Player) (k : nat) (p : Player) :
  nth_error l k = Some p ->
  nth_error (numbered l) k = Some (format_player_info p (Some (k + 1))).
Proof.
  intros E. unfold numbered, enumerate.
  rewrite nth_error_map, nth_error_enumerate_from, E. reflexivity.
Qed.

Lemma is_some_get {A} (f : field A) : is_some (get f) = true <-> exists v, f = Val v.
Proof.
  destruct f; simpl; split; try discriminate; try (intros (v & E); discriminate).
  - intros _. now exists a.
  - reflexivity.
Qed.

(** C1. [process_query] is not total: the input "²" (U+00B2, superscript
    two) passes the guard [isdigit] of line 73 and [int] on line 74 raises
    [ValueError], whatever the roster and the scorer. *)
Theorem process_query_superscript_two_raises w :
  process_query score (u "²") w = (Raise ValueError, w).
Proof.
  rewrite process_query_respond. f_equal.
Qed.

(** C9. [process_query] is a function of the input and the roster and
    changes nothing: it returns the world it was given, a second call gives
    what the first gave, and in any world with the same roster the outcome is
    the same. *)
Theorem process_query_pure input w :
  snd (process_query score input w) = w
  /\ process_query score input (snd (process_query score input w))
     = process_query score input w
  /\ forall w', players w' = players w ->
       fst (process_query score input w') = fst (process_query score input w).
Proof.
  rewrite process_query_respond. cbn [fst snd]. repeat split.
  - now rewrite process_query_respond.
  - intros w' E. now rewrite process_query_respond, E.
Qed.

(** C3. When the lower-cased input contains "player list" the answer is the
    list of the records that have a value: with n such records, a "none
    found" message when n = 0, otherwise a header followed by exactly n lines,
    line k (counted from 1) carrying the number k and the k-th record of the
    filtered list. No other rule is tried before this one. *)
Theorem process_query_player_list input w :
  contains (u "player list") (lower input) = true ->
  let valid := filter (fun p => is_some (get (Value p))) (players w) in
  let n := length valid in
  (n = 0 ->
     process_query score input w = (Ok (u "No players found with valid values."), w))
  /\ (n <> 0 ->
       exists lines,
         length lines = n
         /\ process_query score input w
            = (Ok (u "📋 **Player List (" ++ str_nat n ++ u " players):**" ++ nl
                   ++ join nl lines), w)
         /\ forall k p, nth_error valid k = Some p ->
              exists v, Value p = Val v
              /\ nth_error lines k
                 = Some (str_nat (k + 1) ++ u ". " ++ Name p ++ u " - " ++ University p
                         ++ u " - " ++ Category p ++ u " - " ++ u "$" ++ num_str v)).
Proof.
  intros Hc valid n.
  assert (Hne : strip input <> []).
  { revert Hc. apply contains_not_blank. reflexivity. }
  assert (Hl : contains (u "player list") (normal input) = true).
  { unfold normal. erewrite contains_strip; [exact Hc|reflexivity..]. }
  rewrite process_query_respond, (respond_list _ _ Hne Hl). cbv zeta.
  fold valid. fold n. split.
  - intros E. destruct valid; [reflexivity|discriminate].
  - intros E. exists (numbered valid). split; [apply length_numbered|]. split.
    + destruct valid; [now elim E|reflexivity].
    + intros k p Hk.
      assert (Hin : In p valid) by (eapply nth_error_In; eauto).
      apply filter_In in Hin. destruct Hin as [_ Hv].
      apply is_some_get in Hv. destruct Hv as (v & Ev). exists v. split; [exact Ev|].
      rewrite (nth_error_numbered _ _ _ Hk). unfold format_player_info, value_text.
      rewrite Ev. cbn [get]. now rewrite <- !app_assoc.
Qed.

(** *** Numeric inputs *)

Lemma digits_no_word (word s : pystr) :
  match word with a :: _ => isdigit_cp a = false | [] => False end ->
  isdigit s = true -> contains word s = false.
Proof.
  destruct word as [|a word]; [easy|]. apply isdigit_contains.
Qed.

Lemma digits_not_blank input : isdigit (normal input) = true -> strip input <> [].
Proof.
  unfold normal. intros Hd E. rewrite (blank_lower _ E), E in Hd. discriminate.
Qed.

Lemma respond_digits roster input :
  isdigit (normal input) = true ->
  respond score roster input =
    match int_of_str (normal input) with
    | None => Raise ValueError
    | Some n =>
      let index := (Z.of_N n - 1)%Z in
      if ((0 <=? index) && (index <? Z.of_nat (length roster)))%Z then
        match nth_error roster (Z.to_nat index) with
        | None => Raise IndexError
        | Some p =>
          Ok (u "🏏 **Player Details:**" ++ nl
              ++ u "**Name:** " ++ Name p ++ nl
              ++ u "**University:** " ++ University p ++ nl
              ++ u "**Category:** " ++ Category p ++ nl
              ++ u "**Value:** " ++ value_text p ++ nl
              ++ u "**Points:** " ++ py_str (get_default (Player_Points p) (u "N/A")))
        end
      else
        Ok (u "❌ Invalid player index. Please enter a number between 1 and "
            ++ str_nat (length roster) ++ u ".")
    end.
Proof.
  intros Hd. apply respond_number; [now apply digits_not_blank| |exact Hd].
  apply digits_no_word; [reflexivity|exact Hd].
Qed.

(** The answer to the numeral of a position of the roster. *)
Lemma respond_index roster (i : nat) (p : Player) :
  nth_error roster i = Some p ->
  respond score roster (str_nat (i + 1)) =
    Ok (u "🏏 **Player Details:**" ++ nl
        ++ u "**Name:** " ++ Name p ++ nl
        ++ u "**University:** " ++ University p ++ nl
        ++ u "**Category:** " ++ Category p ++ nl
        ++ u "**Value:** " ++ value_text p ++ nl
        ++ u "**Points:** " ++ py_str (get_default (Player_Points p) (u "N/A"))).
Proof.
  intros Hp.
  assert (Hlt : i < length roster) by (apply nth_error_Some; congruence).
  rewrite respond_digits; unfold normal, str_nat; rewrite normal_str_N.
  2: apply isdigit_str_N.
  rewrite int_of_str_str_N. cbv zeta.
  replace (Z.of_N (N.of_nat (i + 1)) - 1)%Z with (Z.of_nat i) by lia.
  rewrite Nat2Z.id, Hp.
  destruct (Z.leb_spec 0 (Z.of_nat i)); [|lia].
  destruct (Z.ltb_spec (Z.of_nat i) (Z.of_nat (length roster))); [|lia].
  reflexivity.
Qed.


(** C2. The detail block prints [None] for points that are [null]: for a
    record at position i (from 1) whose "Player Points" is [null], the answer
    to the numeral of i ends with "**Points:** None" where the claim has
    "N/A". *)
Theorem process_query_null_points_prints_None w (i : nat) (p : Player) :
  nth_error (players w) i = Some p ->
  Player_Points p = Null ->
  process_query score (str_nat (i + 1)) w
  = (Ok (u "🏏 **Player Details:**" ++ nl
         ++ u "**Name:** " ++ Name p ++ nl
         ++ u "**University:** " ++ University p ++ nl
         ++ u "**Category:** " ++ Category p ++ nl
         ++ u "**Value:** " ++ value_text p ++ nl
         ++ u "**Points:** " ++ u "None"), w).
Proof.
  intros Hp Hnull. rewrite process_query_respond, (respond_index _ _ _ Hp), Hnull.
  reflexivity.
Qed.


(** *** Best and worst *)

Lemma word_not_blank (word s : pystr) :
  match word with a :: _ => isspace_cp a = false | [] => False end ->
  contains word (lower s) = true -> strip s <> [].
Proof.
  destruct word as [|a word]; [easy|]. apply contains_not_blank.
Qed.

Lemma word_not_digits (word s : pystr) :
  match word with a :: _ => isdigit_cp a = false | [] => False end ->
  contains word s = true -> isdigit s = false.
Proof.
  intros Hw Hc. destruct (isdigit s) eqn:Hd; [|reflexivity].
  rewrite (digits_no_word _ _ Hw Hd) in Hc. discriminate.
Qed.

Lemma with_points_In (l : list Player) (p : Player) (n : num) :
  In (p, n) (with_points l) <-> In p l /\ Player_Points p = Val n.
Proof.
  unfold with_points. rewrite in_flat_map. split.
  - intros (q & Hq & Hin). destruct (Player_Points q) eqn:E; cbn [get] in Hin;
      try contradiction.
    destruct Hin as [[= <- <-]|[]]. now split.
  - intros [Hin E]. exists p. split; [exact Hin|]. rewrite E. now left.
Qed.

Lemma with_points_split (l : list Player) (a b : list (Player * num)) (x : Player * num) :
  with_points l = a ++ x :: b ->
  exists l1 l2,
    l = l1 ++ fst x :: l2 /\ with_points l1 = a /\ with_points l2 = b
    /\ Player_Points (fst x) = Val (snd x).
Proof.
  revert a; induction l as [|p l IH]; intros a E.
  - now destruct a.
  - cbn [with_points flat_map] in E. fold (with_points l) in E.
    destruct (Player_Points p) as [| |n] eqn:Ep; cbn [get app] in E.
    1,2: destruct (IH a E) as (l1 & l2 & -> & <- & <- & Hx);
         exists (p :: l1), l2; repeat split; try exact Hx;
         cbn [with_points flat_map]; now rewrite Ep.
    destruct a as [|y a]; cbn [app] in E.
    + injection E as <- <-. exists [], l. now repeat split.
    + injection E as <- E. destruct (IH a E) as (l1 & l2 & -> & <- & <- & Hx).
      exists (p :: l1), l2. repeat split; try exact Hx.
      cbn [with_points flat_map]. now rewrite Ep.
Qed.

Section BestWorst.

Context {Horder : PyNumberOrder num}.

Lemma num_lt_asym (a b : num) : num_lt a b = true -> num_lt b a = false.
Proof.
  intros Hab. destruct (num_lt b a) eqn:Hba; [|reflexivity].
  pose proof (num_lt_trans _ _ _ Hab Hba) as Haa.
  now rewrite num_lt_irrefl in Haa.
Qed.

(** C4. On a roster whose points are ordered by [<] as [int]s and [float]s
    other than NaN are, when the lower-cased input contains "best player" or
    "worst player" and not "player list", the answer is about the records
    that have points: a "no points data" message when there is none, otherwise one
    message that names a best record, whose points are at least those of
    every record with points, and a worst record, whose points are at most
    those of every record with points; each is the first such record of the
    roster, every record with points before it being strictly worse
    (for the best) or strictly better (for the worst). *)
Theorem process_query_best_worst input w :
  contains (u "player list") (lower input) = false ->
  contains (u "best player") (lower input) = true
    \/ contains (u "worst player") (lower input) = true ->
  ((forall p, In p (players w) -> get (Player_Points p) = None) ->
     process_query score input w = (Ok (u "No players found with valid points data."), w))
  /\ ((exists p, In p (players w) /\ get (Player_Points p) <> None) ->
       exists best bp worst wp l1 l2 m1 m2,
         players w = l1 ++ best :: l2 /\ Player_Points best = Val bp
         /\ players w = m1 ++ worst :: m2 /\ Player_Points worst = Val wp
         /\ (forall p n, In p (players w) -> Player_Points p = Val n ->
               num_ge bp n = true /\ num_le wp n = true)
         /\ (forall p n, In p l1 -> Player_Points p = Val n -> num_lt n bp = true)
         /\ (forall p n, In p m1 -> Player_Points p = Val n -> num_lt wp n = true)
         /\ process_query score input w
            = (Ok (u "🏆 **Best Player:** " ++ Name best ++ u " - "
                   ++ num_str bp ++ u " points" ++ nl
                   ++ u "📉 **Worst Player:** " ++ Name worst ++ u " - "
                   ++ num_str wp ++ u " points"), w)).
Proof.
  intros Hlist Hword.
  assert (Hne : strip input <> []).
  { destruct Hword as [Hw|Hw]; revert Hw; apply word_not_blank; reflexivity. }
  assert (Hl : contains (u "player list") (normal input) = false).
  { unfold normal. erewrite contains_strip; [exact Hlist|reflexivity..]. }
  assert (Hb : contains (u "best player") (normal input)
               || contains (u "worst player") (normal input) = true).
  { unfold normal. apply orb_true_iff.
    destruct Hword as [Hw|Hw]; [left|right];
      (erewrite contains_strip; [exact Hw|reflexivity..]). }
  assert (Hd : isdigit (normal input) = false).
  { apply orb_true_iff in Hb.
    destruct Hb as [Hw|Hw]; revert Hw; apply word_not_digits; reflexivity. }
  rewrite process_query_respond, (respond_best_worst _ _ Hne Hl Hd Hb). cbv zeta.
  split.
  - intros Hnone.
    assert (E : with_points (players w) = []).
    { destruct (with_points (players w)) as [|[p n] l] eqn:E; [reflexivity|].
      assert (Hin : In (p, n) (with_points (players w))) by (rewrite E; now left).
      apply with_points_In in Hin. destruct Hin as [Hin Ep].
      apply Hnone in Hin. rewrite Ep in Hin. discriminate. }
    now rewrite E.
  - intros (p0 & Hin0 & Hsome).
    destruct (with_points (players w)) as [|x l] eqn:E.
    { exfalso. destruct (Player_Points p0) as [| |n0] eqn:E0; try now elim Hsome.
      assert (Hin : In (p0, n0) (with_points (players w)))
        by now apply with_points_In.
      now rewrite E in Hin. }
    cbn [is_empty py_max py_min].
    destruct (scan_first_best _ _ snd num_lt num_lt_trans num_lt_between l x)
      as (vb1 & vb2 & Eb & Hb1 & Hb2).
    destruct (scan_first_best _ _ snd (fun a b => num_lt b a)
                (fun a b c Hab Hbc => num_lt_trans _ _ _ Hbc Hab)
                (fun a b c Hab =>
                   match num_lt_between _ _ c Hab with
                   | or_introl Hl' => or_intror Hl'
                   | or_intror Hr' => or_introl Hr'
                   end) l x)
      as (vw1 & vw2 & Ew & Hw1 & Hw2).
    cbv beta in *.
    set (best := scan (fun y c => num_lt (snd c) (snd y)) x l) in *.
    set (worst := scan (fun y c => num_lt (snd y) (snd c)) x l) in *.
    rewrite <- E in Eb, Ew.
    destruct (with_points_split _ _ _ _ Eb) as (l1 & l2 & El & El1 & El2 & Ebest).
    destruct (with_points_split _ _ _ _ Ew) as (m1 & m2 & Em & Em1 & Em2 & Eworst).
    exists (fst best), (snd best), (fst worst), (snd worst), l1, l2, m1, m2.
    repeat match goal with |- _ /\ _ => split end; try assumption; try reflexivity.
    + intros p n Hin Ep.
      assert (Hv : In (p, n) (with_points (players w))) by now apply with_points_In.
      unfold num_ge, num_le. split; apply negb_true_iff.
      * rewrite Eb in Hv. apply in_app_or in Hv. destruct Hv as [Hv|[Hv|Hv]].
        -- apply num_lt_asym. exact (Hb1 _ Hv).
        -- replace n with (snd best) by now rewrite Hv.
           apply num_lt_irrefl.
        -- exact (Hb2 _ Hv).
      * rewrite Ew in Hv. apply in_app_or in Hv. destruct Hv as [Hv|[Hv|Hv]].
        -- apply num_lt_asym. exact (Hw1 _ Hv).
        -- replace n with (snd worst) by now rewrite Hv.
           apply num_lt_irrefl.
        -- exact (Hw2 _ Hv).
    + intros p n Hin Ep. apply (Hb1 (p, n)). rewrite <- El1. now apply with_points_In.
    + intros p n Hin Ep. apply (Hw1 (p, n)). rewrite <- Em1. now apply with_points_In.
Qed.

End BestWorst.

(** *** Categories *)

Lemma filter_selection {A} (f : A -> bool) (P : A -> Prop) (l : list A) :
  (forall x, f x = true <-> P x) -> selection P l (filter f l).
Proof.
  intros HfP. induction l as [|x l IH]; cbn [filter]; [constructor|].
  destruct (f x) eqn:Hx.
  - apply selection_keep; [now apply HfP|exact IH].
  - apply selection_skip; [|exact IH]. intros HP. apply HfP in HP. congruence.
Qed.

Lemma in_category_test (category : pystr) (p : Player (num := num)) :
  str_eqb (lower (Category p)) (lower category) && is_some (get (Value p)) = true
  <-> in_category category p.
Proof.
  unfold in_category. now rewrite andb_true_iff, str_eqb_eq, is_some_get.
Qed.

(** C6. [get_players_by_category] returns the records of the roster whose
    category equals the given one once both are lower-cased and whose value is
    present, all of them and only them, in the order of the roster; a record
    without a value (missing or [null]) is not returned whatever its
    category. The world is left as it is. *)
Theorem get_players_by_category_selection (category : pystr) w :
  exists found : list Player,
    get_players_by_category category w = (Ok found, w)
    /\ selection (in_category category) (players w) found
    /\ (forall p, In p found <->
                  In p (players w) /\ lower (Category p) = lower category
                  /\ exists v, Value p = Val v)
    /\ (forall p, Value p = Missing \/ Value p = Null -> ~ In p found).
Proof.
  eexists. split; [reflexivity|]. split; [|split].
  - apply filter_selection. intros p. apply in_category_test.
  - intros p. rewrite filter_In, in_category_test. reflexivity.
  - intros p Hv Hin. apply filter_In in Hin. destruct Hin as [_ Hin].
    apply in_category_test in Hin. destruct Hin as [_ (v & Ev)].
    destruct Hv as [Hv|Hv]; congruence.
Qed.

(** *** The vocabulary *)

Lemma scan_In {A} (better : A -> A -> bool) (l : list A) (cur : A) :
  In (scan better cur l) (cur :: l).
Proof.
  revert cur; induction l as [|y l IH]; intros cur; cbn [scan]; [now left|].
  destruct (IH (if better y cur then y else cur)) as [E|Hin].
  - rewrite <- E. destruct (better y cur); [right; now left|now left].
  - right. now right.
Qed.

(** The match of [extractOne] is a choice, with its score. *)
Lemma extractOne_choice (query : pystr) (choices : list pystr) (term : pystr) (sc : N) :
  extractOne score query choices = Some (term, sc) ->
  In term choices /\ sc = score query term.
Proof.
  unfold extractOne, py_max. destruct choices as [|c choices]; [discriminate|].
  cbn [map]. intros [= E].
  pose proof (scan_In (fun y cur : pystr * N => (snd cur <? snd y)%N)
                (map (fun c0 => (c0, score query c0)) choices) (c, score query c)) as Hin.
  rewrite E in Hin. change (In (term, sc) (map (fun c0 => (c0, score query c0)) (c :: choices))) in Hin.
  apply in_map_iff in Hin. destruct Hin as (c0 & [= <- <-] & Hc0). now split.
Qed.

Lemma extractOne_some (query : pystr) :
  exists term sc, extractOne score query STANDARD_TERMS = Some (term, sc).
Proof.
  unfold extractOne, py_max, STANDARD_TERMS. cbn [map].
  match goal with |- exists t s, Some ?x = _ => exists (fst x), (snd x) end.
  now rewrite <- surjective_pairing.
Qed.

Lemma not_blank_strip input : forallb isspace_cp input = false -> strip input <> [].
Proof. intros Hb E. apply strip_nil in E. congruence. Qed.

(** C8. A blank input (empty or white space only) gets the fixed prompt.
    An input that is not blank and that no rule takes, its normal form being
    neither all digits nor a carrier of "player list", "best player" or
    "worst player" and scoring under 60 against every term of the vocabulary,
    gets the help text, which names the range from 1 to the length of the
    roster. *)
Theorem process_query_blank_and_fallback w :
  (forall input, forallb isspace_cp input = true ->
     process_query score input w = (Ok (u "Please enter a query."), w))
  /\ (forall input,
        forallb isspace_cp input = false ->
        contains (u "player list") (normal input) = false ->
        isdigit (normal input) = false ->
        contains (u "best player") (normal input) = false ->
        contains (u "worst player") (normal input) = false ->
        (forall term, In term STANDARD_TERMS -> (score (normal input) term < 60)%N) ->
        process_query score input w = (Ok (help (length (players w))), w))
  /\ contains (u "(1-" ++ str_nat (length (players w)) ++ u ")")
       (help (length (players w))) = true.
Proof.
  split; [|split].
  - intros input Hb.
    rewrite process_query_respond, respond_blank; [reflexivity|].
    now apply strip_all_space.
  - intros input Hb Hl Hd Hbest Hworst Hlow.
    rewrite process_query_respond, respond_fuzzy;
      [|now apply not_blank_strip|assumption..|now rewrite Hbest, Hworst].
    unfold best_match_of. destruct (is_empty (strip (normal input))); [reflexivity|].
    destruct (extractOne score (normal input) STANDARD_TERMS) as [[term sc]|] eqn:E.
    + apply extractOne_choice in E. destruct E as [Hin ->].
      apply Hlow in Hin. destruct (N.leb_spec 60 (score (normal input) term)); [lia|].
      reflexivity.
    + destruct (extractOne_some (normal input)) as (t & sc & E'). congruence.
  - apply contains_iff. unfold help.
    replace (u "• **A number (1-") with (u "• **A number " ++ u "(1-")
      by (vm_compute; reflexivity).
    replace (u ")** - to get details about a specific player")
      with (u ")" ++ u "** - to get details about a specific player")
      by (vm_compute; reflexivity).
    generalize (str_nat (length (players w))).
    repeat match goal with |- context [u ?lit] => generalize (u lit); intro end.
    intros s.
    match goal with
    | |- exists pre post, ?a ++ nl ++ ?b ++ nl ++ ?c ++ nl ++ ?d ++ nl ++ (?l1 ++ _) ++ _ ++ _ ++ ?r2 = _ =>
      exists (a ++ nl ++ b ++ nl ++ c ++ nl ++ d ++ nl ++ l1), r2
    end.
    now rewrite <- !app_assoc.
Qed.

Lemma str_in_In (x : pystr) (choices : list pystr) :
  str_in x choices = true <-> In x choices.
Proof.
  unfold str_in. rewrite existsb_exists. split.
  - intros (y & Hy & E). apply str_eqb_eq in E. now subst.
  - intros Hx. exists x. split; [exact Hx|apply str_eqb_refl].
Qed.

(** C10. The fuzzy rule answers for the three category terms only: when
    the input reaches it (not blank, not all digits, none of the three
    phrases inside) and the best match of the vocabulary, with a score of 60
    or more, is "player list", "best player" or "worst player", the answer is
    the help text. *)
Theorem process_query_fuzzy_other_term input w (term : pystr) (sc : N) :
  forallb isspace_cp input = false ->
  contains (u "player list") (normal input) = false ->
  isdigit (normal input) = false ->
  contains (u "best player") (normal input) = false ->
  contains (u "worst player") (normal input) = false ->
  extractOne score (normal input) STANDARD_TERMS = Some (term, sc) ->
  (60 <= sc)%N ->
  In term [u "player list"; u "best player"; u "worst player"] ->
  process_query score input w = (Ok (help (length (players w))), w).
Proof.
  intros Hb Hl Hd Hbest Hworst Hmatch Hsc Hterm.
  rewrite process_query_respond, respond_fuzzy;
    [|now apply not_blank_strip|assumption..|now rewrite Hbest, Hworst].
  unfold best_match_of. destruct (is_empty (strip (normal input))); [reflexivity|].
  rewrite Hmatch. destruct (N.leb_spec 60 sc); [|lia].
  destruct Hterm as [<-|[<-|[<-|[]]]]; reflexivity.
Qed.

(** *** Exceptions *)

(** The one way out of the responder by an exception: the normal form of
    the input is all digits and [int_of_str] does not read it. *)
Lemma respond_raises roster input (e : exn) :
  respond score roster input = Raise e ->
  e = ValueError /\ isdigit (normal input) = true /\ int_of_str (normal input) = None.
Proof.
  destruct (strip input) as [|c0 s0] eqn:Es.
  { rewrite respond_blank by exact Es. discriminate. }
  assert (Hne : strip input <> []) by (rewrite Es; discriminate).
  destruct (contains (u "player list") (normal input)) eqn:Hl.
  { rewrite (respond_list _ _ Hne Hl). cbv zeta. destruct (is_empty _); discriminate. }
  destruct (isdigit (normal input)) eqn:Hd.
  { rewrite (respond_number _ _ Hne Hl Hd).
    destruct (int_of_str (normal input)) as [n|] eqn:En; [|now intros [= <-]].
    cbv zeta.
    destruct (Z.leb_spec 0 (Z.of_N n - 1)); destruct (Z.ltb_spec (Z.of_N n - 1)
                                                       (Z.of_nat (length roster)));
      cbn [andb]; try discriminate.
    destruct (nth_error roster (Z.to_nat (Z.of_N n - 1))) eqn:Ep; [discriminate|].
    apply nth_error_None in Ep. lia. }
  destruct (contains (u "best player") (normal input)
            || contains (u "worst player") (normal input)) eqn:Hb.
  { rewrite (respond_best_worst _ _ Hne Hl Hd Hb). cbv zeta.
    destruct (with_points roster); cbn [is_empty py_max py_min]; discriminate. }
  rewrite (respond_fuzzy _ _ Hne Hl Hd Hb). unfold best_match_of.
  destruct (is_empty (strip (normal input))); [discriminate|].
  destruct (extractOne_some (normal input)) as (term & sc & ->).
  destruct (60 <=? sc)%N; [|discriminate].
  destruct (str_in term _); [|discriminate].
  cbv zeta. destruct (is_empty _); discriminate.
Qed.

(** *** Loading *)

Section Loading.

Variable json_loads : pystr -> option (list (Player (num := num))).

(** Without the file: a banner, and the empty list. *)
Lemma load_players_not_found w :
  data_json w = None ->
  load_players json_loads w
  = (Ok [],
     with_banner
       (u "❌ data.json file not found. Please make sure the file exists in the same directory.")
       w).
Proof.
  intros E. unfold load_players, try_except, bind, open_data_json. now rewrite E.
Qed.

(** With a file that is not JSON: a banner, and the empty list. *)
Lemma load_players_malformed w (text : pystr) :
  data_json w = Some text -> json_loads text = None ->
  load_players json_loads w
  = (Ok [], with_banner (u "❌ Invalid JSON format in data.json file.") w).
Proof.
  intros E Ej. unfold load_players, try_except, bind, open_data_json, json_load.
  now rewrite E, Ej.
Qed.

(** With a file that is JSON: its entries, and no banner. *)
Lemma load_players_ok w (text : pystr) (entries : list Player) :
  data_json w = Some text -> json_loads text = Some entries ->
  load_players json_loads w = (Ok entries, w).
Proof.
  intros E Ej. unfold load_players, try_except, bind, open_data_json, json_load.
  now rewrite E, Ej.
Qed.

(** With no record in the roster every answer is the empty form of its rule,
    except for the input that is all digits and that [int_of_str] does not
    read. *)
Lemma respond_empty_roster input :
  respond score [] input = Ok (u "Please enter a query.")
  \/ respond score [] input = Ok (u "No players found with valid values.")
  \/ respond score [] input
     = Ok (u "❌ Invalid player index. Please enter a number between 1 and 0.")
  \/ respond score [] input = Ok (u "No players found with valid points data.")
  \/ (exists term, In term [u "batsman"; u "bowler"; u "all-rounder"]
                   /\ respond score [] input = Ok (u "❌ No " ++ term ++ u "s found."))
  \/ respond score [] input = Ok (help 0)
  \/ (respond score [] input = Raise ValueError
      /\ isdigit (normal input) = true /\ int_of_str (normal input) = None).
Proof.
  destruct (strip input) as [|c0 s0] eqn:Es.
  { left. now apply respond_blank. }
  assert (Hne : strip input <> []) by (rewrite Es; discriminate).
  destruct (contains (u "player list") (normal input)) eqn:Hl.
  { right; left. now rewrite (respond_list _ _ Hne Hl). }
  destruct (isdigit (normal input)) eqn:Hd.
  { rewrite (respond_number _ _ Hne Hl Hd).
    destruct (int_of_str (normal input)) as [n|] eqn:En.
    - right; right; left. cbv zeta. cbn [length Z.of_nat].
      destruct (Z.leb_spec 0 (Z.of_N n - 1)); destruct (Z.ltb_spec (Z.of_N n - 1) 0);
        try lia; cbn [andb]; f_equal; vm_compute; reflexivity.
    - do 6 right. now repeat split. }
  destruct (contains (u "best player") (normal input)
            || contains (u "worst player") (normal input)) eqn:Hb.
  { do 3 right; left. now rewrite (respond_best_worst _ _ Hne Hl Hd Hb). }
  rewrite (respond_fuzzy _ _ Hne Hl Hd Hb). unfold best_match_of.
  destruct (is_empty (strip (normal input))); [do 5 right; now left|].
  destruct (extractOne_some (normal input)) as (term & sc & ->).
  destruct (60 <=? sc)%N; [|do 5 right; now left].
  destruct (str_in term _) eqn:Hin; [|do 5 right; now left].
  do 4 right; left. exists term. split; [now apply str_in_In|reflexivity].
Qed.

(** C7. After a load that fails, the file missing or not JSON,
    [load_players] has put a banner on the page and returned the empty list,
    and the script goes on with an empty roster; the query "²" then raises
    [ValueError] instead of getting an answer. *)
Theorem failed_load_then_superscript_two_raises w :
  data_json w = None \/ (exists text, data_json w = Some text /\ json_loads text = None) ->
  exists banner,
    let w' := {| data_json := data_json w; banners := banner :: banners w; players := [] |} in
    load_players json_loads w = (Ok [], with_banner banner w)
    /\ startup json_loads w = (Ok tt, w')
    /\ process_query score (u "²") w' = (Raise ValueError, w').
Proof.
  intros Hfail.
  assert (Hload : exists banner, load_players json_loads w = (Ok [], with_banner banner w)).
  { destruct Hfail as [E|(text & E & Ej)].
    - eexists. now apply load_players_not_found.
    - eexists. now apply (load_players_malformed w text). }
  destruct Hload as (banner & Hload). exists banner. cbv zeta.
  split; [exact Hload|]. split.
  - unfold startup, bind. rewrite Hload. reflexivity.
  - rewrite process_query_respond. f_equal.
Qed.

End Loading.

End ResponderFacts.

(** ** The properties on the sample data *)

Lemma process_query_null_points_prints_None_witness :
  nth_error (players Sample.null_world) 0 = Some Sample.ann_null
  /\ Player_Points Sample.ann_null = Null
  /\ process_query Sample.same_words (str_nat (0 + 1)) Sample.null_world
     = (Ok (u "🏏 **Player Details:**" ++ nl
            ++ u "**Name:** " ++ Name Sample.ann_null ++ nl
            ++ u "**University:** " ++ University Sample.ann_null ++ nl
            ++ u "**Category:** " ++ Category Sample.ann_null ++ nl
            ++ u "**Value:** " ++ value_text Sample.ann_null ++ nl
            ++ u "**Points:** " ++ u "None"), Sample.null_world).
Proof.
  split; [reflexivity|]. split; [reflexivity|].
  apply (@process_query_null_points_prints_None Z PyInt); reflexivity.
Defined.

Lemma process_query_player_list_witness :
  contains (u "player list") (lower (u "Show the Player List")) = true
  /\ exists lines,
       length lines = 4
       /\ process_query Sample.same_words (u "Show the Player List") Sample.world
          = (Ok (u "📋 **Player List (" ++ str_nat 4 ++ u " players):**" ++ nl
                 ++ join nl lines), Sample.world).
Proof.
  assert (Hc : contains (u "player list") (lower (u "Show the Player List")) = true)
    by (vm_compute; reflexivity).
  split; [exact Hc|].
  destruct (@process_query_player_list Z PyInt Sample.same_words _ Sample.world Hc)
    as [_ Hlines].
  destruct Hlines as (lines & Hlen & Hq & _); [vm_compute; discriminate|].
  exists lines. split; [exact Hlen|exact Hq].
Defined.

Lemma process_query_best_worst_witness :
  contains (u "player list") (lower (u "Who is the Best Player?")) = false
  /\ (contains (u "best player") (lower (u "Who is the Best Player?")) = true
      \/ contains (u "worst player") (lower (u "Who is the Best Player?")) = true)
  /\ exists best bp worst wp,
       Player_Points best = Val bp /\ Player_Points worst = Val wp
       /\ process_query Sample.same_words (u "Who is the Best Player?") Sample.world
          = (Ok (u "🏆 **Best Player:** " ++ Name best ++ u " - "
                 ++ num_str bp ++ u " points" ++ nl
                 ++ u "📉 **Worst Player:** " ++ Name worst ++ u " - "
                 ++ num_str wp ++ u " points"), Sample.world).
Proof.
  assert (Hl : contains (u "player list") (lower (u "Who is the Best Player?")) = false)
    by (vm_compute; reflexivity).
  assert (Hb : contains (u "best player") (lower (u "Who is the Best Player?")) = true
               \/ contains (u "worst player") (lower (u "Who is the Best Player?")) = true)
    by (left; vm_compute; reflexivity).
  split; [exact Hl|]. split; [exact Hb|].
  destruct (@process_query_best_worst Z PyInt Sample.same_words PyIntOrder _ Sample.world
              Hl Hb) as [_ Hsome].
  destruct Hsome as (best & bp & worst & wp & l1 & l2 & m1 & m2
                     & _ & Eb & _ & Ew & _ & _ & _ & Hq).
  - exists (Sample.player "Ann" "Moratuwa" "Batsman" (Val 100%Z) (Val 50%Z)).
    split; [left; reflexivity|discriminate].
  - exists best, bp, worst, wp. split; [exact Eb|]. split; [exact Ew|exact Hq].
Defined.

(** Without the order the statement of C4 fails. In a roster read from a
    file whose first record has [NaN] for points, followed by records with 5
    and with 7 points, lines 96-97 keep the first record as the maximum and
    as the minimum, every comparison with NaN being false: the answer names
    it as best and as worst, and no record of the roster has points that are
    [>=], or [<=], the points of every record. *)
Lemma best_worst_nan_counterexample :
  @process_query nan_number PyNan Sample.same_words (u "best player") Sample.nan_world
  = (Ok (u "🏆 **Best Player:** Ann - nan points" ++ nl
         ++ u "📉 **Worst Player:** Ann - nan points"), Sample.nan_world)
  /\ ~ (exists best bp,
          In best (players Sample.nan_world) /\ Player_Points best = Val bp
          /\ forall p n, In p (players Sample.nan_world) -> Player_Points p = Val n ->
                         nan_ge bp n = true)
  /\ ~ (exists worst wp,
          In worst (players Sample.nan_world) /\ Player_Points worst = Val wp
          /\ forall p n, In p (players Sample.nan_world) -> Player_Points p = Val n ->
                         nan_le wp n = true).
Proof.
  split; [vm_compute; reflexivity|].
  split; intros (r & rp & _ & _ & Hall);
    specialize (Hall (Sample.nan_player "Ann" "Moratuwa" "Batsman" NaN) NaN
                  (or_introl eq_refl) eq_refl);
    destruct rp; discriminate.
Qed.


Lemma get_players_by_category_selection_witness :
  exists found : list Player,
    get_players_by_category (u "BOWLER") Sample.world = (Ok found, Sample.world)
    /\ selection (in_category (u "BOWLER")) (players Sample.world) found
    /\ (forall p, In p found <->
                  In p (players Sample.world) /\ lower (Category p) = lower (u "BOWLER")
                  /\ exists v, Value p = Val v)
    /\ (forall p, Value p = Missing \/ Value p = Null -> ~ In p found).
Proof.
  exact (@get_players_by_category_selection Z (u "BOWLER") Sample.world).
Defined.

Example load_players_bad_file :
  load_players Sample.reject Sample.bad_file
  = (Ok [], with_banner (u "❌ Invalid JSON format in data.json file.") Sample.bad_file).
Proof. reflexivity. Qed.

Lemma failed_load_then_superscript_two_raises_witness :
  (data_json Sample.no_file = None
   \/ exists text, data_json Sample.no_file = Some text /\ Sample.reject text = None)
  /\ exists banner,
       let w' := {| data_json := data_json Sample.no_file;
                    banners := banner :: banners Sample.no_file;
                    players := [] |} in
       load_players Sample.reject Sample.no_file = (Ok [], with_banner banner Sample.no_file)
       /\ startup Sample.reject Sample.no_file = (Ok tt, w')
       /\ process_query Sample.same_words (u "²") w' = (Raise ValueError, w').
Proof.
  assert (Hf : data_json Sample.no_file = None
               \/ exists text, data_json Sample.no_file = Some text
                               /\ Sample.reject text = None)
    by (left; reflexivity).
  split; [exact Hf|].
  exact (@failed_load_then_superscript_two_raises Z PyInt Sample.same_words Sample.reject
           Sample.no_file Hf).
Defined.

Lemma process_query_blank_and_fallback_witness :
  forallb isspace_cp (u "   ") = true
  /\ forallb isspace_cp (u "xyz123") = false
  /\ contains (u "player list") (normal (u "xyz123")) = false
  /\ isdigit (normal (u "xyz123")) = false
  /\ contains (u "best player") (normal (u "xyz123")) = false
  /\ contains (u "worst player") (normal (u "xyz123")) = false
  /\ (forall term, In term STANDARD_TERMS ->
        (Sample.same_words (normal (u "xyz123")) term < 60)%N)
  /\ process_query Sample.same_words (u "   ") Sample.world
     = (Ok (u "Please enter a query."), Sample.world)
  /\ process_query Sample.same_words (u "xyz123") Sample.world
     = (Ok (help (length (players Sample.world))), Sample.world).
Proof.
  assert (H0 : forallb isspace_cp (u "   ") = true) by (vm_compute; reflexivity).
  assert (H1 : forallb isspace_cp (u "xyz123") = false) by (vm_compute; reflexivity).
  assert (H2 : contains (u "player list") (normal (u "xyz123")) = false)
    by (vm_compute; reflexivity).
  assert (H3 : isdigit (normal (u "xyz123")) = false) by (vm_compute; reflexivity).
  assert (H4 : contains (u "best player") (normal (u "xyz123")) = false)
    by (vm_compute; reflexivity).
  assert (H5 : contains (u "worst player") (normal (u "xyz123")) = false)
    by (vm_compute; reflexivity).
  assert (H6 : forall term, In term STANDARD_TERMS ->
                 (Sample.same_words (normal (u "xyz123")) term < 60)%N).
  { intros term Hin. unfold STANDARD_TERMS in Hin. cbn [In] in Hin.
    repeat (destruct Hin as [<-|Hin]; [vm_compute; reflexivity|]). destruct Hin. }
  destruct (@process_query_blank_and_fallback Z PyInt Sample.same_words Sample.world)
    as (Hblank & Hhelp & _).
  repeat (split; [assumption|]). split.
  - exact (Hblank _ H0).
  - exact (Hhelp _ H1 H2 H3 H4 H5 H6).
Defined.

Lemma process_query_pure_witness :
  players Sample.other_page = players Sample.world
  /\ fst (process_query Sample.same_words (u "bowler") Sample.other_page)
     = fst (process_query Sample.same_words (u "bowler") Sample.world)
  /\ snd (process_query Sample.same_words (u "bowler") Sample.world) = Sample.world.
Proof.
  assert (E : players Sample.other_page = players Sample.world) by reflexivity.
  split; [exact E|].
  destruct (@process_query_pure Z PyInt Sample.same_words (u "bowler") Sample.world)
    as (Hs & _ & Hw).
  split; [exact (Hw _ E)|exact Hs].
Defined.

Lemma process_query_fuzzy_other_term_witness :
  forallb isspace_cp (u "player-list") = false
  /\ contains (u "player list") (normal (u "player-list")) = false
  /\ isdigit (normal (u "player-list")) = false
  /\ contains (u "best player") (normal (u "player-list")) = false
  /\ contains (u "worst player") (normal (u "player-list")) = false
  /\ extractOne Sample.same_words (normal (u "player-list")) STANDARD_TERMS
     = Some (u "player list", 100%N)
  /\ (60 <= 100)%N
  /\ In (u "player list") [u "player list"; u "best player"; u "worst player"]
  /\ process_query Sample.same_words (u "player-list") Sample.world
     = (Ok (help (length (players Sample.world))), Sample.world).
Proof.
  assert (H1 : forallb isspace_cp (u "player-list") = false) by (vm_compute; reflexivity).
  assert (H2 : contains (u "player list") (normal (u "player-list")) = false)
    by (vm_compute; reflexivity).
  assert (H3 : isdigit (normal (u "player-list")) = false) by (vm_compute; reflexivity).
  assert (H4 : contains (u "best player") (normal (u "player-list")) = false)
    by (vm_compute; reflexivity).
  assert (H5 : contains (u "worst player") (normal (u "player-list")) = false)
    by (vm_compute; reflexivity).
  assert (H6 : extractOne Sample.same_words (normal (u "player-list")) STANDARD_TERMS
               = Some (u "player list", 100%N)) by (vm_compute; reflexivity).
  assert (H7 : (60 <= 100)%N) by lia.
  assert (H8 : In (u "player list") [u "player list"; u "best player"; u "worst player"])
    by (left; reflexivity).
  repeat (split; [assumption|]).
  exact (@process_query_fuzzy_other_term Z PyInt Sample.same_words _ Sample.world _ _
           H1 H2 H3 H4 H5 H6 H7 H8).
Defined.

(** * Further properties *)

(** ** Blanks and case *)

Section BlankFacts.

Local Open Scope N_scope.

Lemma space_not_cased (c : N) :
  isspace_cp c = true -> negb (cased c) && negb (case_ignorable c) = true.
Proof.
  apply (forall_in_ranges (fun x => negb (cased x) && negb (case_ignorable x))
           Unicode.space_ranges).
  vm_compute. reflexivity.
Qed.

Lemma avoids_not_in (lo hi d : N) (rs : list (N * N)) :
  avoids lo hi rs = true -> lo <= d -> d <= hi -> in_ranges d rs = false.
Proof.
  intros Hav Hlo Hhi. induction rs as [|[a b] rs IH]; [reflexivity|].
  cbn [avoids forallb fst snd] in Hav. apply andb_true_iff in Hav.
  destruct Hav as [Hab Hrs]. cbn [in_ranges]. rewrite (IH Hrs), orb_false_r.
  apply andb_false_iff. apply orb_true_iff in Hab.
  destruct Hab as [Hab|Hab]; apply N.ltb_lt in Hab; [left|right]; apply N.leb_gt; lia.
Qed.

Lemma run_lookup_avoid (runs : list (N * N * N * N)) (rs : list (N * N)) (c d : N) :
  runs_avoid runs rs = true -> run_lookup c runs = Some d -> in_ranges d rs = false.
Proof.
  intros Hav. induction runs as [|[[[a b] step] img] runs IH]; [discriminate|].
  cbn [runs_avoid forallb] in Hav. apply andb_true_iff in Hav. destruct Hav as [Hr Hrs].
  cbn [run_lookup].
  destruct ((a <=? c) && (c <=? b) && ((c - a) mod step =? 0)) eqn:Hc; [|now apply IH].
  intros [= <-]. apply andb_true_iff in Hc. destruct Hc as [Hc _].
  apply andb_true_iff in Hc. destruct Hc as [Ha Hb].
  apply N.leb_le in Ha, Hb. apply (avoids_not_in _ _ _ _ Hr); lia.
Qed.

Lemma special_lookup_not_blank (m : list (N * list N)) (c : N) (v : list N) :
  specials_not_blank m = true -> special_lookup c m = Some v ->
  forallb isspace_cp v = false.
Proof.
  intros Hm. induction m as [|[k x] m IH]; [discriminate|].
  cbn [specials_not_blank forallb snd] in Hm. apply andb_true_iff in Hm.
  destruct Hm as [Hx Hm]. cbn [special_lookup].
  destruct (k =? c); [|now apply IH]. intros [= <-].
  apply existsb_exists in Hx. destruct Hx as (y & Hy & Hs).
  destruct (forallb isspace_cp x) eqn:E; [|reflexivity].
  rewrite forallb_forall in E. rewrite (E _ Hy) in Hs. discriminate.
Qed.

(** No character that is not a blank lower-cases to blanks. *)
Lemma lower_char_blank (before after : pystr) (c : N) :
  forallb isspace_cp (lower_char before c after) = true -> isspace_cp c = true.
Proof.
  unfold lower_char. destruct (c =? 0x3A3).
  { destruct (final_sigma before after); intros Hv; vm_compute in Hv; discriminate. }
  unfold lower_full, map_full.
  destruct (special_lookup c Unicode.lower_special) as [v|] eqn:Es.
  { intros Hv. rewrite (special_lookup_not_blank Unicode.lower_special c v) in Hv;
      [discriminate| |exact Es].
    vm_compute. reflexivity. }
  destruct (run_lookup c Unicode.lower_runs) as [d|] eqn:Er.
  - cbn [forallb]. rewrite andb_true_r. intros Hd. unfold isspace_cp in Hd.
    rewrite (run_lookup_avoid Unicode.lower_runs Unicode.space_ranges c d) in Hd;
      [discriminate| |exact Er].
    vm_compute. reflexivity.
  - cbn [forallb]. now rewrite andb_true_r.
Qed.

Lemma lower_from_blank (s before : pystr) :
  forallb isspace_cp (lower_from before s) = true -> forallb isspace_cp s = true.
Proof.
  revert before; induction s as [|c s IH]; intros before; [reflexivity|].
  cbn [lower_from forallb]. rewrite forallb_app, !andb_true_iff.
  intros [Hc Hs]. split; [now apply lower_char_blank in Hc|now apply IH in Hs].
Qed.

(** An input is blank exactly when its normal form is empty. *)
Lemma normal_nil_iff (s : pystr) : normal s = [] <-> strip s = [].
Proof.
  unfold normal. split.
  - intros E. apply strip_nil in E. apply lower_from_blank in E.
    now apply strip_all_space.
  - intros E. now rewrite (blank_lower _ E).
Qed.

(** *** Padding *)

Lemma drop_while_app_all (f : N -> bool) (a b : pystr) :
  forallb f a = true -> drop_while f (a ++ b) = drop_while f b.
Proof.
  induction a as [|c a IH]; [reflexivity|].
  cbn [forallb app drop_while]. rewrite andb_true_iff. intros [-> Ha]. auto.
Qed.

Lemma drop_while_app_some (f : N -> bool) (a b : pystr) :
  drop_while f a <> [] -> drop_while f (a ++ b) = drop_while f a ++ b.
Proof.
  induction a as [|c a IH]; [now intros []|].
  cbn [app drop_while]. destruct (f c); [exact IH|reflexivity].
Qed.

Lemma strip_pad (ws ws' s : pystr) :
  forallb isspace_cp ws = true -> forallb isspace_cp ws' = true ->
  strip (ws ++ s ++ ws') = strip s.
Proof.
  intros Hw Hw'. unfold strip, lstrip, rstrip.
  rewrite (drop_while_app_all _ _ _ Hw).
  destruct (drop_while isspace_cp s) as [|c t] eqn:Es.
  - apply drop_while_nil in Es.
    rewrite (drop_while_all isspace_cp (s ++ ws')); [reflexivity|].
    rewrite forallb_app, Es, Hw'. reflexivity.
  - rewrite drop_while_app_some, Es by (rewrite Es; discriminate).
    rewrite rev_app_distr, drop_while_app_all; [reflexivity|].
    now rewrite forallb_rev.
Qed.

(** Blanks at the far end of either side do not change the form of a sigma. *)
Lemma final_sigma_pad (before after x y : pystr) :
  forallb isspace_cp x = true -> forallb isspace_cp y = true ->
  final_sigma (before ++ x) (after ++ y) = final_sigma before after.
Proof.
  intros Hx Hy.
  assert (Hhead : forall l z, forallb isspace_cp z = true ->
            (drop_while case_ignorable l <> []
             /\ drop_while case_ignorable (l ++ z) = drop_while case_ignorable l ++ z)
            \/ (drop_while case_ignorable l = []
                /\ (drop_while case_ignorable (l ++ z) = []
                    \/ exists c r, drop_while case_ignorable (l ++ z) = c :: r
                                   /\ cased c = false))).
  { intros l z Hz. destruct (drop_while case_ignorable l) as [|c t] eqn:El.
    - right. split; [reflexivity|].
      apply drop_while_nil in El. rewrite (drop_while_app_all _ _ _ El).
      destruct z as [|c r]; [now left|]. right.
      cbn [forallb] in Hz. apply andb_true_iff in Hz. destruct Hz as [Hc _].
      apply space_not_cased in Hc. apply andb_true_iff in Hc.
      destruct Hc as [Hcased Hci]. apply negb_true_iff in Hcased, Hci.
      exists c, r. cbn [drop_while]. now rewrite Hci.
    - left. split; [discriminate|]. rewrite <- El.
      apply drop_while_app_some. rewrite El. discriminate. }
  unfold final_sigma.
  destruct (Hhead before x Hx) as [[Hb ->]|[-> Hb]].
  - destruct (drop_while case_ignorable before) as [|c t]; [now elim Hb|].
    cbn [app]. f_equal.
    destruct (Hhead after y Hy) as [[Ha ->]|[-> Ha]].
    + destruct (drop_while case_ignorable after); [now elim Ha|reflexivity].
    + destruct Ha as [->|(d & r & -> & Hd)]; [reflexivity|now rewrite Hd].
  - destruct Hb as [->|(c & r & -> & Hc)]; [reflexivity|now rewrite Hc].
Qed.

Lemma lower_from_pad (s before x y : pystr) :
  forallb isspace_cp x = true -> forallb isspace_cp y = true ->
  lower_from (before ++ x) (s ++ y) = lower_from before s ++ y.
Proof.
  intros Hx Hy. revert before; induction s as [|c s IH]; intros before.
  - cbn [app lower_from]. apply lower_from_fixed.
    apply forallb_impl with (f := isspace_cp); [exact space_lower_fixed|exact Hy].
  - cbn [app lower_from]. rewrite <- app_assoc. f_equal.
    + unfold lower_char. now rewrite final_sigma_pad.
    + apply (IH (c :: before)).
Qed.

(** Lower-casing leaves the blanks around a string where they are. *)
Lemma lower_pad (ws ws' s : pystr) :
  forallb isspace_cp ws = true -> forallb isspace_cp ws' = true ->
  lower (ws ++ s ++ ws') = ws ++ lower s ++ ws'.
Proof.
  intros Hw Hw'. unfold lower.
  assert (G : forall ws0 before,
            forallb isspace_cp ws0 = true -> forallb isspace_cp before = true ->
            lower_from before (ws0 ++ s ++ ws') = ws0 ++ lower_from [] s ++ ws').
  { induction ws0 as [|c ws0 IH]; intros before Hws0 Hbefore.
    - cbn [app]. now apply (lower_from_pad s [] before ws').
    - cbn [forallb] in Hws0. apply andb_true_iff in Hws0. destruct Hws0 as [Hc Hws0].
      cbn [app lower_from]. rewrite lower_char_fixed by now apply space_lower_fixed.
      cbn [app]. f_equal. apply IH; [exact Hws0|].
      cbn [forallb]. now rewrite Hc, Hbefore. }
  now apply G.
Qed.

Lemma normal_pad (ws ws' s : pystr) :
  forallb isspace_cp ws = true -> forallb isspace_cp ws' = true ->
  normal (ws ++ s ++ ws') = normal s.
Proof.
  intros Hw Hw'. unfold normal. rewrite lower_pad by assumption. now apply strip_pad.
Qed.

End BlankFacts.

Lemma strip_parts (s : pystr) :
  exists ws ws',
    s = ws ++ strip s ++ ws'
    /\ forallb isspace_cp ws = true /\ forallb isspace_cp ws' = true.
Proof.
  destruct (drop_while_suffix isspace_cp s) as (pre & Es & Hpre).
  destruct (drop_while_suffix isspace_cp (rev (drop_while isspace_cp s)))
    as (pre' & Er & Hpre').
  exists pre, (rev pre'). unfold strip, lstrip, rstrip. split; [|split].
  - rewrite <- rev_app_distr, <- Er, rev_involutive. exact Es.
  - exact Hpre.
  - now rewrite forallb_rev.
Qed.

(** Stripping twice is stripping once. *)
Lemma strip_strip (s : pystr) : strip (strip s) = strip s.
Proof.
  destruct (strip_parts s) as (ws & ws' & E & Hw & Hw').
  rewrite E at 2. now rewrite strip_pad.
Qed.

Lemma int_digits_none (s : pystr) (acc : N) :
  int_digits acc s = None <-> exists c, In c s /\ decimal_value c = None.
Proof.
  revert acc; induction s as [|c s IH]; intros acc; cbn [int_digits].
  - split; [discriminate|]. now intros (c & [] & _).
  - destruct (decimal_value c) as [d|] eqn:Ec.
    + rewrite IH. split.
      * intros (x & Hx & Ex). exists x. split; [now right|exact Ex].
      * intros (x & [<-|Hx] & Ex); [congruence|]. now exists x.
    + split; [|reflexivity]. intros _. exists c. split; [now left|exact Ec].
Qed.

(** ** More on the responder *)

Section ResponderMore.

Context {num : Type} `{PyNumber num}.
Variable score : pystr -> pystr -> N.

Implicit Types (w : World (num := num)) (input : pystr).

Lemma respond_normal roster (a b : pystr) :
  normal a = normal b -> respond score roster a = respond score roster b.
Proof.
  intros E.
  assert (Hblank : is_empty (strip a) = is_empty (strip b)).
  { destruct (strip a) as [|x sa] eqn:Ea; destruct (strip b) as [|y sb] eqn:Eb;
      try reflexivity; exfalso.
    - pose proof (proj2 (normal_nil_iff a) Ea) as Ha. rewrite E in Ha.
      apply (proj1 (normal_nil_iff b)) in Ha. congruence.
    - pose proof (proj2 (normal_nil_iff b) Eb) as Hb. rewrite <- E in Hb.
      apply (proj1 (normal_nil_iff a)) in Hb. congruence. }
  unfold respond, process_query. rewrite Hblank.
  change (strip (lower a)) with (normal a). change (strip (lower b)) with (normal b).
  now rewrite E.
Qed.

(** X4. The answer depends on the input through its normal form
    [user_input.lower().strip()] only: two inputs with the same normal form
    get the same outcome, the blank test of line 58 included. *)
Theorem process_query_by_normal_form (a b : pystr) w :
  normal a = normal b -> process_query score a w = process_query score b w.
Proof.
  intros E. rewrite !process_query_respond. f_equal. now apply respond_normal.
Qed.

(** X5. White space before and after the input does not change the
    outcome. *)
Theorem process_query_ignores_padding (ws ws' : pystr) input w :
  forallb isspace_cp ws = true -> forallb isspace_cp ws' = true ->
  process_query score (ws ++ input ++ ws') w = process_query score input w.
Proof.
  intros Hw Hw'. rewrite !process_query_respond. f_equal.
  apply respond_normal. now apply normal_pad.
Qed.

(** X1. [process_query] raises [ValueError] when the normal form of the
    input is made of digit characters of which one is not a decimal digit.
    On an input that [int] can take, one whose normal form is not a string of
    more than 4300 digit characters, and a roster of records as [Player] has
    them, this is the one way it raises: every exception is a [ValueError]
    from such a character, and the world is left as it is. *)
Theorem process_query_raises_iff input w :
  (isdigit (normal input) = true ->
   (exists c, In c (normal input) /\ decimal_value c = None) ->
   process_query score input w = (Raise ValueError, w))
  /\ (within_int_limit input = true ->
      forall (e : exn) w',
        process_query score input w = (Raise e, w') ->
        e = ValueError /\ w' = w /\ isdigit (normal input) = true
        /\ exists c, In c (normal input) /\ isdigit_cp c = true /\ decimal_value c = None).
Proof.
  split; [|intros _].
  - intros Hd Hc. rewrite process_query_respond, (respond_digits _ _ _ Hd).
    replace (int_of_str (normal input)) with (@None N); [reflexivity|].
    symmetry. unfold int_of_str. destruct (normal input) as [|c0 s0] eqn:En; [reflexivity|].
    now apply int_digits_none.
  - intros e w' E. rewrite process_query_respond in E. injection E as E <-.
    apply respond_raises in E. destruct E as (-> & Hd & Hn).
    repeat split; try assumption.
    unfold int_of_str in Hn. destruct (normal input) as [|c0 s0] eqn:En; [discriminate|].
    apply int_digits_none in Hn. destruct Hn as (c & Hin & Hc). exists c.
    repeat split; try assumption.
    unfold isdigit in Hd. apply andb_true_iff in Hd. destruct Hd as [_ Hd].
    rewrite forallb_forall in Hd. now apply Hd.
Qed.

(** X2. Whatever the way the number is written (padding, leading zeros,
    decimal digits of any script), when the normal form of the input is all
    digits, at most 4300 of them, and [int] reads it as n with
    1 <= n <= count, the answer is the detail block of the n-th record: the
    value as "$" and the number, or "N/A" when it is missing or [null]; the
    points as the number, "N/A" when the key is missing and "None" when it is
    [null]. *)
Theorem process_query_detail_block input w (n : N) (p : Player) :
  isdigit (normal input) = true ->
  within_digit_limit (normal input) = true ->
  int_of_str (normal input) = Some n ->
  (1 <= n)%N ->
  nth_error (players w) (N.to_nat n - 1) = Some p ->
  process_query score input w
  = (Ok (u "🏏 **Player Details:**" ++ nl
         ++ u "**Name:** " ++ Name p ++ nl
         ++ u "**University:** " ++ University p ++ nl
         ++ u "**Category:** " ++ Category p ++ nl
         ++ u "**Value:** "
         ++ match Value p with
            | Val v => u "$" ++ num_str v
            | Missing | Null => u "N/A"
            end ++ nl
         ++ u "**Points:** "
         ++ match Player_Points p with
            | Val points => num_str points
            | Missing => u "N/A"
            | Null => u "None"
            end), w).
Proof.
  intros Hd _ Hn Hpos Hp.
  assert (Hlt : N.to_nat n - 1 < length (players w)) by (apply nth_error_Some; congruence).
  rewrite process_query_respond, (respond_digits _ _ _ Hd), Hn. cbv zeta.
  replace (Z.to_nat (Z.of_N n - 1)) with (N.to_nat n - 1) by lia.
  rewrite Hp.
  destruct (Z.leb_spec 0 (Z.of_N n - 1)); [|lia].
  destruct (Z.ltb_spec (Z.of_N n - 1) (Z.of_nat (length (players w)))); [|lia].
  cbn [andb]. unfold value_text.
  destruct (Value p); destruct (Player_Points p); reflexivity.
Qed.

End ResponderMore.

(** ** The fuzzy rule and the listings *)

Section FuzzyFacts.

Context {num : Type} `{PyNumber num}.
Variable score : pystr -> pystr -> N.

Implicit Types (w : World (num := num)) (input : pystr).

Lemma ltb_trans (a b c : N) : (a <? b)%N = true -> (b <? c)%N = true -> (a <? c)%N = true.
Proof. rewrite !N.ltb_lt. lia. Qed.

Lemma ltb_between (a b c : N) :
  (a <? b)%N = true -> (a <? c)%N = true \/ (c <? b)%N = true.
Proof. rewrite !N.ltb_lt. lia. Qed.

(** The match of [extractOne] is the first of the choices with the highest
    score. *)
Lemma extractOne_first_best (query : pystr) (choices : list pystr) (term : pystr) (sc : N) :
  extractOne score query choices = Some (term, sc) ->
  sc = score query term
  /\ exists pre post,
       choices = pre ++ term :: post
       /\ (forall c, In c pre -> (score query c < sc)%N)
       /\ (forall c, In c post -> (score query c <= sc)%N).
Proof.
  unfold extractOne, py_max. destruct choices as [|c0 cs]; [discriminate|].
  cbn [map]. intros [= E].
  destruct (scan_first_best (pystr * N) N snd N.ltb ltb_trans ltb_between
              (map (fun c => (c, score query c)) cs) (c0, score query c0))
    as (l1 & l2 & El & Hb & Ha).
  rewrite E in El, Hb, Ha. cbn [snd] in Hb, Ha.
  change ((c0, score query c0) :: map (fun c => (c, score query c)) cs)
    with (map (fun c => (c, score query c)) (c0 :: cs)) in El.
  apply map_eq_app in El. destruct El as (pre & rest & Ec & Epre & Erest).
  apply map_eq_cons in Erest. destruct Erest as (m & post & -> & [= <- <-] & Epost).
  split; [reflexivity|]. exists pre, post. split; [exact Ec|]. split.
  - intros c Hc. apply N.ltb_lt. apply (Hb (c, score query c)).
    rewrite <- Epre. apply in_map_iff. now exists c.
  - intros c Hc. apply N.ltb_ge. apply (Ha (c, score query c)).
    rewrite <- Epost. apply in_map_iff. now exists c.
Qed.

(** X6. [get_best_match]: a blank input has no match; otherwise, with at
    least one choice, the match is the first choice with the highest score
    when this score reaches the threshold, and there is none when every
    choice scores under the threshold. It does not raise and does not change
    the world. *)
Theorem get_best_match_first_best (user_input : pystr) (choices : list pystr)
    (threshold : N) w :
  (strip user_input = [] ->
     get_best_match score user_input choices threshold w = (Ok None, w))
  /\ (strip user_input <> [] -> choices <> [] ->
       exists r,
         get_best_match score user_input choices threshold w = (Ok r, w)
         /\ match r with
            | Some term =>
              (threshold <= score user_input term)%N
              /\ exists pre post,
                   choices = pre ++ term :: post
                   /\ (forall c, In c pre ->
                         (score user_input c < score user_input term)%N)
                   /\ (forall c, In c post ->
                         (score user_input c <= score user_input term)%N)
            | None => forall c, In c choices -> (score user_input c < threshold)%N
            end).
Proof.
  unfold get_best_match. split.
  - intros E. now rewrite E.
  - intros Hne Hch. rewrite (is_empty_false _ Hne).
    destruct (extractOne score user_input choices) as [[term sc]|] eqn:E.
    + apply extractOne_first_best in E.
      destruct E as (-> & pre & post & Ec & Hpre & Hpost).
      destruct (N.leb_spec threshold (score user_input term)) as [Hth|Hth].
      * exists (Some term). split; [reflexivity|]. split; [exact Hth|].
        now exists pre, post.
      * exists None. split; [reflexivity|]. intros c Hc. rewrite Ec in Hc.
        apply in_app_or in Hc. destruct Hc as [Hc|[<-|Hc]].
        -- specialize (Hpre c Hc). lia.
        -- exact Hth.
        -- specialize (Hpost c Hc). lia.
    + exfalso. unfold extractOne, py_max in E. destruct choices; [now elim Hch|discriminate].
Qed.

(** X7. The blank test of line 37 never succeeds on the call of line 105:
    an input that is not blank has a normal form that is not blank, so what
    [get_best_match] returns there is what [extractOne] finds. *)
Theorem get_best_match_of_normal_form input (choices : list pystr) (threshold : N) w :
  strip input <> [] ->
  strip (normal input) <> []
  /\ get_best_match score (normal input) choices threshold w
     = match extractOne score (normal input) choices with
       | Some (term, sc) => (Ok (if (threshold <=? sc)%N then Some term else None), w)
       | None => (Raise TypeError, w)
       end.
Proof.
  intros Hne.
  assert (Hn : strip (normal input) <> []).
  { unfold normal at 1. rewrite strip_strip. fold (normal input).
    intros E. apply Hne. exact (proj1 (normal_nil_iff input) E). }
  split; [exact Hn|]. unfold get_best_match. rewrite (is_empty_false _ Hn).
  destruct (extractOne score (normal input) choices) as [[term sc]|]; reflexivity.
Qed.

(** X3. The category rule. When the input reaches the fuzzy rule (not
    blank, not all digits, none of the three phrases inside) and the best
    match of the vocabulary, with a score of 60 or more, is "batsman",
    "bowler" or "all-rounder", the answer lists the records of that category
    that have a value: "No ...s found." when there is none, otherwise a header
    with the capitalised term and the number of records, followed by as many
    lines, numbered from 1 in the order of the roster. *)
Theorem process_query_category_listing input w (term : pystr) (sc : N) :
  forallb isspace_cp input = false ->
  contains (u "player list") (normal input) = false ->
  isdigit (normal input) = false ->
  contains (u "best player") (normal input) = false ->
  contains (u "worst player") (normal input) = false ->
  extractOne score (normal input) STANDARD_TERMS = Some (term, sc) ->
  (60 <= sc)%N ->
  In term [u "batsman"; u "bowler"; u "all-rounder"] ->
  exists (found : list Player) (heading : pystr),
    selection (in_category term) (players w) found
    /\ In (term, heading)
          [(u "batsman", u "Batsman"); (u "bowler", u "Bowler");
           (u "all-rounder", u "All-Rounder")]
    /\ (found = [] ->
          process_query score input w = (Ok (u "❌ No " ++ term ++ u "s found."), w))
    /\ (found <> [] ->
          exists lines,
            length lines = length found
            /\ process_query score input w
               = (Ok (u "🏏 **" ++ heading ++ u "s (" ++ str_nat (length found)
                      ++ u " found):**" ++ nl ++ join nl lines), w)
            /\ forall k p, nth_error found k = Some p ->
                 exists v, Value p = Val v
                 /\ nth_error lines k
                    = Some (str_nat (k + 1) ++ u ". " ++ Name p ++ u " - " ++ University p
                            ++ u " - " ++ Category p ++ u " - " ++ u "$" ++ num_str v)).
Proof.
  intros Hb Hl Hd Hbest Hworst Hmatch Hsc Hterm.
  assert (Hne : strip input <> []) by now apply not_blank_strip.
  assert (Hn : strip (normal input) <> []).
  { unfold normal at 1. rewrite strip_strip. fold (normal input).
    intros E. apply Hne. exact (proj1 (normal_nil_iff input) E). }
  set (found := filter (fun p : Player => str_eqb (lower (Category p)) (lower term)
                                          && is_some (get (Value p))) (players w)).
  assert (Hq : respond score (players w) input
               = if is_empty found then Ok (u "❌ No " ++ term ++ u "s found.")
                 else Ok (u "🏏 **" ++ title term ++ u "s (" ++ str_nat (length found)
                          ++ u " found):**" ++ nl ++ join nl (numbered found))).
  { rewrite respond_fuzzy; [|assumption..|now rewrite Hbest, Hworst].
    unfold best_match_of. rewrite (is_empty_false _ Hn), Hmatch.
    destruct (N.leb_spec 60 sc); [|lia].
    rewrite (proj2 (str_in_In term _) Hterm). reflexivity. }
  exists found, (title term). split; [|split; [|split]].
  - apply filter_selection. intros p. apply in_category_test.
  - destruct Hterm as [<-|[<-|[<-|[]]]];
      [left|right; left|right; right; left]; f_equal; vm_compute; reflexivity.
  - intros E. rewrite process_query_respond, Hq, E. reflexivity.
  - intros E. exists (numbered found). split; [apply length_numbered|]. split.
    + rewrite process_query_respond, Hq. destruct found; [now elim E|reflexivity].
    + intros k p Hk.
      assert (Hin : In p found) by (eapply nth_error_In; eauto).
      apply filter_In in Hin. destruct Hin as [_ Hv]. apply andb_true_iff in Hv.
      destruct Hv as [_ Hv]. apply is_some_get in Hv. destruct Hv as (v & Ev).
      exists v. split; [exact Ev|].
      rewrite (nth_error_numbered _ _ _ Hk). unfold format_player_info, value_text.
      rewrite Ev. cbn [get]. now rewrite <- !app_assoc.
Qed.

(** X13. With an empty roster every input that [int] can take, one whose
    normal form is not a string of more than 4300 digit characters, gets the
    empty form of the answer of its rule: one of five fixed messages or
    "No ...s found." for a category; the one exception is the input whose
    normal form is all digits and is not read by [int], which raises
    [ValueError]. *)
Theorem process_query_empty_roster input w :
  players w = [] ->
  within_int_limit input = true ->
  exists outcome,
    process_query score input w = (outcome, w)
    /\ (outcome = Ok (u "Please enter a query.")
        \/ outcome = Ok (u "No players found with valid values.")
        \/ outcome = Ok (u "❌ Invalid player index. Please enter a number between 1 and 0.")
        \/ outcome = Ok (u "No players found with valid points data.")
        \/ (exists term, In term [u "batsman"; u "bowler"; u "all-rounder"]
                         /\ outcome = Ok (u "❌ No " ++ term ++ u "s found."))
        \/ outcome = Ok (help 0)
        \/ (outcome = Raise ValueError
            /\ isdigit (normal input) = true /\ int_of_str (normal input) = None)).
Proof.
  intros E _. exists (respond score [] input).
  rewrite process_query_respond, E. split; [reflexivity|].
  apply respond_empty_roster.
Qed.

End FuzzyFacts.

(** ** Listings against each other *)

Section ListingFacts.

Context {num : Type} `{PyNumber num}.
Variable score : pystr -> pystr -> N.

Implicit Types (w : World (num := num)).

Lemma filter_andb {A} (f g : A -> bool) (l : list A) :
  filter (fun x => f x && g x) l = filter f (filter g l).
Proof.
  induction l as [|x l IH]; [reflexivity|]. cbn [filter].
  destruct (g x); cbn [filter]; destruct (f x); cbn [andb]; now rewrite ?IH.
Qed.

(** X9. A listing by category is a part of the player list: it is made of
    the records of the player list (the records with a value, line 65) whose
    category is the given one up to case, in the same order; and two ways of
    writing the category that agree up to case give the same listing. *)
Theorem category_listing_within_player_list (category : pystr) w :
  let valid := filter (fun p => is_some (get (Value p))) (players w) in
  exists found : list Player,
    get_players_by_category category w = (Ok found, w)
    /\ selection (fun p => lower (Category p) = lower category) valid found
    /\ (forall p, In p found -> In p valid)
    /\ length found <= length valid
    /\ forall category', lower category' = lower category ->
         get_players_by_category category' w = (Ok found, w).
Proof.
  intros valid.
  exists (filter (fun p : Player => str_eqb (lower (Category p)) (lower category)) valid).
  assert (E : get_players_by_category category w
              = (Ok (filter (fun p : Player =>
                               str_eqb (lower (Category p)) (lower category)) valid), w)).
  { unfold get_players_by_category, bind, get_players, ret. f_equal. f_equal.
    apply (filter_andb (fun p : Player => str_eqb (lower (Category p)) (lower category))). }
  split; [exact E|]. split; [|split; [|split]].
  - apply filter_selection. intros p. apply str_eqb_eq.
  - intros p Hp. now apply filter_In in Hp.
  - apply filter_length_le.
  - intros category' Ec. rewrite <- E.
    unfold get_players_by_category, bind, get_players, ret. now rewrite Ec.
Qed.

Lemma nth_error_filter_prefix {A} (f : A -> bool) (l : list A) (k : nat) :
  (forall j x, j <= k -> nth_error l j = Some x -> f x = true) ->
  nth_error (filter f l) k = nth_error l k.
Proof.
  revert k; induction l as [|y l IH]; intros k Hall; [reflexivity|].
  cbn [filter]. rewrite (Hall 0 y (Nat.le_0_l k) eq_refl).
  destruct k as [|k]; [reflexivity|]. cbn [nth_error]. apply IH.
  intros j x Hj Hx. apply (Hall (S j) x); [lia|exact Hx].
Qed.

(** X8. The numbers of the player list are positions in the list of the
    records that have a value, the numbers of the numeric rule are positions
    in the whole roster. They agree as long as no record without a value
    comes first: when the records of the roster up to position k + 1 all have
    a value, the record shown with the number k + 1 in the player list is the
    record whose details the query "k + 1" gives. *)
Theorem list_number_is_lookup_number w (k : nat) (p : Player) :
  (forall j q, j <= k -> nth_error (players w) j = Some q -> exists v, Value q = Val v) ->
  nth_error (filter (fun q => is_some (get (Value q))) (players w)) k = Some p ->
  exists v,
    Value p = Val v
    /\ process_query score (str_nat (k + 1)) w
       = (Ok (u "🏏 **Player Details:**" ++ nl
              ++ u "**Name:** " ++ Name p ++ nl
              ++ u "**University:** " ++ University p ++ nl
              ++ u "**Category:** " ++ Category p ++ nl
              ++ u "**Value:** " ++ u "$" ++ num_str v ++ nl
              ++ u "**Points:** " ++ py_str (get_default (Player_Points p) (u "N/A"))), w).
Proof.
  intros Hall Hk.
  rewrite nth_error_filter_prefix in Hk.
  2:{ intros j x Hj Hx. apply is_some_get. exact (Hall j x Hj Hx). }
  destruct (Hall k p (Nat.le_refl k) Hk) as (v & Ev). exists v. split; [exact Ev|].
  rewrite process_query_respond, (respond_index score _ _ _ Hk).
  unfold value_text. rewrite Ev. reflexivity.
Qed.

End ListingFacts.

(** ** The sidebar *)

Section SidebarFacts.

Context {num : Type}.

Implicit Types (d : list (pystr * nat)) (roster : list (Player (num := num))).

Lemma str_eqb_neq (a b : pystr) : a <> b -> str_eqb a b = false.
Proof.
  intros Hne. destruct (str_eqb a b) eqn:E; [|reflexivity].
  apply str_eqb_eq in E. contradiction.
Qed.

Lemma dict_get_set_same d (k : pystr) (v default : nat) :
  dict_get (dict_set d k v) k default = v.
Proof.
  induction d as [|[k' v'] d IH]; cbn [dict_set dict_get].
  - now rewrite str_eqb_refl.
  - destruct (str_eqb k' k) eqn:E; cbn [dict_get]; rewrite E; [reflexivity|exact IH].
Qed.

Lemma dict_get_set_other d (k k' : pystr) (v default : nat) :
  k <> k' -> dict_get (dict_set d k v) k' default = dict_get d k' default.
Proof.
  intros Hne. induction d as [|[k0 v0] d IH]; cbn [dict_set dict_get].
  - now rewrite (str_eqb_neq _ _ Hne).
  - destruct (str_eqb k0 k) eqn:E; cbn [dict_get]; [|now rewrite IH].
    apply str_eqb_eq in E. subst k0. now rewrite (str_eqb_neq _ _ Hne).
Qed.

Lemma dict_set_keys d (k : pystr) (v : nat) :
  map fst (dict_set d k v)
  = if str_in k (map fst d) then map fst d else map fst d ++ [k].
Proof.
  induction d as [|[k' v'] d IH]; cbn [dict_set map fst]; [reflexivity|].
  unfold str_in in *. cbn [existsb].
  destruct (str_eqb k' k) eqn:E.
  - apply str_eqb_eq in E. subst k'. now rewrite str_eqb_refl.
  - rewrite (str_eqb_neq k k').
    2:{ intros ->. now rewrite str_eqb_refl in E. }
    cbn [orb map fst]. rewrite IH. now destruct (existsb (str_eqb k) (map fst d)).
Qed.

Lemma dict_set_total d (k : pystr) :
  total_count (dict_set d k (dict_get d k 0 + 1)) = total_count d + 1.
Proof.
  induction d as [|[k' v'] d IH]; cbn [dict_set dict_get total_count fold_right snd].
  - lia.
  - destruct (str_eqb k' k); cbn [total_count fold_right snd];
      [|fold (total_count (dict_set d k (dict_get d k 0 + 1))); rewrite IH];
      fold (total_count d); lia.
Qed.

Lemma count_fold_get roster d (c : pystr) :
  dict_get (fold_left count_step roster d) c 0 = dict_get d c 0 + count_category c roster.
Proof.
  revert d; induction roster as [|p roster IH]; intros d; cbn [fold_left].
  - unfold count_category. cbn. lia.
  - rewrite IH. unfold count_category, count_step. cbn [filter].
    destruct (str_eqb (Category p) c) eqn:E.
    + apply str_eqb_eq in E. subst c. rewrite dict_get_set_same. cbn [length]. lia.
    + rewrite dict_get_set_other; [lia|].
      intros Heq. rewrite Heq in E. now rewrite str_eqb_refl in E.
Qed.

Lemma count_fold_total roster d :
  total_count (fold_left count_step roster d) = total_count d + length roster.
Proof.
  revert d; induction roster as [|p roster IH]; intros d; cbn [fold_left length]; [lia|].
  rewrite IH. unfold count_step. rewrite dict_set_total. lia.
Qed.

Lemma count_fold_keys roster d :
  map fst (fold_left count_step roster d)
  = map fst d ++ first_occurrences (map fst d) (map Category roster).
Proof.
  revert d; induction roster as [|p roster IH]; intros d;
    cbn [fold_left map first_occurrences].
  - now rewrite List.app_nil_r.
  - rewrite IH. unfold count_step. cbv zeta. rewrite dict_set_keys.
    destruct (str_in (Category p) (map fst d)); [reflexivity|].
    now rewrite <- app_assoc.
Qed.

Lemma first_occurrences_fresh (l seen : list pystr) (x : pystr) :
  In x (first_occurrences seen l) -> ~ In x seen /\ In x l.
Proof.
  revert seen; induction l as [|y l IH]; intros seen; cbn [first_occurrences]; [easy|].
  destruct (str_in y seen) eqn:E.
  - intros Hx. apply IH in Hx. split; [tauto|right; tauto].
  - intros [<-|Hx].
    + split; [|now left]. intros Hin. apply str_in_In in Hin. congruence.
    + apply IH in Hx. destruct Hx as [Hn Hl]. split; [|now right].
      intros Hin. apply Hn. apply in_or_app. now left.
Qed.

Lemma first_occurrences_NoDup (l seen : list pystr) : NoDup (first_occurrences seen l).
Proof.
  revert seen; induction l as [|y l IH]; intros seen; cbn [first_occurrences];
    [constructor|].
  destruct (str_in y seen); [apply IH|]. constructor; [|apply IH].
  intros Hin. apply first_occurrences_fresh in Hin. destruct Hin as [Hn _].
  apply Hn. apply in_or_app. right. now left.
Qed.

Lemma dict_get_In d (c : pystr) (n : nat) :
  NoDup (map fst d) -> In (c, n) d -> dict_get d c 0 = n.
Proof.
  induction d as [|[k v] d IH]; [easy|]. cbn [map fst dict_get].
  intros Hnd. inversion Hnd as [|? ? Hk Hd]; subst. intros [[= -> ->]|Hin].
  - now rewrite str_eqb_refl.
  - rewrite str_eqb_neq; [now apply IH|]. intros ->. apply Hk.
    apply in_map_iff. now exists (c, n).
Qed.

(** X10. The summary of the sidebar. Nothing is written for an empty
    roster. Otherwise the total is the length of the roster, and the lines by
    category list each category once, in the order in which the categories
    first occur in the roster, with the number of records that carry exactly
    this category (the case as written, with or without a value); the counts
    add up to the total. *)
Theorem sidebar_summary_counts (w : World (num := num)) :
  (players w = [] -> sidebar_summary w = (Ok [], w))
  /\ (players w <> [] ->
       exists items : list (pystr * nat),
         sidebar_summary w
         = (Ok ((u "**Total Players:** " ++ str_nat (length (players w)))
                :: u "**By Category:**"
                :: map (fun item => u "- " ++ fst item ++ u ": " ++ str_nat (snd item)) items),
            w)
         /\ map fst items = first_occurrences [] (map Category (players w))
         /\ NoDup (map fst items)
         /\ (forall c n, In (c, n) items -> n = count_category c (players w) /\ 1 <= n)
         /\ (forall p, In p (players w) -> In (Category p) (map fst items))
         /\ total_count items = length (players w)).
Proof.
  unfold sidebar_summary, bind, get_players, ret. split.
  - intros E. now rewrite E.
  - intros Hne. exists (count_categories (players w)).
    assert (Hkeys : map fst (count_categories (players w))
                    = first_occurrences [] (map Category (players w))).
    { unfold count_categories. apply (count_fold_keys (players w) []). }
    assert (Hnd : NoDup (map fst (count_categories (players w)))).
    { rewrite Hkeys. apply first_occurrences_NoDup. }
    assert (Hget : forall c, dict_get (count_categories (players w)) c 0
                             = count_category c (players w)).
    { intros c. unfold count_categories. apply (count_fold_get (players w) []). }
    split; [now rewrite (is_empty_false _ Hne)|].
    split; [exact Hkeys|]. split; [exact Hnd|]. split; [|split].
    + intros c n Hin. rewrite <- (dict_get_In _ _ _ Hnd Hin), Hget. split; [reflexivity|].
      assert (Hc : In c (first_occurrences [] (map Category (players w)))).
      { rewrite <- Hkeys. apply in_map_iff. now exists (c, n). }
      apply first_occurrences_fresh in Hc. destruct Hc as [_ Hc].
      apply in_map_iff in Hc. destruct Hc as (p & <- & Hp).
      unfold count_category.
      assert (Hf : In p (filter (fun q : Player => str_eqb (Category q) (Category p))
                           (players w))).
      { apply filter_In. split; [exact Hp|apply str_eqb_refl]. }
      destruct (filter _ (players w)); [destruct Hf|cbn [length]; lia].
    + intros p Hp.
      destruct (in_dec (list_eq_dec N.eq_dec) (Category p)
                  (map fst (count_categories (players w)))) as [Hin|Hout]; [exact Hin|].
      exfalso.
      assert (Hz : dict_get (count_categories (players w)) (Category p) 0 = 0).
      { clear -Hout. induction (count_categories (players w)) as [|[k v] d IH];
          [reflexivity|].
        cbn [dict_get]. cbn [map fst] in Hout. rewrite str_eqb_neq.
        - apply IH. intros Hin. apply Hout. now right.
        - intros ->. apply Hout. now left. }
      rewrite Hget in Hz. unfold count_category in Hz.
      assert (Hf : In p (filter (fun q : Player => str_eqb (Category q) (Category p))
                           (players w))).
      { apply filter_In. split; [exact Hp|apply str_eqb_refl]. }
      destruct (filter _ (players w)); [destruct Hf|discriminate].
    + unfold count_categories. apply (count_fold_total (players w) []).
Qed.

End SidebarFacts.

(** ** The box an answer is shown in *)

Section BoxFacts.

Context {num : Type} `{PyNumber num}.
Variable score : pystr -> pystr -> N.

Implicit Types (w : World (num := num)) (input : pystr).

Lemma Ok_inj {A} (x y : A) : Ok x = Ok y -> x = y.
Proof. intros E. now injection E. Qed.

(** The answers of [process_query], by their beginnings. *)
Lemma respond_answers roster input (a : pystr) :
  respond score roster input = Ok a ->
  a = u "Please enter a query."
  \/ a = u "No players found with valid values."
  \/ a = u "No players found with valid points data."
  \/ a = help (length roster)
  \/ a = u "❌ Invalid player index. Please enter a number between 1 and "
         ++ str_nat (length roster) ++ u "."
  \/ (exists term, In term [u "batsman"; u "bowler"; u "all-rounder"]
                   /\ a = u "❌ No " ++ term ++ u "s found.")
  \/ (exists rest, a = u "📋 **Player List (" ++ rest)
  \/ (exists rest, a = u "🏏 **" ++ rest)
  \/ (exists rest, a = u "🏆 **Best Player:** " ++ rest).
Proof.
  destruct (strip input) as [|c0 s0] eqn:Es.
  { rewrite respond_blank by exact Es. intros E. apply Ok_inj in E. subst a. now left. }
  assert (Hne : strip input <> []) by (rewrite Es; discriminate).
  destruct (contains (u "player list") (normal input)) eqn:Hl.
  { rewrite (respond_list _ _ _ Hne Hl). cbv zeta.
    destruct (is_empty _); intros E; apply Ok_inj in E; subst a.
    - right; now left.
    - do 6 right; left. eexists. reflexivity. }
  destruct (isdigit (normal input)) eqn:Hd.
  { rewrite (respond_number _ _ _ Hne Hl Hd).
    destruct (int_of_str (normal input)) as [n|]; [|discriminate]. cbv zeta.
    destruct (_ && _)%bool.
    - destruct (nth_error roster _) as [p|]; [|discriminate].
      intros E; apply Ok_inj in E; subst a.
      do 7 right; left.
      replace (u "🏏 **Player Details:**") with (u "🏏 **" ++ u "Player Details:**")
        by (vm_compute; reflexivity).
      eexists. symmetry. apply app_assoc.
    - intros E; apply Ok_inj in E; subst a. do 4 right; now left. }
  destruct (contains (u "best player") (normal input)
            || contains (u "worst player") (normal input)) eqn:Hb.
  { rewrite (respond_best_worst _ _ _ Hne Hl Hd Hb). cbv zeta.
    destruct (is_empty _);
      [intros E; apply Ok_inj in E; subst a; right; right; now left|].
    destruct (py_max _ _ _); [|discriminate]. destruct (py_min _ _ _); [|discriminate].
    intros E; apply Ok_inj in E; subst a. do 8 right. eexists. reflexivity. }
  rewrite (respond_fuzzy _ _ _ Hne Hl Hd Hb).
  destruct (best_match_of score (normal input)) as [[term|]|e]; [| |discriminate].
  - destruct (str_in term _) eqn:Hin.
    + cbv zeta. destruct (is_empty _); intros E; apply Ok_inj in E; subst a.
      * do 5 right; left. exists term. split; [now apply str_in_In|reflexivity].
      * do 7 right; left. eexists. reflexivity.
    + intros E; apply Ok_inj in E; subst a. do 3 right; now left.
  - intros E; apply Ok_inj in E; subst a. do 3 right; now left.
Qed.

(** Closes [box = other box <-> the answer is one of ...] when the answer
    begins with a character none of the listed answers begins with; [Hhead]
    turns an equation of strings into one of their first characters. *)
Ltac not_this_box Hhead :=
  split;
  [ let Hv := fresh "Hv" in intros Hv; discriminate Hv
  | let Hc := fresh "Hc" in
    intros Hc;
    repeat match type of Hc with
           | _ \/ _ => destruct Hc as [Hc|Hc]
           | exists _, _ => destruct Hc as (? & ? & Hc)
           end;
    apply Hhead in Hc; vm_compute in Hc; discriminate Hc ].

(** X11. Lines 174-185. Nothing is computed for the empty string (the
    prompt of line 59 is only reached by white space). An answer is shown as
    an error exactly when it is the out-of-range message or a "No ...s found."
    message of a category; it is shown as plain information exactly when it is
    the prompt, one of the two "No players found ..." messages or the help
    text; every list, detail block and best-and-worst message is shown as a
    success. The world is left as it is. *)
Theorem show_response_box input w :
  (input = [] -> show_response score input w = (Ok None, w))
  /\ (forall (b : box) (a : pystr) w',
        show_response score input w = (Ok (Some (b, a)), w') ->
        w' = w /\ input <> [] /\ process_query score input w = (Ok a, w)
        /\ (b = BoxError <->
            a = u "❌ Invalid player index. Please enter a number between 1 and "
                  ++ str_nat (length (players w)) ++ u "."
            \/ exists term, In term [u "batsman"; u "bowler"; u "all-rounder"]
                            /\ a = u "❌ No " ++ term ++ u "s found.")
        /\ (b = BoxInfo <->
            a = u "Please enter a query."
            \/ a = u "No players found with valid values."
            \/ a = u "No players found with valid points data."
            \/ a = help (length (players w)))).
Proof.
  split; [intros ->; reflexivity|].
  intros b a w'. unfold show_response.
  destruct (is_empty input) eqn:Ei; [intros E; discriminate E|].
  unfold bind, ret. rewrite process_query_respond.
  destruct (respond score (players w) input) as [a0|e] eqn:Ea;
    [|intros E; discriminate E].
  intros E.
  assert (Ew : w' = w) by congruence.
  assert (Eb : b = response_box a0) by congruence.
  assert (Ea0 : a = a0) by congruence.
  clear E. subst w' b a0.
  split; [reflexivity|].
  split; [intros Hin; rewrite Hin in Ei; discriminate Ei|].
  split; [reflexivity|].
  apply respond_answers in Ea.
  assert (Hhead : forall x y : pystr, x = y -> hd 0%N x = hd 0%N y) by now intros x y ->.
  destruct Ea as [E|[E|[E|[E|[E|[(term & Hterm & E)|[(rest & E)|[(rest & E)|(rest & E)]]]]]]]];
    rewrite E;
    match goal with
    | |- context [response_box ?x] =>
      let v := eval vm_compute in (response_box x) in
      replace (response_box x) with v by (vm_compute; reflexivity)
    end.
  - split; [not_this_box Hhead|]. split; [intros _; left; reflexivity|intros _; reflexivity].
  - split; [not_this_box Hhead|].
    split; [intros _; right; left; reflexivity|intros _; reflexivity].
  - split; [not_this_box Hhead|].
    split; [intros _; right; right; left; reflexivity|intros _; reflexivity].
  - split; [not_this_box Hhead|].
    split; [intros _; right; right; right; reflexivity|intros _; reflexivity].
  - split; [|not_this_box Hhead].
    split; [intros _; left; reflexivity|intros _; reflexivity].
  - split; [|not_this_box Hhead].
    split; [intros _; right; exists term; split; [exact Hterm|reflexivity]
           |intros _; reflexivity].
  - split; not_this_box Hhead.
  - split; not_this_box Hhead.
  - split; not_this_box Hhead.
Qed.

End BoxFacts.

(** ** The script at start *)

Section StartFacts.

Context {num : Type}.
Variable json_loads : pystr -> option (list (Player (num := num))).

(** X12. Lines 15-27, in the three courses that the two handlers of
    [load_players] tell apart; an exception of another kind from [open] or
    [json.load] is not handled and is none of them. When [json.load] returns
    the entries of the file, they become the roster and no banner is added.
    When there is no file, or [json.load] raises [JSONDecodeError], the
    roster becomes empty and one banner is added, which says which of the two
    happened. In all three the file is left as it is and the roster there was
    before is forgotten. *)
Theorem startup_roster (w : World (num := num)) :
  (forall text entries,
     data_json w = Some text -> json_loads text = Some entries ->
     startup json_loads w
     = (Ok tt, {| data_json := data_json w; banners := banners w; players := entries |}))
  /\ (forall text,
        data_json w = Some text -> json_loads text = None ->
        startup json_loads w
        = (Ok tt, {| data_json := data_json w;
                     banners := u "❌ Invalid JSON format in data.json file." :: banners w;
                     players := [] |}))
  /\ (data_json w = None ->
      startup json_loads w
      = (Ok tt, {| data_json := data_json w;
                   banners :=
                     u "❌ data.json file not found. Please make sure the file exists in the same directory."
                       :: banners w;
                   players := [] |})).
Proof.
  unfold startup, load_players, try_except, bind, open_data_json, json_load.
  destruct w as [file page roster]. cbn [data_json banners players].
  split; [|split].
  - intros text entries -> Ej. rewrite Ej. reflexivity.
  - intros text -> Ej. rewrite Ej. reflexivity.
  - intros ->. reflexivity.
Qed.

End StartFacts.

(** ** The further properties on the sample data *)

Lemma process_query_raises_iff_witness :
  isdigit (normal (u "1²")) = true
  /\ (exists c, In c (normal (u "1²")) /\ decimal_value c = None)
  /\ within_int_limit (u "1²") = true
  /\ process_query Sample.same_words (u "1²") Sample.world
     = (Raise ValueError, Sample.world)
  /\ exists c, In c (normal (u "1²")) /\ isdigit_cp c = true /\ decimal_value c = None.
Proof.
  assert (H1 : isdigit (normal (u "1²")) = true) by (vm_compute; reflexivity).
  assert (H2 : exists c, In c (normal (u "1²")) /\ decimal_value c = None).
  { exists 0xB2%N. split; vm_compute; [right; left; reflexivity|reflexivity]. }
  assert (HL : within_int_limit (u "1²") = true) by (vm_compute; reflexivity).
  split; [exact H1|]. split; [exact H2|]. split; [exact HL|].
  pose proof (@process_query_raises_iff Z PyInt Sample.same_words (u "1²") Sample.world)
    as [Hraise Honly].
  split; [exact (Hraise H1 H2)|].
  exact (proj2 (proj2 (proj2 (Honly HL _ _ (Hraise H1 H2))))).
Defined.

Lemma process_query_detail_block_witness :
  isdigit (normal (u " 003 ")) = true
  /\ within_digit_limit (normal (u " 003 ")) = true
  /\ int_of_str (normal (u " 003 ")) = Some 3%N
  /\ (1 <= 3)%N
  /\ nth_error (players Sample.world) (N.to_nat 3 - 1)
     = Some (Sample.player "Cy" "Peradeniya" "batsman" (Val 70%Z) Missing)
  /\ process_query Sample.same_words (u " 003 ") Sample.world
     = (Ok (u "🏏 **Player Details:**" ++ nl
            ++ u "**Name:** " ++ u "Cy" ++ nl
            ++ u "**University:** " ++ u "Peradeniya" ++ nl
            ++ u "**Category:** " ++ u "batsman" ++ nl
            ++ u "**Value:** " ++ (u "$" ++ num_str 70%Z) ++ nl
            ++ u "**Points:** " ++ u "N/A"), Sample.world).
Proof.
  assert (H1 : isdigit (normal (u " 003 ")) = true) by (vm_compute; reflexivity).
  assert (HL : within_digit_limit (normal (u " 003 ")) = true) by (vm_compute; reflexivity).
  assert (H2 : int_of_str (normal (u " 003 ")) = Some 3%N) by (vm_compute; reflexivity).
  assert (H3 : (1 <= 3)%N) by lia.
  assert (H4 : nth_error (players Sample.world) (N.to_nat 3 - 1)
               = Some (Sample.player "Cy" "Peradeniya" "batsman" (Val 70%Z) Missing))
    by (vm_compute; reflexivity).
  split; [exact H1|]. split; [exact HL|]. split; [exact H2|]. split; [exact H3|].
  split; [exact H4|].
  exact (@process_query_detail_block Z PyInt Sample.same_words _ Sample.world _ _
           H1 HL H2 H3 H4).
Defined.

Lemma process_query_category_listing_witness :
  forallb isspace_cp (u "all-rounder") = false
  /\ contains (u "player list") (normal (u "all-rounder")) = false
  /\ isdigit (normal (u "all-rounder")) = false
  /\ contains (u "best player") (normal (u "all-rounder")) = false
  /\ contains (u "worst player") (normal (u "all-rounder")) = false
  /\ extractOne Sample.same_words (normal (u "all-rounder")) STANDARD_TERMS
     = Some (u "all-rounder", 100%N)
  /\ (60 <= 100)%N
  /\ In (u "all-rounder") [u "batsman"; u "bowler"; u "all-rounder"]
  /\ exists (found : list Player) (heading : pystr),
       selection (in_category (u "all-rounder")) (players Sample.world) found
       /\ In (u "all-rounder", heading)
             [(u "batsman", u "Batsman"); (u "bowler", u "Bowler");
              (u "all-rounder", u "All-Rounder")].
Proof.
  assert (H1 : forallb isspace_cp (u "all-rounder") = false) by (vm_compute; reflexivity).
  assert (H2 : contains (u "player list") (normal (u "all-rounder")) = false)
    by (vm_compute; reflexivity).
  assert (H3 : isdigit (normal (u "all-rounder")) = false) by (vm_compute; reflexivity).
  assert (H4 : contains (u "best player") (normal (u "all-rounder")) = false)
    by (vm_compute; reflexivity).
  assert (H5 : contains (u "worst player") (normal (u "all-rounder")) = false)
    by (vm_compute; reflexivity).
  assert (H6 : extractOne Sample.same_words (normal (u "all-rounder")) STANDARD_TERMS
               = Some (u "all-rounder", 100%N)) by (vm_compute; reflexivity).
  assert (H7 : (60 <= 100)%N) by lia.
  assert (H8 : In (u "all-rounder") [u "batsman"; u "bowler"; u "all-rounder"])
    by (right; right; left; reflexivity).
  repeat (split; [assumption|]).
  destruct (@process_query_category_listing Z PyInt Sample.same_words _ Sample.world _ _
              H1 H2 H3 H4 H5 H6 H7 H8) as (found & heading & Hsel & Hhead & _).
  exists found, heading. split; [exact Hsel|exact Hhead].
Defined.

Lemma process_query_by_normal_form_witness :
  normal (u "  Player List ") = normal (u "PLAYER LIST")
  /\ process_query Sample.same_words (u "  Player List ") Sample.world
     = process_query Sample.same_words (u "PLAYER LIST") Sample.world.
Proof.
  assert (E : normal (u "  Player List ") = normal (u "PLAYER LIST"))
    by (vm_compute; reflexivity).
  split; [exact E|].
  exact (@process_query_by_normal_form Z PyInt Sample.same_words _ _ Sample.world E).
Defined.

Lemma process_query_ignores_padding_witness :
  forallb isspace_cp [0x20; 0x3000]%N = true
  /\ forallb isspace_cp [0xA]%N = true
  /\ process_query Sample.same_words ([0x20; 0x3000]%N ++ u "best player" ++ [0xA]%N)
       Sample.world
     = process_query Sample.same_words (u "best player") Sample.world.
Proof.
  assert (H1 : forallb isspace_cp [0x20; 0x3000]%N = true) by (vm_compute; reflexivity).
  assert (H2 : forallb isspace_cp [0xA]%N = true) by (vm_compute; reflexivity).
  split; [exact H1|]. split; [exact H2|].
  exact (@process_query_ignores_padding Z PyInt Sample.same_words _ _ _ Sample.world H1 H2).
Defined.

Lemma get_best_match_first_best_witness :
  strip (u "bowler") <> []
  /\ STANDARD_TERMS <> []
  /\ exists r, get_best_match Sample.same_words (u "bowler") STANDARD_TERMS 60 Sample.world
               = (Ok r, Sample.world).
Proof.
  assert (H1 : strip (u "bowler") <> []) by (vm_compute; discriminate).
  assert (H2 : STANDARD_TERMS <> []) by (unfold STANDARD_TERMS; discriminate).
  split; [exact H1|]. split; [exact H2|].
  destruct (proj2 (@get_best_match_first_best Z Sample.same_words (u "bowler")
                     STANDARD_TERMS 60 Sample.world) H1 H2) as (r & Hr & _).
  exists r. exact Hr.
Defined.

Lemma get_best_match_of_normal_form_witness :
  strip (u " Bowler ") <> []
  /\ strip (normal (u " Bowler ")) <> [].
Proof.
  assert (H1 : strip (u " Bowler ") <> []) by (vm_compute; discriminate).
  split; [exact H1|].
  exact (proj1 (@get_best_match_of_normal_form Z Sample.same_words (u " Bowler ")
                  STANDARD_TERMS 60 Sample.world H1)).
Defined.

Lemma list_number_is_lookup_number_witness :
  (forall j q, j <= 0 -> nth_error (players Sample.world) j = Some q ->
               exists v, Value q = Val v)
  /\ nth_error (filter (fun q => is_some (get (Value q))) (players Sample.world)) 0
     = Some (Sample.player "Ann" "Moratuwa" "Batsman" (Val 100%Z) (Val 50%Z))
  /\ exists v,
       Value (Sample.player "Ann" "Moratuwa" "Batsman" (Val 100%Z) (Val 50%Z)) = Val v.
Proof.
  assert (H1 : forall j q, j <= 0 -> nth_error (players Sample.world) j = Some q ->
                           exists v, Value q = Val v).
  { intros j q Hj. assert (j = 0) by lia. subst j. cbn [nth_error players Sample.world
      Sample.roster]. intros [= <-]. now exists 100%Z. }
  assert (H2 : nth_error (filter (fun q => is_some (get (Value q))) (players Sample.world)) 0
               = Some (Sample.player "Ann" "Moratuwa" "Batsman" (Val 100%Z) (Val 50%Z)))
    by reflexivity.
  split; [exact H1|]. split; [exact H2|].
  destruct (@list_number_is_lookup_number Z PyInt Sample.same_words Sample.world 0 _ H1 H2)
    as (v & Ev & _).
  exists v. exact Ev.
Defined.

Lemma category_listing_within_player_list_witness :
  exists found : list Player,
    get_players_by_category (u "BOWLER") Sample.world = (Ok found, Sample.world)
    /\ selection (fun p => lower (Category p) = lower (u "BOWLER"))
         (filter (fun p => is_some (get (Value p))) (players Sample.world)) found.
Proof.
  destruct (@category_listing_within_player_list Z (u "BOWLER") Sample.world)
    as (found & Hget & Hsel & _).
  exists found. split; [exact Hget|exact Hsel].
Defined.

Lemma sidebar_summary_counts_witness :
  players Sample.world <> []
  /\ exists items : list (pystr * nat),
       map fst items = first_occurrences [] (map Category (players Sample.world))
       /\ total_count items = length (players Sample.world).
Proof.
  assert (H1 : players Sample.world <> []) by discriminate.
  split; [exact H1|].
  destruct (proj2 (@sidebar_summary_counts Z Sample.world) H1)
    as (items & _ & Hkeys & _ & _ & _ & Htotal).
  exists items. split; [exact Hkeys|exact Htotal].
Defined.

Lemma show_response_box_witness :
  show_response Sample.same_words (u "7") Sample.world
  = (Ok (Some (BoxError,
               u "❌ Invalid player index. Please enter a number between 1 and "
                 ++ str_nat 6 ++ u ".")), Sample.world)
  /\ process_query Sample.same_words (u "7") Sample.world
     = (Ok (u "❌ Invalid player index. Please enter a number between 1 and "
            ++ str_nat 6 ++ u "."), Sample.world).
Proof.
  assert (H1 : show_response Sample.same_words (u "7") Sample.world
               = (Ok (Some (BoxError,
                            u "❌ Invalid player index. Please enter a number between 1 and "
                              ++ str_nat 6 ++ u ".")), Sample.world))
    by (vm_compute; reflexivity).
  split; [exact H1|].
  destruct (proj2 (@show_response_box Z PyInt Sample.same_words (u "7") Sample.world)
              _ _ _ H1) as (_ & _ & Hq & _).
  exact Hq.
Defined.

Lemma process_query_empty_roster_witness :
  players Sample.no_file = []
  /\ within_int_limit (u "best player") = true
  /\ exists outcome,
       process_query Sample.same_words (u "best player") Sample.no_file
       = (outcome, Sample.no_file).
Proof.
  assert (H1 : players Sample.no_file = []) by reflexivity.
  assert (HL : within_int_limit (u "best player") = true) by (vm_compute; reflexivity).
  split; [exact H1|]. split; [exact HL|].
  destruct (@process_query_empty_roster Z PyInt Sample.same_words (u "best player")
              Sample.no_file H1 HL) as (outcome & Hq & _).
  exists outcome. exact Hq.
Defined.

Lemma startup_roster_witness :
  data_json Sample.stale = Some (u "[...]")
  /\ Sample.accept (u "[...]") = Some Sample.roster
  /\ startup Sample.accept Sample.stale
     = (Ok tt, {| data_json := data_json Sample.stale; banners := banners Sample.stale;
                  players := Sample.roster |})
  /\ data_json Sample.no_file = None
  /\ startup Sample.accept Sample.no_file
     = (Ok tt, {| data_json := data_json Sample.no_file;
                  banners :=
                    u "❌ data.json file not found. Please make sure the file exists in the same directory."
                      :: banners Sample.no_file;
                  players := [] |}).
Proof.
  assert (H1 : data_json Sample.stale = Some (u "[...]")) by reflexivity.
  assert (H2 : Sample.accept (u "[...]") = Some Sample.roster) by reflexivity.
  assert (H3 : data_json Sample.no_file = None) by reflexivity.
  split; [exact H1|]. split; [exact H2|].
  split; [exact (proj1 (@startup_roster Z Sample.accept Sample.stale) _ _ H1 H2)|].
  split; [exact H3|].
  exact (proj2 (proj2 (@startup_roster Z Sample.accept Sample.no_file)) H3).
Defined.

(** On the sample roster the second line of the player list is Cy, and the
    query "2" gives Bob, who has no value and is not in the list. *)
Example list_number_is_not_lookup_number :
  nth_error (filter (fun q => is_some (get (Value q))) (players Sample.world)) 1
  = Some (Sample.player "Cy" "Peradeniya" "batsman" (Val 70%Z) Missing)
  /\ nth_error (players Sample.world) 1
     = Some (Sample.player "Bob" "Colombo" "Bowler" Null Null).
Proof. split; reflexivity. Qed.
